(** * Coil drawing core: parameters, view geometry, dimensions, sheet layout

    A shallow embedding of the pure computation of the coil drawing
    program ([core/parameters.py], [core/geometry_engine.py],
    [core/dimension_engine.py], [core/layout_engine.py]) and the
    properties of it that the design document states.

    Numbers.  Python [int] fields are [Z].  Python [float] fields are
    idealised as exact rationals [Q]: arithmetic is not rounded, and
    equality of computed coordinates is therefore stated with [==]
    ([Qeq]) unless both sides are the very same expression.  A test
    on a computed float can come out differently in the program within
    one rounding step of its boundary, so a property that rests on
    such a test is stated in the direction, or with the margin, in
    which it holds on either side.  The float range is kept where it
    decides what the code does: a number of magnitude 2^1024 - 2^970
    or more has no finite binary64 value, so converting an [int] that
    large raises, and a quotient that large is the float infinity.
    This is modelled in the front view, the first thing a layout
    computes; in the other views the [int] operands are converted
    exactly, and a property that says a layout is returned bounds the
    integer fields so that every conversion succeeds.
    The arrowhead primitive needs [cos] and [sin] and is embedded over
    the real numbers [R] instead.

    Errors.  The front view raises [ZeroDivisionError] ([25.4 / fpi])
    and [OverflowError] (the conversion of fpi to a float, and [int]
    applied to an infinite fin count); fallible functions return a
    [pyresult]. *)

From Stdlib Require Import ZArith QArith Qabs Qminmax List String Ascii Bool Lia Lqa.
From Stdlib Require Import Reals Lra Qreals.
Import ListNotations.

Local Open Scope Z_scope.
Local Open Scope Q_scope.
Local Open Scope string_scope.
Local Open Scope list_scope.

(** ** Python built-ins used by the code *)

Inductive pyexc : Set := ZeroDivisionError | OverflowError.

Inductive pyresult (A : Type) : Type :=
| Return (a : A)
| Raise (e : pyexc).
Arguments Return {A} a.
Arguments Raise {A} e.

Definition bind {A B : Type} (m : pyresult A) (k : A -> pyresult B) : pyresult B :=
  match m with
  | Return a => k a
  | Raise e => Raise e
  end.

Notation "x <- m ;; k" := (bind m (fun x => k))
  (at level 61, m at next level, right associativity).

(** [a < b] on floats, as a boolean. *)
Definition Qlt_bool (a b : Q) : bool := negb (Qle_bool b a).

(** [min(a, b)] and [max(a, b)]: the first argument is kept unless the
    second is strictly smaller (resp. larger). *)
Definition py_min (a b : Q) : Q := if Qlt_bool b a then b else a.
Definition py_max (a b : Q) : Q := if Qlt_bool a b then b else a.
Definition py_max3 (a b c : Q) : Q := py_max (py_max a b) c.

(** [range(n)]: 0, 1, ..., n-1; empty when [n <= 0]. *)
Definition range (n : Z) : list Z :=
  map Z.of_nat (seq 0 (Z.to_nat n)).

(** [range(start, stop, step)] for a positive [step]: start, start+step,
    ... below [stop].  Every call site in the code has [step >= 1]. *)
Definition range3 (start stop step : Z) : list Z :=
  map (fun i => (start + Z.of_nat i * step)%Z)
      (seq 0 (Z.to_nat ((stop - start + step - 1) / step))).

(** The float range: a number of magnitude 2^1024 - 2^970 or more is
    rounded to an infinity. *)
Definition FLOAT_OVERFLOW : Z := (2 ^ 1024 - 2 ^ 970)%Z.

Definition overflows (x : Q) : bool :=
  Qle_bool (inject_Z FLOAT_OVERFLOW) (Qabs x).

(** The conversion of the [int] operand of a float operation; beyond
    the float range it raises OverflowError (int too large to convert
    to float). *)
Definition py_float (n : Z) : pyresult Q :=
  if overflows (inject_Z n) then Raise OverflowError else Return (inject_Z n).

(** Truncation towards zero. *)
Definition truncate (x : Q) : Z := Z.quot (Qnum x) (Zpos (Qden x)).

(** [int(x)] on a float: truncation towards zero; on a float beyond
    the float range, which is an infinity, it raises OverflowError. *)
Definition py_int (x : Q) : pyresult Z :=
  if overflows x then Raise OverflowError else Return (truncate x).

(** [sub in s] on strings. *)
Fixpoint str_in (sub s : string) : bool :=
  if prefix sub s then true
  else match s with
       | EmptyString => false
       | String _ s' => str_in sub s'
       end.

(** A [for] loop that appends to a list: the accumulator is threaded
    through the iterations in order. *)
Definition for_each {A S : Type} (xs : list A) (body : S -> A -> S) (init : S) : S :=
  fold_left body xs init.

(** [out.append(x)] *)
Definition append {A : Type} (out : list A) (x : A) : list A := out ++ [x].

(** ** core/parameters.py *)

Record CoilParameters : Type := mkCoilParameters {
  fin_length : Q;
  fin_height : Q;
  no_of_rows : Z;
  tubes_per_row : Z;
  tube_od_inch : string;
  tube_diameter : Q;
  fpi : Z;
  no_of_circuits : Z;
  top_plate : Q;
  bottom_plate : Q;
  casing_left : Q;
  casing_right : Q;
  casing_top : Q;
  casing_bottom : Q;
  casing_thickness : Q;
  coil_depth : Q;
  header_depth : Q;
  return_depth : Q;
  connection_side : string;
  connection_extension : Q;
  connection_vertical_gap : Q;
  top_header_block_length : Q;
  top_return_extension : Q;
  top_right_step : Q;
  top_pipe_fitting_outer_offset : Q;
  top_pipe_fitting_inner_offset : Q;
  top_pipe_stub_center_offset : Q;
  top_pipe_stub_spacing : Q;
  front_left_reference_extra : Q;
  fin_material : string;
  fin_thickness : Q;
  tube_wall_thickness : Q
}.

(** The dataclass defaults. *)
Definition default_params : CoilParameters := {|
  fin_length := 1330;
  fin_height := 1400;
  no_of_rows := 6;
  tubes_per_row := 35;
  tube_od_inch := "5/8";
  tube_diameter := 15875 # 1000;
  fpi := 13;
  no_of_circuits := 35;
  top_plate := 65;
  bottom_plate := 35;
  casing_left := 35;
  casing_right := 65;
  casing_top := 15;
  casing_bottom := 15;
  casing_thickness := 15 # 10;
  coil_depth := 2076 # 10;
  header_depth := 320;
  return_depth := 320;
  connection_side := "LHS";
  connection_extension := 170;
  connection_vertical_gap := 75;
  top_header_block_length := 180;
  top_return_extension := 145;
  top_right_step := 12;
  top_pipe_fitting_outer_offset := 50;
  top_pipe_fitting_inner_offset := 25;
  top_pipe_stub_center_offset := 50;
  top_pipe_stub_spacing := 12;
  front_left_reference_extra := 150;
  fin_material := "Plain Aluminium";
  fin_thickness := 11 # 100;
  tube_wall_thickness := 4 # 10
|}.

(** Record updates used to build concrete inputs. *)
Definition set_connection_side (s : string) (p : CoilParameters) : CoilParameters :=
  mkCoilParameters
    (fin_length p) (fin_height p) (no_of_rows p) (tubes_per_row p)
    (tube_od_inch p) (tube_diameter p) (fpi p) (no_of_circuits p)
    (top_plate p) (bottom_plate p) (casing_left p) (casing_right p)
    (casing_top p) (casing_bottom p) (casing_thickness p) (coil_depth p)
    (header_depth p) (return_depth p) s (connection_extension p)
    (connection_vertical_gap p) (top_header_block_length p)
    (top_return_extension p) (top_right_step p)
    (top_pipe_fitting_outer_offset p) (top_pipe_fitting_inner_offset p)
    (top_pipe_stub_center_offset p) (top_pipe_stub_spacing p)
    (front_left_reference_extra p) (fin_material p) (fin_thickness p)
    (tube_wall_thickness p).

Definition set_no_of_rows (n : Z) (p : CoilParameters) : CoilParameters :=
  mkCoilParameters
    (fin_length p) (fin_height p) n (tubes_per_row p)
    (tube_od_inch p) (tube_diameter p) (fpi p) (no_of_circuits p)
    (top_plate p) (bottom_plate p) (casing_left p) (casing_right p)
    (casing_top p) (casing_bottom p) (casing_thickness p) (coil_depth p)
    (header_depth p) (return_depth p) (connection_side p) (connection_extension p)
    (connection_vertical_gap p) (top_header_block_length p)
    (top_return_extension p) (top_right_step p)
    (top_pipe_fitting_outer_offset p) (top_pipe_fitting_inner_offset p)
    (top_pipe_stub_center_offset p) (top_pipe_stub_spacing p)
    (front_left_reference_extra p) (fin_material p) (fin_thickness p)
    (tube_wall_thickness p).

Definition set_fpi (n : Z) (p : CoilParameters) : CoilParameters :=
  mkCoilParameters
    (fin_length p) (fin_height p) (no_of_rows p) (tubes_per_row p)
    (tube_od_inch p) (tube_diameter p) n (no_of_circuits p)
    (top_plate p) (bottom_plate p) (casing_left p) (casing_right p)
    (casing_top p) (casing_bottom p) (casing_thickness p) (coil_depth p)
    (header_depth p) (return_depth p) (connection_side p) (connection_extension p)
    (connection_vertical_gap p) (top_header_block_length p)
    (top_return_extension p) (top_right_step p)
    (top_pipe_fitting_outer_offset p) (top_pipe_fitting_inner_offset p)
    (top_pipe_stub_center_offset p) (top_pipe_stub_spacing p)
    (front_left_reference_extra p) (fin_material p) (fin_thickness p)
    (tube_wall_thickness p).

Definition set_return_depth (rd : Q) (p : CoilParameters) : CoilParameters :=
  mkCoilParameters
    (fin_length p) (fin_height p) (no_of_rows p) (tubes_per_row p)
    (tube_od_inch p) (tube_diameter p) (fpi p) (no_of_circuits p)
    (top_plate p) (bottom_plate p) (casing_left p) (casing_right p)
    (casing_top p) (casing_bottom p) (casing_thickness p) (coil_depth p)
    (header_depth p) rd (connection_side p) (connection_extension p)
    (connection_vertical_gap p) (top_header_block_length p)
    (top_return_extension p) (top_right_step p)
    (top_pipe_fitting_outer_offset p) (top_pipe_fitting_inner_offset p)
    (top_pipe_stub_center_offset p) (top_pipe_stub_spacing p)
    (front_left_reference_extra p) (fin_material p) (fin_thickness p)
    (tube_wall_thickness p).

Definition set_fin_thickness (t : Q) (p : CoilParameters) : CoilParameters :=
  mkCoilParameters
    (fin_length p) (fin_height p) (no_of_rows p) (tubes_per_row p)
    (tube_od_inch p) (tube_diameter p) (fpi p) (no_of_circuits p)
    (top_plate p) (bottom_plate p) (casing_left p) (casing_right p)
    (casing_top p) (casing_bottom p) (casing_thickness p) (coil_depth p)
    (header_depth p) (return_depth p) (connection_side p) (connection_extension p)
    (connection_vertical_gap p) (top_header_block_length p)
    (top_return_extension p) (top_right_step p)
    (top_pipe_fitting_outer_offset p) (top_pipe_fitting_inner_offset p)
    (top_pipe_stub_center_offset p) (top_pipe_stub_spacing p)
    (front_left_reference_extra p) (fin_material p) t
    (tube_wall_thickness p).

Definition set_top_plate (tp : Q) (p : CoilParameters) : CoilParameters :=
  mkCoilParameters
    (fin_length p) (fin_height p) (no_of_rows p) (tubes_per_row p)
    (tube_od_inch p) (tube_diameter p) (fpi p) (no_of_circuits p)
    tp (bottom_plate p) (casing_left p) (casing_right p)
    (casing_top p) (casing_bottom p) (casing_thickness p) (coil_depth p)
    (header_depth p) (return_depth p) (connection_side p) (connection_extension p)
    (connection_vertical_gap p) (top_header_block_length p)
    (top_return_extension p) (top_right_step p)
    (top_pipe_fitting_outer_offset p) (top_pipe_fitting_inner_offset p)
    (top_pipe_stub_center_offset p) (top_pipe_stub_spacing p)
    (front_left_reference_extra p) (fin_material p) (fin_thickness p)
    (tube_wall_thickness p).

(** The computed properties. *)
Definition casing_width (p : CoilParameters) : Q :=
  casing_left p + fin_length p + casing_right p.

Definition casing_height (p : CoilParameters) : Q :=
  casing_bottom p + fin_height p + casing_top p.

Definition vertical_pitch (p : CoilParameters) : Q :=
  if (tubes_per_row p <=? 1)%Z then 0
  else (fin_height p - top_plate p - bottom_plate p) / inject_Z (tubes_per_row p - 1).

Definition row_pitch (p : CoilParameters) : Q :=
  if (no_of_rows p <=? 1)%Z then 0
  else coil_depth p / inject_Z (no_of_rows p).

(** [validate_parameters]: the two tuples of attribute names, each name
    paired with the attribute [getattr] reads for it. *)
Definition positive_fields : list (string * (CoilParameters -> Q)) :=
  [ ("fin_length", fin_length); ("fin_height", fin_height);
    ("tube_diameter", tube_diameter);
    ("casing_top", casing_top); ("casing_bottom", casing_bottom);
    ("casing_left", casing_left); ("casing_right", casing_right);
    ("casing_thickness", casing_thickness); ("coil_depth", coil_depth);
    ("header_depth", header_depth);
    ("connection_extension", connection_extension);
    ("connection_vertical_gap", connection_vertical_gap);
    ("top_header_block_length", top_header_block_length);
    ("top_return_extension", top_return_extension);
    ("top_right_step", top_right_step);
    ("top_pipe_fitting_outer_offset", top_pipe_fitting_outer_offset);
    ("top_pipe_fitting_inner_offset", top_pipe_fitting_inner_offset);
    ("top_pipe_stub_center_offset", top_pipe_stub_center_offset);
    ("top_pipe_stub_spacing", top_pipe_stub_spacing);
    ("front_left_reference_extra", front_left_reference_extra) ].

Definition count_fields : list (string * (CoilParameters -> Z)) :=
  [ ("no_of_rows", no_of_rows); ("tubes_per_row", tubes_per_row); ("fpi", fpi) ].

Definition must_be_positive (name : string) : string := (name ++ " must be positive")%string.
Definition must_be_ge_1 (name : string) : string := (name ++ " must be >= 1")%string.
Definition plate_message : string := "Top plate + Bottom plate must be < Fin Height".

(** The plate test compares fin_height with the exact sum of the two
    offsets; the program compares it with the rounded sum, which can
    differ only when the exact sum is within one rounding step of
    fin_height.  Rounding is monotone and fin_height is itself a
    float, so a record the program accepts has top_plate + bottom_plate
    < fin_height exactly, and one with fin_height <= top_plate +
    bottom_plate gets the plate sentence from the program too. *)
Definition validate_parameters (params : CoilParameters) : list string :=
  let errors : list string := [] in
  let errors :=
    for_each positive_fields
      (fun errors '(name, getattr) =>
         if Qle_bool (getattr params) 0
         then append errors (must_be_positive name)
         else errors) errors in
  let errors :=
    for_each count_fields
      (fun errors '(name, getattr) =>
         if (getattr params <? 1)%Z
         then append errors (must_be_ge_1 name)
         else errors) errors in
  let errors :=
    if Qle_bool (fin_height params) (top_plate params + bottom_plate params)
    then append errors plate_message
    else errors in
  errors.

(** ** core/geometry_engine.py *)

(** The primitive kinds, as the tuples the code builds. *)
Definition Rect : Type := Q * Q * Q * Q.          (* x, y, width, height *)
Definition Line : Type := Q * Q * Q * Q.          (* x1, y1, x2, y2 *)
Definition Circle : Type := Q * Q * Q.            (* cx, cy, r *)
Definition Arc : Type := Q * Q * Q * Q * Q.       (* cx, cy, r, start, span *)
Definition Point : Type := Q * Q.

(** [a / b] on floats with a divisor that may be zero. *)
Definition py_div (a b : Q) : pyresult Q :=
  if Qeq_bool b 0 then Raise ZeroDivisionError else Return (a / b).

Record FrontGeometry : Type := mkFrontGeometry {
  fg_view_type : string;
  fg_outer_rect : Rect;
  fg_fin_rect : Rect;
  fg_fin_lines : list Line;
  fg_params : CoilParameters
}.

(** The [int] operand of [25.4 / params.fpi] is converted to a float
    before the division.  The fin count is truncated from the exact
    quotient, which can differ by one from the program's when the
    quotient is within one rounding step of an integer.  The loop
    index stays below the fin count, so its conversion in
    [i * fin_spacing] cannot fail. *)
Definition generate_front_geometry (params : CoilParameters) : pyresult FrontGeometry :=
  let CW := casing_width params in
  let CH := casing_height params in
  let cl := casing_left params in
  let cb := casing_bottom params in
  let FL := fin_length params in
  let FH := fin_height params in
  let outer_rect : Rect := (0, 0, CW, CH) in
  let fin_rect : Rect := (cl, cb, FL, FH) in
  fpi_as_float <- py_float (fpi params) ;;
  fin_spacing <- py_div (254 # 10) fpi_as_float ;;
  ratio <- py_div FH fin_spacing ;;
  n_fins <- py_int ratio ;;
  let step := Z.max 1 (n_fins / 40) in
  let fin_lines :=
    for_each (range3 0 n_fins step)
      (fun (fin_lines : list Line) i =>
         let y := cb + inject_Z i * fin_spacing in
         if Qlt_bool y (cb + FH)
         then append fin_lines (cl, y, cl + FL, y)
         else fin_lines) [] in
  Return (mkFrontGeometry "FRONT" outer_rect fin_rect fin_lines params).

(** The header-side and return-end-side views build the same keys. *)
Record SideGeometry : Type := mkSideGeometry {
  sg_view_type : string;
  sg_outer_rect : Rect;
  sg_inner_rect : Rect;
  sg_offset_lines : list Line;
  sg_tubes : list Circle;
  sg_params : CoilParameters
}.

Definition generate_header_geometry (params : CoilParameters) : SideGeometry :=
  let HD := header_depth params in
  let TP := top_plate params in
  let BP := bottom_plate params in
  let NR := no_of_rows params in
  let TPR := tubes_per_row params in
  let VP := vertical_pitch params in
  let RP := row_pitch params in
  let tube_r := tube_diameter params / 2 in
  let CH := (inject_Z TPR * VP) + TP + BP in
  let outer_rect : Rect := (0, 0, HD, CH) in
  let bp_y := BP in
  let tp_y := CH - TP in
  let offset_lines : list Line := [ (0, bp_y, HD, bp_y); (0, tp_y, HD, tp_y) ] in
  let grid_w := RP * inject_Z NR in
  let grid_h := inject_Z TPR * VP in
  let grid_x := (HD - grid_w) / 2 in
  let grid_y := bp_y in
  let inner_rect : Rect := (grid_x, grid_y, grid_w, grid_h) in
  let tubes :=
    for_each (range NR)
      (fun (tubes : list Circle) row =>
         let cx := grid_x + RP / 2 + inject_Z row * RP in
         let y_start := grid_y + (if (row mod 2 =? 0)%Z then VP / 4 else 3 * VP / 4) in
         for_each (range TPR)
           (fun (tubes : list Circle) t =>
              let cy := y_start + inject_Z t * VP in
              append tubes (cx, cy, tube_r)) tubes) [] in
  mkSideGeometry "HEADER_SIDE" outer_rect inner_rect offset_lines tubes params.

Definition generate_return_geometry (params : CoilParameters) : SideGeometry :=
  let RD := return_depth params in
  let TP := top_plate params in
  let BP := bottom_plate params in
  let NR := no_of_rows params in
  let TPR := tubes_per_row params in
  let VP := vertical_pitch params in
  let RP := row_pitch params in
  let tube_r := tube_diameter params / 2 in
  let CH := (inject_Z TPR * VP) + TP + BP in
  let outer_rect : Rect := (0, 0, RD, CH) in
  let bp_y := BP in
  let tp_y := CH - TP in
  let offset_lines : list Line := [ (0, bp_y, RD, bp_y); (0, tp_y, RD, tp_y) ] in
  let grid_w := RP * inject_Z NR in
  let grid_h := inject_Z TPR * VP in
  let grid_x := (RD - grid_w) / 2 in
  let grid_y := bp_y in
  let inner_rect : Rect := (grid_x, grid_y, grid_w, grid_h) in
  let tubes :=
    for_each (range NR)
      (fun (tubes : list Circle) row =>
         let cx := grid_x + grid_w - (RP / 2 + inject_Z row * RP) in
         let y_start := grid_y + (if (row mod 2 =? 0)%Z then VP / 4 else 3 * VP / 4) in
         for_each (range TPR)
           (fun (tubes : list Circle) t =>
              let cy := y_start + inject_Z t * VP in
              append tubes (cx, cy, tube_r)) tubes) [] in
  mkSideGeometry "RETURN_END" outer_rect inner_rect offset_lines tubes params.

Record ConnectionPipe : Type := mkConnectionPipe {
  line : Line;
  label : string;
  label_pos : Point
}.

Record TopGeometry : Type := mkTopGeometry {
  tg_view_type : string;
  tg_outer_rect : Rect;
  tg_header_block_rect : Rect;
  tg_fin_rect : Rect;
  tg_zone_lines : list Line;
  tg_tube_lines : list Line;
  tg_connection_pipes : list ConnectionPipe;
  tg_pipe_circles : list Circle;
  tg_pipe_stubs : list Line;
  tg_bend_arcs : list Arc;
  tg_return_rect : Rect;
  tg_top_right_box : Rect;
  tg_pipe_ext : Q;
  tg_return_ext : Q;
  tg_margin : Q;
  tg_total_width : Q;
  tg_header_block_len : Q;
  tg_pipe_gap : Q;
  tg_top_right_step : Q;
  tg_params : CoilParameters
}.

Definition generate_top_geometry (params : CoilParameters) : TopGeometry :=
  let CW := casing_width params in
  let cl := casing_left params in
  let cr := casing_right params in
  let FL := fin_length params in
  let HD := header_depth params in
  let CD := coil_depth params in
  let NR := no_of_rows params in
  let RP := row_pitch params in
  let tube_r := tube_diameter params / 2 in
  let margin := (HD - CD) / 2 in
  let pipe_ext := connection_extension params in
  let pipe_gap := connection_vertical_gap params in
  let header_block_len := py_min (top_header_block_length params) CW in
  let return_ext := top_return_extension params in
  let top_right_step := top_right_step params in
  let fit_outer_off := top_pipe_fitting_outer_offset params in
  let fit_inner_off := top_pipe_fitting_inner_offset params in
  let stub_center_off := top_pipe_stub_center_offset params in
  let stub_spacing := top_pipe_stub_spacing params in
  let outer_rect : Rect := (0, 0, CW, HD) in
  let header_block_rect : Rect := (0, margin, py_min header_block_len CW, CD) in
  let fin_rect : Rect := (cl, margin, FL, CD) in
  let zone_lines : list Line :=
    [ (header_block_len, margin, CW, margin);
      (header_block_len, margin + CD, CW, margin + CD) ] in
  let tube_lines :=
    for_each (range NR)
      (fun (tube_lines : list Line) row =>
         let yc := margin + RP / 2 + inject_Z row * RP in
         let tube_lines := append tube_lines (header_block_len, yc - tube_r, CW, yc - tube_r) in
         append tube_lines (header_block_len, yc + tube_r, CW, yc + tube_r)) [] in
  let pipe_r := tube_r in
  let y_centre := HD / 2 in
  let pipe_y_in := y_centre - pipe_gap / 2 in
  let pipe_y_out := y_centre + pipe_gap / 2 in
  let connection_pipes : list ConnectionPipe := [] in
  let pipe_circles : list Circle := [] in
  let pipe_stubs : list Line := [] in
  (* the branch taken leaves the three lists in the state [branch] *)
  let branch :=
    if String.eqb (connection_side params) "LHS" then
      let connection_pipes := append connection_pipes
        (mkConnectionPipe (- pipe_ext, pipe_y_in, header_block_len, pipe_y_in)
                          "IN" (- pipe_ext - 20, pipe_y_in)) in
      let pipe_circles := append pipe_circles (- pipe_ext + fit_outer_off, pipe_y_in, pipe_r) in
      let pipe_circles := append pipe_circles (header_block_len - fit_inner_off, pipe_y_in, pipe_r) in
      let pipe_stubs := append pipe_stubs
        (- pipe_ext + stub_center_off - stub_spacing / 2, pipe_y_in - pipe_r,
         - pipe_ext + stub_center_off - stub_spacing / 2, pipe_y_in + pipe_r) in
      let pipe_stubs := append pipe_stubs
        (- pipe_ext + stub_center_off + stub_spacing / 2, pipe_y_in - pipe_r,
         - pipe_ext + stub_center_off + stub_spacing / 2, pipe_y_in + pipe_r) in
      let connection_pipes := append connection_pipes
        (mkConnectionPipe (- pipe_ext, pipe_y_out, header_block_len, pipe_y_out)
                          "OUT" (- pipe_ext - 25, pipe_y_out)) in
      let pipe_circles := append pipe_circles (- pipe_ext + fit_outer_off, pipe_y_out, pipe_r) in
      let pipe_circles := append pipe_circles (header_block_len - fit_inner_off, pipe_y_out, pipe_r) in
      let pipe_stubs := append pipe_stubs
        (- pipe_ext + stub_center_off - stub_spacing / 2, pipe_y_out - pipe_r,
         - pipe_ext + stub_center_off - stub_spacing / 2, pipe_y_out + pipe_r) in
      let pipe_stubs := append pipe_stubs
        (- pipe_ext + stub_center_off + stub_spacing / 2, pipe_y_out - pipe_r,
         - pipe_ext + stub_center_off + stub_spacing / 2, pipe_y_out + pipe_r) in
      (connection_pipes, pipe_circles, pipe_stubs)
    else
      let connection_pipes := append connection_pipes
        (mkConnectionPipe (CW - header_block_len, pipe_y_in, CW + pipe_ext, pipe_y_in)
                          "IN" (CW + pipe_ext + 15, pipe_y_in)) in
      let pipe_circles := append pipe_circles (CW + pipe_ext - fit_outer_off, pipe_y_in, pipe_r) in
      let pipe_circles := append pipe_circles (CW - header_block_len + fit_inner_off, pipe_y_in, pipe_r) in
      let connection_pipes := append connection_pipes
        (mkConnectionPipe (CW - header_block_len, pipe_y_out, CW + pipe_ext, pipe_y_out)
                          "OUT" (CW + pipe_ext + 15, pipe_y_out)) in
      let pipe_circles := append pipe_circles (CW + pipe_ext - fit_outer_off, pipe_y_out, pipe_r) in
      let pipe_circles := append pipe_circles (CW - header_block_len + fit_inner_off, pipe_y_out, pipe_r) in
      (connection_pipes, pipe_circles, pipe_stubs) in
  let connection_pipes := fst (fst branch) in
  let pipe_circles := snd (fst branch) in
  let pipe_stubs := snd branch in
  let return_rect : Rect := (CW, margin, return_ext, CD) in
  let bend_arcs :=
    for_each (range3 0 (NR - 1) 2)
      (fun (bend_arcs : list Arc) row =>
         let y1 := margin + RP / 2 + inject_Z row * RP in
         let y2 := margin + RP / 2 + inject_Z (row + 1) * RP in
         let mid_y := (y1 + y2) / 2 in
         let r := (y2 - y1) / 2 in
         append bend_arcs (CW + cr, mid_y, r, - (90), 180)) [] in
  let top_right_box : Rect := (CW, 0, top_right_step, margin) in
  let total_width := pipe_ext + CW + return_ext in
  mkTopGeometry "TOP" outer_rect header_block_rect fin_rect zone_lines tube_lines
    connection_pipes pipe_circles pipe_stubs bend_arcs return_rect top_right_box
    pipe_ext return_ext margin total_width header_block_len pipe_gap top_right_step
    params.

(** ** core/layout_engine.py *)

Definition VIEW_GAP : Q := 80.

(** A view's geometry dictionary is one of the three record shapes. *)
Inductive ViewGeometry : Type :=
| FrontView (g : FrontGeometry)
| SideView (g : SideGeometry)
| TopView (g : TopGeometry).

(** [geo["outer_rect"]] *)
Definition outer_rect (geo : ViewGeometry) : Rect :=
  match geo with
  | FrontView g => fg_outer_rect g
  | SideView g => sg_outer_rect g
  | TopView g => tg_outer_rect g
  end.

(** The dimension lists, the notes and the title block carried by the
    sheet are text and annotation payloads computed by total functions;
    they take no part in the placement and are left out of the records. *)
Record ViewDescriptor : Type := mkViewDescriptor {
  vd_label : string;
  offset_x : Q;
  offset_y : Q;
  geometry : ViewGeometry
}.

Record DrawingLayout : Type := mkDrawingLayout {
  views : list ViewDescriptor;
  notes_offset : Point;
  title_block_offset : Point
}.

Definition generate_layout (params : CoilParameters) : pyresult DrawingLayout :=
  front_geo <- generate_front_geometry params ;;
  let header_geo := generate_header_geometry params in
  let return_geo := generate_return_geometry params in
  let top_geo := generate_top_geometry params in
  let '(_, _, front_w, front_h) := fg_outer_rect front_geo in
  let '(_, _, header_w, header_h) := sg_outer_rect header_geo in
  let '(_, _, return_w, return_h) := sg_outer_rect return_geo in
  let '(_, _, top_w, top_h) := tg_outer_rect top_geo in
  let bottom_y := top_h + VIEW_GAP in
  let header_x : Q := 0 in
  let front_x := header_w + VIEW_GAP in
  let return_x := front_x + front_w + VIEW_GAP in
  let top_x := front_x in
  let top_y : Q := 0 in
  let views :=
    [ mkViewDescriptor "TOP" top_x top_y (TopView top_geo);
      mkViewDescriptor "HEADER SIDE" header_x bottom_y (SideView header_geo);
      mkViewDescriptor "FRONT" front_x bottom_y (FrontView front_geo);
      mkViewDescriptor "RETURN END SIDE" return_x bottom_y (SideView return_geo) ] in
  let notes_y := bottom_y + py_max3 front_h header_h return_h + VIEW_GAP / 2 in
  let notes_offset : Point := (header_x, notes_y) in
  let tb_offset : Point := (return_x, notes_y) in
  Return (mkDrawingLayout views notes_offset tb_offset).

(** ** core/dimension_engine.py *)

Module DimensionEngine.
Local Open Scope R_scope.

Definition ARROW_LEN : R := 3.
Definition ARROW_ANGLE : R := 25.
Definition EXT_GAP : R := 2.
Definition EXT_OVER : R := 3.
Definition DIM_OFF : R := 15.

(** [math.radians] *)
Definition radians (deg : R) : R := deg * PI / 180.

Definition Segment : Type := R * R * R * R.       (* x1, y1, x2, y2 *)

Definition arrowhead_lines (tx ty a_deg : R) : list Segment :=
  let a := radians a_deg in
  let ha := radians ARROW_ANGLE in
  for_each [1; -1]%Z
    (fun (out : list Segment) s =>
       let dx := - ARROW_LEN * cos (a + IZR s * ha) in
       let dy := - ARROW_LEN * sin (a + IZR s * ha) in
       append out (tx, ty, tx + dx, ty + dy)) [].

(** Euclidean length of a segment. *)
Definition segment_length (l : Segment) : R :=
  let '(x1, y1, x2, y2) := l in
  sqrt ((x2 - x1) * (x2 - x1) + (y2 - y1) * (y2 - y1)).

Record Dimension : Type := mkDimension {
  lines : list Segment;
  arrows : list (R * R * R);
  texts : list (R * R * string * R)
}.

Section LinearDimensions.
(** The ["{:.1f}"] formatting of a float, used for the default label. *)
Variable format_1f : R -> string.

Definition _hdim (p1 p2 : R * R) (offset : R) (text : option string) (above : bool)
  : Dimension :=
  let text := match text with
              | None => format_1f (Rabs (fst p2 - fst p1))
              | Some s => s
              end in
  let sign : R := if above then 1 else -1 in
  let dy := sign * Rabs offset in
  let dim_y := snd p1 + dy in
  mkDimension
    [ (fst p1, snd p1 + sign * EXT_GAP, fst p1, dim_y + sign * EXT_OVER);
      (fst p2, snd p2 + sign * EXT_GAP, fst p2, dim_y + sign * EXT_OVER);
      (fst p1, dim_y, fst p2, dim_y) ]
    [ (fst p1, dim_y, 0); (fst p2, dim_y, 180) ]
    [ ((fst p1 + fst p2) / 2, dim_y, text, 0) ].

Definition _vdim (p1 p2 : R * R) (offset : R) (text : option string) (right : bool)
  : Dimension :=
  let text := match text with
              | None => format_1f (Rabs (snd p2 - snd p1))
              | Some s => s
              end in
  let sign : R := if right then 1 else -1 in
  let dx := sign * Rabs offset in
  let dim_x := fst p1 + dx in
  mkDimension
    [ (fst p1 + sign * EXT_GAP, snd p1, dim_x + sign * EXT_OVER, snd p1);
      (fst p2 + sign * EXT_GAP, snd p2, dim_x + sign * EXT_OVER, snd p2);
      (dim_x, snd p1, dim_x, snd p2) ]
    [ (dim_x, snd p1, 90); (dim_x, snd p2, 270) ]
    [ (dim_x, (snd p1 + snd p2) / 2, text, 90) ].
End LinearDimensions.

(** *** Per-view dimension generators

    The geometry records hold rationals; the points handed to [_hdim]
    and [_vdim] are their images in the reals.  The float formats
    ["{:.0f}"], ["{:.1f}"] and the printing of an [int] are parameters.
    [geo.get("params")] is always present in the records, so the early
    [return dims] is never taken. *)

Definition pt (x y : Q) : R * R := (Q2R x, Q2R y).

Section ViewDimensions.
Variable format_0f : R -> string.
Variable format_1f : R -> string.
Variable format_int : Z -> string.

Definition generate_front_dimensions (geo : FrontGeometry) : list Dimension :=
  let p := fg_params geo in
  let '(ox, oy, ow, oh) := fg_outer_rect geo in
  let '(fx, fy, fw, fh) := fg_fin_rect geo in
  let dims : list Dimension := [] in
  let dims := append dims
    (_hdim format_1f (pt fx oy) (pt (fx + fw) oy) 25
           (Some (format_0f (Q2R fw) ++ " (FL)")%string) false) in
  let dims := append dims
    (_hdim format_1f (pt ox oy) (pt (ox + ow) oy) 40
           (Some (format_0f (Q2R ow))) false) in
  let dims := append dims
    (_hdim format_1f (pt ox oy) (pt fx oy) 12
           (Some (format_0f (Q2R (casing_left p)))) false) in
  let dims := append dims
    (_hdim format_1f (pt (fx + fw) oy) (pt (ox + ow) oy) 12
           (Some (format_0f (Q2R (casing_right p)))) false) in
  let dims := append dims
    (_vdim format_1f (pt (ox + ow) fy) (pt (ox + ow) (fy + fh)) 25
           (Some (format_0f (Q2R fh) ++ " (FH)")%string) true) in
  let dims := append dims
    (_vdim format_1f (pt (ox + ow) oy) (pt (ox + ow) (oy + oh)) 40
           (Some (format_0f (Q2R oh))) true) in
  let dims := append dims
    (_vdim format_1f (pt (ox + ow) oy) (pt (ox + ow) fy) 12
           (Some (format_0f (Q2R (casing_bottom p)))) true) in
  let dims := append dims
    (_vdim format_1f (pt (ox + ow) (fy + fh)) (pt (ox + ow) (oy + oh)) 12
           (Some (format_0f (Q2R (casing_top p)))) true) in
  let dims := append dims
    (_vdim format_1f (pt ox fy)
           (pt ox (fy + bottom_plate p + front_left_reference_extra p)) 15
           (Some (format_0f (Q2R (bottom_plate p + front_left_reference_extra p))))
           false) in
  let dims := append dims
    (mkDimension [] []
       [ (Q2R (fx + fw / 2), Q2R (fy + fh / 2),
          (format_int (fpi p) ++ " FPI")%string, 0) ]) in
  dims.

(** [generate_header_dimensions] and [generate_return_dimensions] have
    the same body. *)
Definition generate_side_dimensions (geo : SideGeometry) : list Dimension :=
  let p := sg_params geo in
  let '(ox, oy, ow, oh) := sg_outer_rect geo in
  let '(ix, iy, iw, ih) := sg_inner_rect geo in
  let dims : list Dimension := [] in
  let dims := append dims
    (_hdim format_1f (pt ox oy) (pt (ox + ow) oy) 25
           (Some (format_0f (Q2R ow))) false) in
  let dims := append dims
    (_vdim format_1f (pt (ox + ow) oy) (pt (ox + ow) (oy + oh)) 35
           (Some (format_1f (Q2R oh))) true) in
  let dims := append dims
    (_vdim format_1f (pt (ox + ow) oy) (pt (ox + ow) iy) 12
           (Some (format_0f (Q2R (bottom_plate p)))) true) in
  let dims := append dims
    (_vdim format_1f (pt (ox + ow) (iy + ih)) (pt (ox + ow) (oy + oh)) 12
           (Some (format_0f (Q2R (top_plate p)))) true) in
  let dims := append dims
    (_hdim format_1f (pt ix oy) (pt (ix + iw) oy) 40
           (Some (format_1f (Q2R iw))) false) in
  let dims := append dims
    (_vdim format_1f (pt ox iy) (pt ox (iy + ih)) 20
           (Some (format_1f (Q2R ih))) false) in
  dims.

Definition generate_header_dimensions (geo : SideGeometry) : list Dimension :=
  generate_side_dimensions geo.

Definition generate_return_dimensions (geo : SideGeometry) : list Dimension :=
  generate_side_dimensions geo.

Definition generate_top_dimensions (geo : TopGeometry) : list Dimension :=
  let p := tg_params geo in
  let '(ox, oy, ow, oh) := tg_outer_rect geo in
  let '(fx, fy, fw, fh) := tg_fin_rect geo in
  let pipe_ext := tg_pipe_ext geo in
  let return_ext := tg_return_ext geo in
  let margin := tg_margin geo in
  let total_w := tg_total_width geo in
  let header_block_len := tg_header_block_len geo in
  let pipe_gap := tg_pipe_gap geo in
  let top_right_step := tg_top_right_step geo in
  let btm := (oy + oh)%Q in
  let dims : list Dimension := [] in
  (* bottom, stacked rows *)
  let dims := append dims
    (_hdim format_1f (pt ox btm) (pt fx btm) 12
           (Some (format_0f (Q2R (casing_left p)))) false) in
  let dims := append dims
    (_hdim format_1f (pt fx btm) (pt (fx + fw) btm) 25
           (Some (format_0f (Q2R fw) ++ " (FL)")%string) false) in
  let dims := append dims
    (_hdim format_1f (pt (fx + fw) btm) (pt (ox + ow) btm) 12
           (Some (format_0f (Q2R (casing_right p)))) false) in
  let dims := append dims
    (_hdim format_1f (pt ox btm) (pt (ox + ow) btm) 40
           (Some (format_0f (Q2R ow))) false) in
  let dims := append dims
    (_hdim format_1f (pt (- pipe_ext) btm) (pt ox btm) 55
           (Some (format_0f (Q2R pipe_ext))) false) in
  let dims := append dims
    (_hdim format_1f (pt ox btm) (pt (ox + ow + return_ext) btm) 70
           (Some (format_0f (Q2R (ow + return_ext)))) false) in
  let dims := append dims
    (_hdim format_1f (pt (- pipe_ext) btm) (pt (ox + ow + return_ext) btm) 85
           (Some (format_0f (Q2R total_w))) false) in
  (* top, pipe run *)
  let dims := append dims
    (_hdim format_1f (pt (- pipe_ext) oy) (pt (ox + header_block_len) oy) (-15)
           (Some (format_0f (Q2R (pipe_ext + header_block_len)))) true) in
  let dims := append dims
    (_hdim format_1f (pt (- pipe_ext) oy) (pt ox oy) (-28)
           (Some (format_0f (Q2R pipe_ext))) true) in
  let dims := append dims
    (_hdim format_1f (pt ox oy) (pt (ox + header_block_len) oy) (-28)
           (Some (format_0f (Q2R header_block_len))) true) in
  (* left, vertical *)
  let dims := append dims
    (_vdim format_1f (pt (ox + header_block_len) fy)
           (pt (ox + header_block_len) (fy + fh)) 15
           (Some (format_1f (Q2R (coil_depth p)))) false) in
  let y_centre := (oh / 2)%Q in
  let pipe_y_in := (y_centre - pipe_gap / 2)%Q in
  let pipe_y_out := (y_centre + pipe_gap / 2)%Q in
  let dims := append dims
    (_vdim format_1f (pt (- pipe_ext - 5) pipe_y_in) (pt (- pipe_ext - 5) pipe_y_out) 10
           (Some (format_0f (Q2R pipe_gap))) false) in
  (* right, vertical *)
  let dims := append dims
    (_vdim format_1f (pt (ox + ow + return_ext) oy)
           (pt (ox + ow + return_ext) (oy + oh)) 25
           (Some (format_0f (Q2R oh))) true) in
  let dims := append dims
    (_vdim format_1f (pt (ox + ow) oy) (pt (ox + ow) fy) 12
           (Some (format_1f (Q2R margin))) true) in
  let dims := append dims
    (_vdim format_1f (pt (ox + ow) (fy + fh)) (pt (ox + ow) (oy + oh)) 12
           (Some (format_1f (Q2R margin))) true) in
  let dims := append dims
    (_vdim format_1f (pt (ox + ow + return_ext) oy)
           (pt (ox + ow + return_ext) (oy + top_right_step)) 12
           (Some (format_0f (Q2R top_right_step))) true) in
  dims.

(** The dimension list [generate_layout] attaches to a view. *)
Definition view_dimensions (geo : ViewGeometry) : list Dimension :=
  match geo with
  | FrontView g => generate_front_dimensions g
  | SideView g => generate_side_dimensions g
  | TopView g => generate_top_dimensions g
  end.
End ViewDimensions.

End DimensionEngine.

(** ** ui/drawing_view.py *)

Module DrawingView.

Inductive MouseButton : Set := LeftButton | RightButton | MiddleButton.

(** The fields of the widget that the event handlers read and write;
    points are QPointF values. *)
Record state : Type := mkState {
  _layout : option DrawingLayout;
  _scale : Q;
  _offset : Point;
  _dragging : bool;
  _last_pos : Point
}.

(** [__init__] *)
Definition init : state :=
  mkState None (45 # 100) (80, 40) false (0, 0).

Definition set_layout (self : state) (layout : DrawingLayout) : state :=
  mkState (Some layout) (_scale self) (_offset self) (_dragging self) (_last_pos self).

Definition get_layout (self : state) : option DrawingLayout := _layout self.

(** [wheelEvent], given [event.angleDelta().y()]. *)
Definition wheelEvent (self : state) (angle_delta_y : Z) : state :=
  let factor := if (angle_delta_y >? 0)%Z then 115 # 100 else 1 / (115 # 100) in
  let scale := _scale self * factor in
  let scale := py_max (5 # 100) (py_min scale 10) in
  mkState (_layout self) scale (_offset self) (_dragging self) (_last_pos self).

(** [mousePressEvent], given [event.button()] and [event.position()]. *)
Definition mousePressEvent (self : state) (button : MouseButton) (position : Point) : state :=
  match button with
  | LeftButton =>
      mkState (_layout self) (_scale self) (_offset self) true position
  | _ => self
  end.

(** [mouseMoveEvent], given [event.position()]. *)
Definition mouseMoveEvent (self : state) (position : Point) : state :=
  if _dragging self then
    let delta : Point := (fst position - fst (_last_pos self),
                          snd position - snd (_last_pos self)) in
    let offset : Point := (fst (_offset self) + fst delta,
                           snd (_offset self) + snd delta) in
    mkState (_layout self) (_scale self) offset (_dragging self) position
  else self.

(** [mouseReleaseEvent], given [event.button()]. *)
Definition mouseReleaseEvent (self : state) (button : MouseButton) : state :=
  match button with
  | LeftButton =>
      mkState (_layout self) (_scale self) (_offset self) false (_last_pos self)
  | _ => self
  end.

(** The events the widget reacts to, and the handler each one runs. *)
Inductive event : Type :=
| Wheel (angle_delta_y : Z)
| Press (button : MouseButton) (position : Point)
| Move (position : Point)
| Release (button : MouseButton)
| SetLayout (layout : DrawingLayout).

Definition handle (self : state) (e : event) : state :=
  match e with
  | Wheel dy => wheelEvent self dy
  | Press b pos => mousePressEvent self b pos
  | Move pos => mouseMoveEvent self pos
  | Release b => mouseReleaseEvent self b
  | SetLayout l => set_layout self l
  end.

Definition run (self : state) (events : list event) : state :=
  fold_left handle events self.

End DrawingView.

(** ** ui/parameter_panel.py *)

Module ParameterPanel.

Definition TUBE_OD_OPTIONS : list (string * Q) :=
  [ ("1/4", 635 # 100); ("5/16", 79375 # 10000); ("3/8", 9525 # 1000);
    ("7/16", 111125 # 10000); ("1/2", 127 # 10); ("5/8", 15875 # 1000);
    ("3/4", 1905 # 100); ("7/8", 22225 # 1000); ("1", 254 # 10) ].

(** [TUBE_OD_OPTIONS[key]] *)
Fixpoint lookup (key : string) (d : list (string * Q)) : option Q :=
  match d with
  | [] => None
  | (k, v) :: rest => if String.eqb k key then Some v else lookup key rest
  end.

(** The current values of the input widgets: [sp_*.value()] of the spin
    boxes, [cb_tube_od.currentData()] and [cb_conn.currentText()]. *)
Record widgets : Type := mkWidgets {
  sp_fl : Q;
  sp_fh : Q;
  cb_tube_od : string;
  sp_nr : Z;
  sp_tpr : Z;
  sp_fpi : Z;
  sp_nc : Z;
  sp_tp : Q;
  sp_bp : Q;
  sp_cl : Q;
  sp_cr : Q;
  sp_ct : Q;
  sp_cb : Q;
  sp_cthk : Q;
  sp_cd : Q;
  sp_hd : Q;
  sp_rd : Q;
  cb_conn : string;
  sp_conn_ext : Q;
  sp_conn_gap : Q;
  sp_hdr_block : Q;
  sp_ret_ext : Q;
  sp_top_step : Q;
  sp_pipe_fit_outer : Q;
  sp_pipe_fit_inner : Q;
  sp_pipe_stub_center : Q;
  sp_pipe_stub_spacing : Q;
  sp_front_ref_extra : Q
}.

(** What [_build_ui] guarantees about those values: every spin box
    keeps its value inside the range given to [setRange], the tube
    combo box offers the keys of [TUBE_OD_OPTIONS] and the connection
    combo box the items "LHS" and "RHS". *)
Definition within_ranges (w : widgets) : Prop :=
  (100 <= sp_fl w <= 10000) /\ (100 <= sp_fh w <= 10000)
  /\ In (cb_tube_od w) (map fst TUBE_OD_OPTIONS)
  /\ (1 <= sp_nr w <= 20)%Z /\ (1 <= sp_tpr w <= 200)%Z
  /\ (1 <= sp_fpi w <= 30)%Z /\ (1 <= sp_nc w <= 200)%Z
  /\ (0 <= sp_tp w <= 500) /\ (0 <= sp_bp w <= 500)
  /\ (0 <= sp_cl w <= 500) /\ (0 <= sp_cr w <= 500)
  /\ (0 <= sp_ct w <= 500) /\ (0 <= sp_cb w <= 500)
  /\ (1 # 10 <= sp_cthk w <= 10)
  /\ (10 <= sp_cd w <= 2000) /\ (10 <= sp_hd w <= 2000) /\ (10 <= sp_rd w <= 2000)
  /\ In (cb_conn w) ["LHS"; "RHS"]
  /\ (10 <= sp_conn_ext w <= 2000) /\ (10 <= sp_conn_gap w <= 1000)
  /\ (10 <= sp_hdr_block w <= 1000) /\ (10 <= sp_ret_ext w <= 1000)
  /\ (1 <= sp_top_step w <= 200)
  /\ (1 <= sp_pipe_fit_outer w <= 500) /\ (1 <= sp_pipe_fit_inner w <= 500)
  /\ (1 <= sp_pipe_stub_center w <= 500) /\ (1 <= sp_pipe_stub_spacing w <= 200)
  /\ (1 <= sp_front_ref_extra w <= 1000).

Inductive panel_error : Set := KeyError.

(** [_collect_params]: the record built from the widget values; the
    fields it does not pass keep their dataclass defaults. *)
Definition _collect_params (w : widgets) : panel_error + CoilParameters :=
  let od_key := cb_tube_od w in
  match lookup od_key TUBE_OD_OPTIONS with
  | None => inl KeyError
  | Some diameter =>
      inr (mkCoilParameters
             (sp_fl w) (sp_fh w) (sp_nr w) (sp_tpr w) od_key diameter
             (sp_fpi w) (sp_nc w) (sp_tp w) (sp_bp w)
             (sp_cl w) (sp_cr w) (sp_ct w) (sp_cb w) (sp_cthk w)
             (sp_cd w) (sp_hd w) (sp_rd w) (cb_conn w)
             (sp_conn_ext w) (sp_conn_gap w) (sp_hdr_block w) (sp_ret_ext w)
             (sp_top_step w) (sp_pipe_fit_outer w) (sp_pipe_fit_inner w)
             (sp_pipe_stub_center w) (sp_pipe_stub_spacing w)
             (sp_front_ref_extra w)
             (fin_material default_params) (fin_thickness default_params)
             (tube_wall_thickness default_params))
  end.

(** The widget values [_build_ui] starts with. *)
Definition initial_widgets : widgets :=
  mkWidgets 1330 1400 "5/8" 6 35 13 35 65 35 35 65 15 15 (15 # 10)
            (2076 # 10) 320 320 "LHS" 170 75 180 145 12 50 25 50 12 150.

End ParameterPanel.

(** ** export/export_pdf.py *)

Definition py_min3 (a b c : Q) : Q := py_min (py_min a b) c.

(** [geo.get("connection_pipes", [])] *)
Definition connection_pipes (geo : ViewGeometry) : list ConnectionPipe :=
  match geo with
  | TopView g => tg_connection_pipes g
  | _ => []
  end.

Record PageBounds : Type := mkPageBounds {
  min_x : Q;
  min_y : Q;
  max_x : Q;
  max_y : Q;
  total_w : Q;
  total_h : Q
}.

(** The part of [export_pdf] that runs before any Qt call: the bounding
    box over all views, notes and title block, and the page size. *)
Definition export_pdf_bounds (layout : DrawingLayout) : PageBounds :=
  let init : Q * Q * Q * Q := (1000000000, 1000000000, - (1000000000), - (1000000000)) in
  let '(min_x, min_y, max_x, max_y) :=
    for_each (views layout)
      (fun (acc : Q * Q * Q * Q) v =>
         let '(min_x, min_y, max_x, max_y) := acc in
         let '(r0, r1, r2, r3) := outer_rect (geometry v) in
         let x0 := offset_x v + r0 in
         let y0 := offset_y v + r1 in
         let x1 := x0 + r2 in
         let y1 := y0 + r3 in
         let '(x0, x1) :=
           for_each (connection_pipes (geometry v))
             (fun (xs : Q * Q) pipe =>
                let '(x0, x1) := xs in
                let '(ln0, _, ln2, _) := line pipe in
                (py_min3 x0 (offset_x v + ln0) (offset_x v + ln2),
                 py_max3 x1 (offset_x v + ln0) (offset_x v + ln2)))
             (x0, x1) in
         (py_min min_x x0, py_min min_y y0, py_max max_x x1, py_max max_y y1))
      init in
  let '(nx, ny) := notes_offset layout in
  let '(tx, ty) := title_block_offset layout in
  let min_x := py_min min_x nx in
  let min_y := py_min min_y ny in
  let max_x := py_max max_x (tx + 380) in
  let max_y := py_max max_y (ty + 100) in
  let margin : Q := 60 in
  let total_w := max_x - min_x + 2 * margin in
  let total_h := max_y - min_y + 2 * margin in
  mkPageBounds min_x min_y max_x max_y total_w total_h.


(** * Vocabulary of the properties *)

(** ** Rectangles and circles *)

Definition rect_x (r : Rect) : Q := let '(x, _, _, _) := r in x.

Definition rect_y (r : Rect) : Q := let '(_, y, _, _) := r in y.

Definition rect_w (r : Rect) : Q := let '(_, _, w, _) := r in w.

Definition rect_h (r : Rect) : Q := let '(_, _, _, h) := r in h.

Definition circle_cx (c : Circle) : Q := let '(cx, _, _) := c in cx.

(** ** Validation *)

(** The invariants [validate_parameters] examines, in the order it
    examines them: the message of each and whether the record violates it. *)
Definition invariants (p : CoilParameters) : list (string * bool) :=
  map (fun '(name, getattr) => (must_be_positive name, Qle_bool (getattr p) 0))
      positive_fields
  ++ map (fun '(name, getattr) => (must_be_ge_1 name, (getattr p <? 1)%Z))
         count_fields
  ++ [ (plate_message, Qle_bool (fin_height p) (top_plate p + bottom_plate p)) ].

(** Every message [validate_parameters] can produce. *)
Definition all_messages : list string :=
  map (fun f => must_be_positive (fst f)) positive_fields
  ++ map (fun f => must_be_ge_1 (fst f)) count_fields
  ++ [ plate_message ].

(** ** Side views *)

(** The double loop of the side views:
    [for row in range(n): for t in range(m): out.append(item row t)]. *)
Definition grid_loop {B : Type} (item : Z -> Z -> B) (n m : Z) : list B :=
  for_each (range n)
    (fun out row =>
       for_each (range m) (fun out t => append out (item row t)) out) [].

(** Position in the [tubes] list of tube [t] of row [row]. *)
Definition tube_index (p : CoilParameters) (row t : Z) : nat :=
  Z.to_nat (row * tubes_per_row p + t).

(** Height of the header-side and return-end-side outer rectangles. *)
Definition side_view_height (p : CoilParameters) : Q :=
  inject_Z (tubes_per_row p) * vertical_pitch p + top_plate p + bottom_plate p.

(** The mirror property in the words of the design document: the
    return view's X-centre of row [row] is [grid_x + grid_w] minus the
    header view's X-centre of that row. *)
Definition return_cx_is_grid_extent_minus_header_cx (p : CoilParameters) (row : Z) : Prop :=
  let hg := generate_header_geometry p in
  let rg := generate_return_geometry p in
  forall header_view_X return_view_X,
    option_map circle_cx (nth_error (sg_tubes hg) (tube_index p row 0)) = Some header_view_X ->
    option_map circle_cx (nth_error (sg_tubes rg) (tube_index p row 0)) = Some return_view_X ->
    return_view_X == rect_x (sg_inner_rect rg) + rect_w (sg_inner_rect rg) - header_view_X.

(** ** Top view *)

(** The centreline of row [row] in the top view, as the tube-line loop
    and the bend-arc loop both compute it. *)
Definition row_centreline (p : CoilParameters) (row : Z) : Q :=
  tg_margin (generate_top_geometry p) + row_pitch p / 2 + inject_Z row * row_pitch p.

(** The arc count in the words of the design document. *)
Definition arc_count_is_half_the_row_count (p : CoilParameters) : Prop :=
  Z.of_nat (List.length (tg_bend_arcs (generate_top_geometry p)))
  = (no_of_rows p / 2)%Z.

(** Heights of the IN and OUT pipes and the clipped header-block
    length, as [generate_top_geometry] computes them. *)
Definition pipe_y_in (p : CoilParameters) : Q :=
  header_depth p / 2 - connection_vertical_gap p / 2.

Definition pipe_y_out (p : CoilParameters) : Q :=
  header_depth p / 2 + connection_vertical_gap p / 2.

Definition header_block_len (p : CoilParameters) : Q :=
  py_min (top_header_block_length p) (casing_width p).

(** Reflection in the casing's vertical centreline x = CW / 2. *)
Definition mirror_point (CW : Q) (pt : Point) : Point :=
  let '(x, y) := pt in (CW - x, y).

Definition mirror_line (CW : Q) (l : Line) : Line :=
  let '(x1, y1, x2, y2) := l in (CW - x1, y1, CW - x2, y2).

Definition mirror_circle (CW : Q) (c : Circle) : Circle :=
  let '(cx, cy, r) := c in (CW - cx, cy, r).

(** Equality of primitives up to the representation of rationals. *)
Definition point_eq (a b : Point) : Prop :=
  let '(x, y) := a in let '(x', y') := b in x == x' /\ y == y'.

Definition line_eq (a b : Line) : Prop :=
  let '(x1, y1, x2, y2) := a in
  let '(x1', y1', x2', y2') := b in
  x1 == x1' /\ y1 == y1' /\ x2 == x2' /\ y2 == y2'.

Definition circle_eq (a b : Circle) : Prop :=
  let '(x, y, r) := a in let '(x', y', r') := b in x == x' /\ y == y' /\ r == r'.

(** The same segment with its end points listed in the other order. *)
Definition reverse_line (l : Line) : Line :=
  let '(x1, y1, x2, y2) := l in (x2, y2, x1, y1).

Definition same_segment (a b : Line) : Prop :=
  line_eq a b \/ line_eq (reverse_line a) b.

(** The mirror property of the connection pipes in the words of the
    design document: pipe lines, fitting circles, stub lines and label
    placements of the RHS record are the mirror images of the LHS
    record's. *)
Definition rhs_connection_is_mirror_of_lhs (p : CoilParameters) : Prop :=
  let gl := generate_top_geometry (set_connection_side "LHS" p) in
  let gr := generate_top_geometry (set_connection_side "RHS" p) in
  let CW := rect_w (tg_outer_rect gl) in
  Forall2 (fun a b => same_segment (mirror_line CW (line a)) (line b))
          (tg_connection_pipes gl) (tg_connection_pipes gr)
  /\ Forall2 (fun a b => circle_eq (mirror_circle CW a) b)
             (tg_pipe_circles gl) (tg_pipe_circles gr)
  /\ Forall2 (fun a b => same_segment (mirror_line CW a) b)
             (tg_pipe_stubs gl) (tg_pipe_stubs gr)
  /\ Forall2 (fun a b => label a = label b
                         /\ point_eq (mirror_point CW (label_pos a)) (label_pos b))
             (tg_connection_pipes gl) (tg_connection_pipes gr).

(** ** Sheet *)

(** The sheet [generate_layout] returns once the front view is known. *)
Definition sheet (p : CoilParameters) (front_geo : FrontGeometry) : DrawingLayout :=
  let bottom_y := header_depth p + VIEW_GAP in
  let front_x := header_depth p + VIEW_GAP in
  let return_x := front_x + casing_width p + VIEW_GAP in
  let notes_y := bottom_y
                 + py_max3 (casing_height p) (side_view_height p) (side_view_height p)
                 + VIEW_GAP / 2 in
  mkDrawingLayout
    [ mkViewDescriptor "TOP" front_x 0 (TopView (generate_top_geometry p));
      mkViewDescriptor "HEADER SIDE" 0 bottom_y (SideView (generate_header_geometry p));
      mkViewDescriptor "FRONT" front_x bottom_y (FrontView front_geo);
      mkViewDescriptor "RETURN END SIDE" return_x bottom_y
                       (SideView (generate_return_geometry p)) ]
    (0, notes_y) (return_x, notes_y).

(** A view's bounding box on the sheet: its outer rectangle translated
    by the view's placement offset. *)
Definition view_box (v : ViewDescriptor) : Rect :=
  let '(x, y, w, h) := outer_rect (geometry v) in
  (offset_x v + x, offset_y v + y, w, h).

(** The extent of a rectangle as it is drawn: the renderers draw the
    outline through the corners (x, y) and (x + w, y + h), so with a
    negative width the rectangle runs from x + w to x, and likewise in
    y with a negative height. *)
Definition rect_left (r : Rect) : Q := py_min (rect_x r) (rect_x r + rect_w r).
Definition rect_right (r : Rect) : Q := py_max (rect_x r) (rect_x r + rect_w r).
Definition rect_low (r : Rect) : Q := py_min (rect_y r) (rect_y r + rect_h r).
Definition rect_high (r : Rect) : Q := py_max (rect_y r) (rect_y r + rect_h r).

(** The points of a rectangle, border included. *)
Definition in_rect (r : Rect) (x y : Q) : Prop :=
  rect_left r <= x /\ x <= rect_right r
  /\ rect_low r <= y /\ y <= rect_high r.

(** Two rectangles intersect when they have a point in common. *)
Definition rects_intersect (a b : Rect) : Prop :=
  exists x y, in_rect a x y /\ in_rect b x y.

(** The usual overlap test, on the extents of the two rectangles. *)
Definition rects_overlap (a b : Rect) : bool :=
  Qlt_bool (rect_left a) (rect_right b)
  && Qlt_bool (rect_left b) (rect_right a)
  && Qlt_bool (rect_low a) (rect_high b)
  && Qlt_bool (rect_low b) (rect_high a).

(** One rectangle ends strictly before the other begins, in x or in y. *)
Definition separated (a b : Rect) : Prop :=
  rect_right a < rect_left b \/ rect_right b < rect_left a
  \/ rect_high a < rect_low b \/ rect_high b < rect_low a.

(** ** Front view *)

(** The quantities [generate_front_geometry] derives from fpi. *)
Definition fin_spacing (p : CoilParameters) : Q := (254 # 10) / inject_Z (fpi p).

Definition n_fins (p : CoilParameters) : Z := truncate (fin_height p / fin_spacing p).

(** Magnitudes safely inside the float range: the integer fields can
    be converted to floats (and printed in the title), and the fin
    count of the front view is finite, with a factor of two to spare
    for rounding. *)
Definition FLOAT_SAFE : Z := (2 ^ 1023)%Z.

Definition in_float_range (p : CoilParameters) : Prop :=
  (Z.abs (fpi p) < FLOAT_SAFE)%Z
  /\ (Z.abs (no_of_rows p) < FLOAT_SAFE)%Z
  /\ (Z.abs (tubes_per_row p) < FLOAT_SAFE)%Z
  /\ (Z.abs (no_of_circuits p) < FLOAT_SAFE)%Z
  /\ Qabs (fin_height p / fin_spacing p) < inject_Z FLOAT_SAFE.

Definition fin_step (p : CoilParameters) : Z := Z.max 1 (n_fins p / 40).

(** The front view [generate_front_geometry] returns when it raises
    nothing. *)
Definition front_view (p : CoilParameters) : FrontGeometry :=
  mkFrontGeometry "FRONT"
    (0, 0, casing_width p, casing_height p)
    (casing_left p, casing_bottom p, fin_length p, fin_height p)
    (for_each (range3 0 (n_fins p) (fin_step p))
       (fun (fin_lines : list Line) i =>
          let y := casing_bottom p + inject_Z i * fin_spacing p in
          if Qlt_bool y (casing_bottom p + fin_height p)
          then append fin_lines
                 (casing_left p, y, casing_left p + fin_length p, y)
          else fin_lines) [])
    p.

(** ** Circles *)

Definition circle_cy (c : Circle) : Q := let '(_, cy, _) := c in cy.

Definition circle_r (c : Circle) : Q := let '(_, _, r) := c in r.

(** ** Lines *)

Definition line_x1 (l : Line) : Q := let '(x1, _, _, _) := l in x1.

Definition line_y1 (l : Line) : Q := let '(_, y1, _, _) := l in y1.

Definition line_x2 (l : Line) : Q := let '(_, _, x2, _) := l in x2.

Definition line_y2 (l : Line) : Q := let '(_, _, _, y2) := l in y2.

(** ** Dimensions *)

(** Reflection of a dimension in the diagonal x = y: coordinates are
    exchanged, directions and text rotations turn by 90 degrees. *)
Definition swap_point (pt : R * R) : R * R := (snd pt, fst pt).

Definition transpose_segment (l : DimensionEngine.Segment) : DimensionEngine.Segment :=
  let '(x1, y1, x2, y2) := l in (y1, x1, y2, x2).

Definition transpose_dimension (d : DimensionEngine.Dimension) : DimensionEngine.Dimension :=
  DimensionEngine.mkDimension
    (map transpose_segment (DimensionEngine.lines d))
    (map (fun '(x, y, a) => (y, x, (a + 90)%R)) (DimensionEngine.arrows d))
    (map (fun '(x, y, s, rot) => (y, x, s, (rot + 90)%R)) (DimensionEngine.texts d)).

(** Point reflection of a segment through (tx, ty). *)
Definition reflect_through (tx ty : R) (l : DimensionEngine.Segment)
  : DimensionEngine.Segment :=
  let '(x1, y1, x2, y2) := l in
  (2 * tx - x1, 2 * ty - y1, 2 * tx - x2, 2 * ty - y2)%R.

(** The arrowhead segments the renderers draw for a dimension:
    [for tx, ty, a in dim["arrows"]: for seg in arrowhead_lines(tx, ty, a)]. *)
Definition arrow_segments (d : DimensionEngine.Dimension) : list DimensionEngine.Segment :=
  flat_map (fun '(tx, ty, a) => DimensionEngine.arrowhead_lines tx ty a)
           (DimensionEngine.arrows d).

(** The dimension line is the third line of a dimension ([lines[2]]);
    its length is what the dimension measures. *)
Definition dimension_line (d : DimensionEngine.Dimension) : option DimensionEngine.Segment :=
  nth_error (DimensionEngine.lines d) 2.

Definition dimension_length (d : DimensionEngine.Dimension) : R :=
  match dimension_line d with
  | Some l => DimensionEngine.segment_length l
  | None => 0%R
  end.

Definition dimension_label (d : DimensionEngine.Dimension) : option string :=
  match DimensionEngine.texts d with
  | [ (_, _, s, _) ] => Some s
  | _ => None
  end.

(** ** Canvas events *)

(** Events other than pressing the left mouse button. *)
Definition not_left_press (e : DrawingView.event) : Prop :=
  match e with
  | DrawingView.Press DrawingView.LeftButton _ => False
  | _ => True
  end.

(** ** Page bounds *)

(** The two loop bodies of the bounding-box computation of [export_pdf]. *)
Definition widen_by_pipe (off : Q) (xs : Q * Q) (pipe : ConnectionPipe) : Q * Q :=
  let '(x0, x1) := xs in
  let '(ln0, _, ln2, _) := line pipe in
  (py_min3 x0 (off + ln0) (off + ln2), py_max3 x1 (off + ln0) (off + ln2)).

Definition widen_by_view (acc : Q * Q * Q * Q) (v : ViewDescriptor) : Q * Q * Q * Q :=
  let '(min_x, min_y, max_x, max_y) := acc in
  let '(r0, r1, r2, r3) := outer_rect (geometry v) in
  let x0 := offset_x v + r0 in
  let y0 := offset_y v + r1 in
  let x1 := x0 + r2 in
  let y1 := y0 + r3 in
  let '(x0, x1) :=
    for_each (connection_pipes (geometry v)) (widen_by_pipe (offset_x v)) (x0, x1) in
  (py_min min_x x0, py_min min_y y0, py_max max_x x1, py_max max_y y1).

(** What one round of the loop establishes for a box (an x-range and a
    y-range) and a view: the box starts at or before the corner (x, y)
    of the view's outer rectangle on the sheet, ends at or after the
    corner (x + w, y + h), and spans both ends of each connection pipe
    in x. *)
Definition reaches_corners (lo_x lo_y hi_x hi_y : Q) (v : ViewDescriptor) : Prop :=
  lo_x <= rect_x (view_box v)
  /\ rect_x (view_box v) + rect_w (view_box v) <= hi_x
  /\ lo_y <= rect_y (view_box v)
  /\ rect_y (view_box v) + rect_h (view_box v) <= hi_y
  /\ forall pipe, In pipe (connection_pipes (geometry v)) ->
       lo_x <= offset_x v + line_x1 (line pipe) <= hi_x
       /\ lo_x <= offset_x v + line_x2 (line pipe) <= hi_x.

(** A box contains a view: every point of the view's outer rectangle
    on the sheet lies in the box. *)
Definition contains_view (lo_x lo_y hi_x hi_y : Q) (v : ViewDescriptor) : Prop :=
  forall x y, in_rect (view_box v) x y ->
    lo_x <= x <= hi_x /\ lo_y <= y <= hi_y.

(** * Properties *)

(** ** Loops that append *)

Section ForEach.
Context {A B : Type}.

(** A loop whose body appends a list depending only on the item
    produces the concatenation of those lists after the initial
    accumulator. *)
Lemma for_each_extend (f : A -> list B) (xs : list A) (init : list B) :
  for_each xs (fun acc x => acc ++ f x) init = init ++ flat_map f xs.
Proof.
  unfold for_each. revert init.
  induction xs as [|x xs IH]; intros init; simpl.
  - now rewrite app_nil_r.
  - rewrite IH. now rewrite app_assoc.
Qed.

Lemma for_each_ext {S : Type} (body body' : S -> A -> S) (xs : list A) (init : S) :
  (forall acc x, body acc x = body' acc x) ->
  for_each xs body init = for_each xs body' init.
Proof.
  intros Hb. unfold for_each. revert init.
  induction xs as [|x xs IH]; intros init; simpl; [reflexivity|].
  rewrite Hb. apply IH.
Qed.
End ForEach.

Section Collect.
Context {A : Type}.

(** A loop that appends [msg x] for the items passing [bad] collects
    exactly the messages of those items, in order, without stopping. *)
Lemma for_each_collect (bad : A -> bool) (msg : A -> string)
      (xs : list A) (init : list string) :
  for_each xs (fun errors x => if bad x then append errors (msg x) else errors) init
  = init ++ map msg (filter bad xs).
Proof.
  unfold for_each, append. revert init.
  induction xs as [|x xs IH]; intros init; simpl.
  - now rewrite app_nil_r.
  - rewrite IH. destruct (bad x); simpl; [|reflexivity].
    now rewrite <- app_assoc.
Qed.
End Collect.

Section Keyed.
Context {K : Type}.

Lemma keyed_functional (l : list (K * bool)) (k : K) (b b' : bool) :
  NoDup (map fst l) -> In (k, b) l -> In (k, b') l -> b = b'.
Proof.
  induction l as [|[k0 b0] l IH]; simpl; intros Hnd Hb Hb'; [contradiction|].
  inversion Hnd as [|? ? Hnotin Hnd']; subst.
  destruct Hb as [Hb|Hb], Hb' as [Hb'|Hb'].
  - congruence.
  - inversion Hb; subst. exfalso. apply Hnotin.
    change k with (fst (k, b')). now apply in_map.
  - inversion Hb'; subst. exfalso. apply Hnotin.
    change k with (fst (k, b)). now apply in_map.
  - now apply IH.
Qed.

Lemma in_selected_keys (l : list (K * bool)) (k : K) (b : bool) :
  NoDup (map fst l) -> In (k, b) l ->
  (In k (map fst (filter snd l)) <-> b = true).
Proof.
  intros Hnd Hin. split.
  - intros Hk. apply in_map_iff in Hk. destruct Hk as [[k' b'] [Hfst Hf]].
    simpl in Hfst. subst k'. apply filter_In in Hf. destruct Hf as [Hin' Hb'].
    simpl in Hb'. subst b'. now apply (keyed_functional l k).
  - intros ->. change k with (fst (k, true)). apply in_map.
    apply filter_In. now split.
Qed.

Lemma NoDup_selected_keys (l : list (K * bool)) :
  NoDup (map fst l) -> NoDup (map fst (filter snd l)).
Proof.
  induction l as [|[k b] l IH]; simpl; intros Hnd; [constructor|].
  inversion Hnd as [|? ? Hnotin Hnd']; subst.
  destruct b; simpl; [|now apply IH].
  constructor; [|now apply IH].
  intros Hk. apply Hnotin. apply in_map_iff in Hk.
  destruct Hk as [x [Hx Hf]]. apply filter_In in Hf.
  apply in_map_iff. exists x. tauto.
Qed.
End Keyed.

(** ** Validation *)

Lemma filter_map_pair {A : Type} (key : A -> string) (bad : A -> bool) (xs : list A) :
  map fst (filter snd (map (fun x => (key x, bad x)) xs)) = map key (filter bad xs).
Proof.
  induction xs as [|x xs IH]; simpl; [reflexivity|].
  destruct (bad x); simpl; now rewrite IH.
Qed.

Lemma validate_parameters_closed_form (p : CoilParameters) :
  validate_parameters p = map fst (filter snd (invariants p)).
Proof.
  unfold validate_parameters, invariants.
  generalize positive_fields as pf, count_fields as cf. intros pf cf.
  rewrite !filter_app, !map_app.
  rewrite (for_each_ext _
             (fun errors x => if Qle_bool (snd x p) 0
                              then append errors (must_be_positive (fst x)) else errors))
    by (intros acc [n g]; reflexivity).
  rewrite for_each_collect.
  rewrite (for_each_ext _
             (fun errors x => if (snd x p <? 1)%Z
                              then append errors (must_be_ge_1 (fst x)) else errors))
    by (intros acc [n g]; reflexivity).
  rewrite for_each_collect.
  rewrite app_nil_l.
  rewrite (map_ext (fun '(name, getattr) => (must_be_positive name, Qle_bool (getattr p) 0))
                   (fun x => (must_be_positive (fst x), Qle_bool (snd x p) 0)))
    by (now intros [n g]).
  rewrite (map_ext (fun '(name, getattr) => (must_be_ge_1 name, (getattr p <? 1)%Z))
                   (fun x => (must_be_ge_1 (fst x), (snd x p <? 1)%Z)))
    by (now intros [n g]).
  rewrite !filter_map_pair.
  unfold append.
  destruct (Qle_bool (fin_height p) (top_plate p + bottom_plate p)); cbn [filter snd map fst].
  - now rewrite app_assoc.
  - now rewrite !app_nil_r.
Qed.

Lemma invariant_messages_distinct (p : CoilParameters) :
  NoDup (map fst (invariants p)).
Proof.
  unfold invariants, positive_fields, count_fields. simpl.
  repeat (constructor; [simpl; intuition discriminate|]).
  constructor.
Qed.

Lemma positive_invariant_listed (p : CoilParameters) name getattr :
  In (name, getattr) positive_fields ->
  In (must_be_positive name, Qle_bool (getattr p) 0) (invariants p).
Proof.
  unfold invariants. generalize positive_fields as pf, count_fields as cf.
  intros pf cf Hin. apply in_or_app. left.
  apply in_map_iff. exists (name, getattr). now split.
Qed.

Lemma count_invariant_listed (p : CoilParameters) name getattr :
  In (name, getattr) count_fields ->
  In (must_be_ge_1 name, (getattr p <? 1)%Z) (invariants p).
Proof.
  unfold invariants. generalize positive_fields as pf, count_fields as cf.
  intros pf cf Hin. apply in_or_app. right. apply in_or_app. left.
  apply in_map_iff. exists (name, getattr). now split.
Qed.

Lemma plate_invariant_listed (p : CoilParameters) :
  In (plate_message, Qle_bool (fin_height p) (top_plate p + bottom_plate p))
     (invariants p).
Proof.
  unfold invariants. generalize positive_fields as pf, count_fields as cf.
  intros pf cf. apply in_or_app. right. apply in_or_app. right. now left.
Qed.

Example validate_default_params : validate_parameters default_params = [].
Proof. reflexivity. Qed.

Example validate_several_violations :
  validate_parameters (set_fpi 0 (set_no_of_rows 0 (set_top_plate 1400 default_params)))
  = [ "no_of_rows must be >= 1"; "fpi must be >= 1";
      "Top plate + Bottom plate must be < Fin Height" ].
Proof. reflexivity. Qed.

(** Each message is in the list exactly when its test succeeds. *)
Lemma positive_message_iff (p : CoilParameters) name getattr :
  In (name, getattr) positive_fields ->
  (In (must_be_positive name) (validate_parameters p) <-> getattr p <= 0).
Proof.
  intros Hin. rewrite validate_parameters_closed_form.
  pose proof (in_selected_keys (invariants p) (must_be_positive name)
                (Qle_bool (getattr p) 0) (invariant_messages_distinct p)
                (positive_invariant_listed p name getattr Hin)) as Hiff.
  pose proof (Qle_bool_iff (getattr p) 0) as Hle.
  tauto.
Qed.

Lemma count_message_iff (p : CoilParameters) name getattr :
  In (name, getattr) count_fields ->
  (In (must_be_ge_1 name) (validate_parameters p) <-> (getattr p < 1)%Z).
Proof.
  intros Hin. rewrite validate_parameters_closed_form.
  pose proof (in_selected_keys (invariants p) (must_be_ge_1 name)
                (getattr p <? 1)%Z (invariant_messages_distinct p)
                (count_invariant_listed p name getattr Hin)) as Hiff.
  pose proof (Z.ltb_lt (getattr p) 1) as Hlt.
  tauto.
Qed.

Lemma plate_message_iff (p : CoilParameters) :
  In plate_message (validate_parameters p)
  <-> fin_height p <= top_plate p + bottom_plate p.
Proof.
  rewrite validate_parameters_closed_form.
  pose proof (in_selected_keys (invariants p) plate_message
                (Qle_bool (fin_height p) (top_plate p + bottom_plate p))
                (invariant_messages_distinct p)
                (plate_invariant_listed p)) as Hiff.
  pose proof (Qle_bool_iff (fin_height p) (top_plate p + bottom_plate p)) as Hle.
  tauto.
Qed.




(** ** Nested loops over a grid *)

Section GridLoop.
Context {B : Type}.

Lemma nth_error_range (n : Z) (i : Z) :
  (0 <= i < n)%Z -> nth_error (range n) (Z.to_nat i) = Some i.
Proof.
  intros Hi. unfold range.
  rewrite nth_error_map, nth_error_seq.
  assert (Hlt : (Z.to_nat i <? Z.to_nat n)%nat = true)
    by (apply Nat.ltb_lt; lia).
  rewrite Hlt. simpl. f_equal. lia.
Qed.

Lemma length_range (n : Z) : List.length (range n) = Z.to_nat n.
Proof. unfold range. now rewrite length_map, length_seq. Qed.

Lemma nth_error_blocks {A : Type} (f : A -> list B) (m : nat) (xs : list A) :
  (forall x, List.length (f x) = m) ->
  forall i j x, nth_error xs i = Some x -> (j < m)%nat ->
  nth_error (flat_map f xs) (i * m + j) = nth_error (f x) j.
Proof.
  intros Hlen. induction xs as [|x0 xs IH]; intros i j x Hx Hj.
  - destruct i; discriminate.
  - destruct i as [|i]; simpl in *.
    + inversion Hx; subst. apply nth_error_app1. rewrite Hlen. exact Hj.
    + rewrite nth_error_app2 by (rewrite Hlen; lia).
      rewrite Hlen.
      replace (m + i * m + j - m)%nat with (i * m + j)%nat by lia.
      now apply IH.
Qed.

Lemma length_blocks {A : Type} (f : A -> list B) (m : nat) (xs : list A) :
  (forall x, List.length (f x) = m) ->
  List.length (flat_map f xs) = (List.length xs * m)%nat.
Proof.
  intros Hlen. induction xs as [|x xs IH]; simpl; [reflexivity|].
  now rewrite length_app, Hlen, IH.
Qed.

Lemma flat_map_unit {A : Type} (f : A -> B) (xs : list A) :
  flat_map (fun x => [f x]) xs = map f xs.
Proof.
  induction xs as [|x xs IH]; simpl; [reflexivity|].
  now rewrite IH.
Qed.

Variable item : Z -> Z -> B.

Lemma grid_loop_flat (n m : Z) :
  grid_loop item n m = flat_map (fun row => map (item row) (range m)) (range n).
Proof.
  unfold grid_loop.
  rewrite (for_each_ext _ (fun out row => out ++ map (item row) (range m))).
  - exact (for_each_extend (fun row => map (item row) (range m)) (range n) []).
  - intros acc row.
    transitivity (acc ++ flat_map (fun t => [item row t]) (range m)).
    + exact (for_each_extend (fun t => [item row t]) (range m) acc).
    + now rewrite flat_map_unit.
Qed.

Lemma grid_loop_nth (n m row t : Z) :
  (0 <= row < n)%Z -> (0 <= t < m)%Z ->
  nth_error (grid_loop item n m) (Z.to_nat (row * m + t)) = Some (item row t).
Proof.
  intros Hrow Ht. rewrite grid_loop_flat.
  replace (Z.to_nat (row * m + t))
    with (Z.to_nat row * Z.to_nat m + Z.to_nat t)%nat by nia.
  rewrite (nth_error_blocks _ (Z.to_nat m) _) with (x := row).
  - rewrite nth_error_map, nth_error_range by exact Ht. reflexivity.
  - intros x. now rewrite length_map, length_range.
  - now apply nth_error_range.
  - lia.
Qed.

Lemma grid_loop_length (n m : Z) :
  List.length (grid_loop item n m) = (Z.to_nat n * Z.to_nat m)%nat.
Proof.
  rewrite grid_loop_flat.
  rewrite (length_blocks _ (Z.to_nat m)).
  - now rewrite length_range.
  - intros x. now rewrite length_map, length_range.
Qed.
End GridLoop.

(** ** Header-side and return-end-side views *)

Lemma header_tube_at (p : CoilParameters) (row t : Z) :
  (0 <= row < no_of_rows p)%Z -> (0 <= t < tubes_per_row p)%Z ->
  let g := generate_header_geometry p in
  nth_error (sg_tubes g) (tube_index p row t)
  = Some (rect_x (sg_inner_rect g) + row_pitch p / 2 + inject_Z row * row_pitch p,
          rect_y (sg_inner_rect g)
          + (if (row mod 2 =? 0)%Z then vertical_pitch p / 4 else 3 * vertical_pitch p / 4)
          + inject_Z t * vertical_pitch p,
          tube_diameter p / 2).
Proof.
  intros Hrow Ht g. unfold g, generate_header_geometry, tube_index.
  cbn [sg_tubes sg_inner_rect rect_x rect_y].
  exact (grid_loop_nth _ _ _ row t Hrow Ht).
Qed.

Lemma return_tube_at (p : CoilParameters) (row t : Z) :
  (0 <= row < no_of_rows p)%Z -> (0 <= t < tubes_per_row p)%Z ->
  let g := generate_return_geometry p in
  nth_error (sg_tubes g) (tube_index p row t)
  = Some (rect_x (sg_inner_rect g) + rect_w (sg_inner_rect g)
          - (row_pitch p / 2 + inject_Z row * row_pitch p),
          rect_y (sg_inner_rect g)
          + (if (row mod 2 =? 0)%Z then vertical_pitch p / 4 else 3 * vertical_pitch p / 4)
          + inject_Z t * vertical_pitch p,
          tube_diameter p / 2).
Proof.
  intros Hrow Ht g. unfold g, generate_return_geometry, tube_index.
  cbn [sg_tubes sg_inner_rect rect_x rect_y rect_w].
  exact (grid_loop_nth _ _ _ row t Hrow Ht).
Qed.

Lemma side_view_tube_count (p : CoilParameters) :
  List.length (sg_tubes (generate_header_geometry p))
  = (Z.to_nat (no_of_rows p) * Z.to_nat (tubes_per_row p))%nat
  /\ List.length (sg_tubes (generate_return_geometry p))
     = (Z.to_nat (no_of_rows p) * Z.to_nat (tubes_per_row p))%nat.
Proof.
  split; unfold generate_header_geometry, generate_return_geometry;
    cbn [sg_tubes]; exact (grid_loop_length _ _ _).
Qed.

(** C3 (as stated) fails on the default record, row 0: the header tube
    sits at x = 73.5, the return tube at x = 246.5, while
    grid_x + grid_w - 73.5 = 56.2 + 207.6 - 73.5 = 190.3.  (Both views
    have the same inner rectangle there, so it does not matter whose
    grid_x is meant.) *)
Lemma return_cx_is_not_grid_extent_minus_header_cx :
  sg_inner_rect (generate_header_geometry default_params)
  = sg_inner_rect (generate_return_geometry default_params)
  /\ ~ return_cx_is_grid_extent_minus_header_cx default_params 0.
Proof.
  split; [reflexivity|].
  unfold return_cx_is_grid_extent_minus_header_cx. intros H.
  pose proof (header_tube_at default_params 0 0) as Hh.
  pose proof (return_tube_at default_params 0 0) as Hr.
  cbv zeta in H, Hh, Hr.
  rewrite Hh, Hr in H by (simpl; lia).
  specialize (H _ _ eq_refl eq_refl).
  vm_compute in H. discriminate H.
Qed.

(** C3 (as amended).  For every parameter record and every tube [t] of
    every row [row], the return view's X-centre equals
    grid_x + grid_w - (header_view_X - header_grid_x): the header row's
    offset from the left edge of its grid, row_pitch/2 + row*row_pitch,
    is measured from the right edge of the return view's grid instead.
    The Y-centre and the radius are the same in both views. *)
Theorem return_view_mirrors_header_rows (p : CoilParameters) (row t : Z) :
  (0 <= row < no_of_rows p)%Z -> (0 <= t < tubes_per_row p)%Z ->
  let hg := generate_header_geometry p in
  let rg := generate_return_geometry p in
  exists hx hy rx ry r,
    nth_error (sg_tubes hg) (tube_index p row t) = Some (hx, hy, r)
    /\ nth_error (sg_tubes rg) (tube_index p row t) = Some (rx, ry, r)
    /\ hx = rect_x (sg_inner_rect hg) + row_pitch p / 2 + inject_Z row * row_pitch p
    /\ rx = rect_x (sg_inner_rect rg) + rect_w (sg_inner_rect rg)
            - (row_pitch p / 2 + inject_Z row * row_pitch p)
    /\ rx == rect_x (sg_inner_rect rg) + rect_w (sg_inner_rect rg)
             - (hx - rect_x (sg_inner_rect hg))
    /\ ry = hy.
Proof.
  intros Hrow Ht hg rg.
  pose proof (header_tube_at p row t Hrow Ht) as Hh.
  pose proof (return_tube_at p row t Hrow Ht) as Hr.
  cbv zeta in Hh, Hr. fold hg in Hh. fold rg in Hr.
  eexists _, _, _, _, _.
  split; [exact Hh|]. split; [exact Hr|].
  split; [reflexivity|]. split; [reflexivity|].
  split; [ring|].
  unfold hg, rg, generate_header_geometry, generate_return_geometry.
  reflexivity.
Qed.

Lemma return_view_mirrors_header_rows_witness :
  exists hx hy rx ry r,
    nth_error (sg_tubes (generate_header_geometry default_params))
              (tube_index default_params 1 2) = Some (hx, hy, r)
    /\ nth_error (sg_tubes (generate_return_geometry default_params))
                 (tube_index default_params 1 2) = Some (rx, ry, r)
    /\ hx = rect_x (sg_inner_rect (generate_header_geometry default_params))
            + row_pitch default_params / 2 + inject_Z 1 * row_pitch default_params
    /\ rx = rect_x (sg_inner_rect (generate_return_geometry default_params))
            + rect_w (sg_inner_rect (generate_return_geometry default_params))
            - (row_pitch default_params / 2 + inject_Z 1 * row_pitch default_params)
    /\ rx == rect_x (sg_inner_rect (generate_return_geometry default_params))
             + rect_w (sg_inner_rect (generate_return_geometry default_params))
             - (hx - rect_x (sg_inner_rect (generate_header_geometry default_params)))
    /\ ry = hy.
Proof.
  apply (return_view_mirrors_header_rows default_params 1 2); simpl; lia.
Defined.

(** C4.  In the header-side and in the return-end-side view, tube [t]
    of row [row] is at height y_start + t * vertical_pitch, where
    y_start is grid_y + VP/4 for an even row and grid_y + 3*VP/4 for an
    odd row; the start of an odd row exceeds the start of an even row
    by exactly VP/2; each row holds tubes_per_row tubes. *)
Theorem tube_columns_are_staggered (p : CoilParameters) (g : SideGeometry) :
  g = generate_header_geometry p \/ g = generate_return_geometry p ->
  let VP := vertical_pitch p in
  let grid_y := rect_y (sg_inner_rect g) in
  let y_start := fun row : Z =>
                   if Z.even row then grid_y + VP / 4 else grid_y + 3 * VP / 4 in
  List.length (sg_tubes g) = (Z.to_nat (no_of_rows p) * Z.to_nat (tubes_per_row p))%nat
  /\ (forall row t,
        (0 <= row < no_of_rows p)%Z -> (0 <= t < tubes_per_row p)%Z ->
        exists cx r,
          nth_error (sg_tubes g) (tube_index p row t)
          = Some (cx, y_start row + inject_Z t * VP, r))
  /\ (forall row_even row_odd,
        Z.even row_even = true -> Z.odd row_odd = true ->
        y_start row_odd - y_start row_even == VP / 2).
Proof.
  intros Hg VP grid_y y_start.
  split; [|split].
  - destruct Hg as [-> | ->];
      [exact (proj1 (side_view_tube_count p)) | exact (proj2 (side_view_tube_count p))].
  - intros row t Hrow Ht.
    assert (Hstart : rect_y (sg_inner_rect g)
                     + (if (row mod 2 =? 0)%Z then VP / 4 else 3 * VP / 4)
                     = y_start row).
    { unfold y_start, grid_y. rewrite Zeven_mod.
      destruct (row mod 2 =? 0)%Z; reflexivity. }
    destruct Hg as [-> | ->]; eexists _, _.
    + rewrite <- Hstart. exact (header_tube_at p row t Hrow Ht).
    + rewrite <- Hstart. exact (return_tube_at p row t Hrow Ht).
  - intros row_even row_odd He Ho. unfold y_start.
    rewrite He. rewrite <- Z.negb_even in Ho.
    destruct (Z.even row_odd); [discriminate|].
    field.
Qed.

Lemma tube_columns_are_staggered_witness :
  exists cx r,
    nth_error (sg_tubes (generate_return_geometry default_params))
              (tube_index default_params 3 4)
    = Some (cx,
            rect_y (sg_inner_rect (generate_return_geometry default_params))
            + 3 * vertical_pitch default_params / 4
            + inject_Z 4 * vertical_pitch default_params,
            r).
Proof.
  refine (proj1 (proj2 (tube_columns_are_staggered default_params
                          (generate_return_geometry default_params)
                          (or_intror eq_refl))) 3%Z 4%Z _ _); simpl; lia.
Defined.

(** ** Top view: return bend arcs *)

Lemma for_each_append_map {A B : Type} (f : A -> B) (xs : list A) :
  for_each xs (fun out x => append out (f x)) [] = map f xs.
Proof.
  transitivity ([] ++ flat_map (fun x => [f x]) xs).
  - exact (for_each_extend (fun x => [f x]) xs []).
  - simpl. apply flat_map_unit.
Qed.

Lemma length_range3 (start stop step : Z) :
  List.length (range3 start stop step)
  = Z.to_nat ((stop - start + step - 1) / step).
Proof. unfold range3. now rewrite length_map, length_seq. Qed.

Lemma nth_error_range3 (start stop step k : Z) :
  (0 <= k < (stop - start + step - 1) / step)%Z ->
  nth_error (range3 start stop step) (Z.to_nat k) = Some (start + k * step)%Z.
Proof.
  intros Hk. unfold range3.
  rewrite nth_error_map, nth_error_seq.
  assert (Hlt : (Z.to_nat k <? Z.to_nat ((stop - start + step - 1) / step))%nat = true)
    by (apply Nat.ltb_lt; lia).
  rewrite Hlt. cbn [option_map]. rewrite Nat.add_0_l, Z2Nat.id by lia.
  reflexivity.
Qed.

Lemma tube_lines_at (p : CoilParameters) (row : Z) :
  (0 <= row < no_of_rows p)%Z ->
  let g := generate_top_geometry p in
  let tube_r := tube_diameter p / 2 in
  nth_error (tg_tube_lines g) (Z.to_nat (2 * row))
  = Some (tg_header_block_len g, row_centreline p row - tube_r,
          casing_width p, row_centreline p row - tube_r)
  /\ nth_error (tg_tube_lines g) (Z.to_nat (2 * row + 1))
     = Some (tg_header_block_len g, row_centreline p row + tube_r,
             casing_width p, row_centreline p row + tube_r).
Proof.
  intros Hrow g tube_r.
  set (pair_of := fun r : Z =>
         [ (tg_header_block_len g, row_centreline p r - tube_r,
            casing_width p, row_centreline p r - tube_r);
           (tg_header_block_len g, row_centreline p r + tube_r,
            casing_width p, row_centreline p r + tube_r) ]).
  assert (Hflat : tg_tube_lines g = flat_map pair_of (range (no_of_rows p))).
  { transitivity (for_each (range (no_of_rows p))
                    (fun (out : list Line) r => out ++ pair_of r) []).
    - refine (for_each_ext
                (fun (out : list Line) r =>
                   append (append out
                             (tg_header_block_len g, row_centreline p r - tube_r,
                              casing_width p, row_centreline p r - tube_r))
                          (tg_header_block_len g, row_centreline p r + tube_r,
                           casing_width p, row_centreline p r + tube_r))
                (fun (out : list Line) r => out ++ pair_of r)
                (range (no_of_rows p)) [] _).
      intros acc r. unfold append, pair_of. now rewrite <- app_assoc.
    - exact (for_each_extend pair_of (range (no_of_rows p)) []). }
  rewrite Hflat.
  replace (Z.to_nat (2 * row)) with (Z.to_nat row * 2 + 0)%nat by lia.
  replace (Z.to_nat (2 * row + 1)) with (Z.to_nat row * 2 + 1)%nat by lia.
  split.
  - rewrite (nth_error_blocks pair_of 2 _ (fun _ => eq_refl) _ 0%nat row);
      [reflexivity| now apply nth_error_range | lia].
  - rewrite (nth_error_blocks pair_of 2 _ (fun _ => eq_refl) _ 1%nat row);
      [reflexivity| now apply nth_error_range | lia].
Qed.

Lemma bend_arcs_map (p : CoilParameters) :
  tg_bend_arcs (generate_top_geometry p)
  = map (fun row : Z =>
           (casing_width p + casing_right p,
            (row_centreline p row + row_centreline p (row + 1)) / 2,
            (row_centreline p (row + 1) - row_centreline p row) / 2,
            - (90), 180))
        (range3 0 (no_of_rows p - 1) 2).
Proof.
  exact (for_each_append_map _ (range3 0 (no_of_rows p - 1) 2)).
Qed.

Example range3_steps_by_two :
  range3 0 (6 - 1) 2 = [0; 2; 4]%Z /\ range3 0 (5 - 1) 2 = [0; 2]%Z
  /\ range3 0 (1 - 1) 2 = [] /\ range3 0 (-1 - 1) 2 = [].
Proof. repeat split. Qed.

Example default_bend_arcs :
  List.length (tg_bend_arcs (generate_top_geometry default_params)) = 3%nat
  /\ List.length (tg_bend_arcs (generate_top_geometry (set_no_of_rows 5 default_params)))
     = 2%nat.
Proof. split; reflexivity. Qed.

(** C5 (as stated) fails for a negative row count: with no_of_rows = -1
    the loop [range(0, -2, 2)] is empty, so no arc is emitted, while
    floor(-1 / 2) = -1. *)
Lemma arc_count_is_not_half_a_negative_row_count :
  ~ arc_count_is_half_the_row_count (set_no_of_rows (-1) default_params).
Proof.
  unfold arc_count_is_half_the_row_count. rewrite bend_arcs_map, length_map.
  vm_compute. discriminate.
Qed.

(** C5 (as amended).  The bend arcs pair rows 0-1, 2-3, ...: arc [k]
    belongs to rows 2k and 2k+1, both existing rows; it is centred at
    x = casing_width + casing_right, at the midpoint between the two
    rows' centrelines (the centrelines the tube lines are drawn
    around), with radius half their spacing, start angle -90 and span
    180.  The number of arcs is floor(no_of_rows / 2) when no_of_rows
    is not negative, and 0 otherwise; an odd last row has no arc. *)
Theorem bend_arcs_pair_rows (p : CoilParameters) :
  let g := generate_top_geometry p in
  let tube_r := tube_diameter p / 2 in
  (forall row, (0 <= row < no_of_rows p)%Z ->
     exists x1 x2,
       nth_error (tg_tube_lines g) (Z.to_nat (2 * row))
       = Some (x1, row_centreline p row - tube_r, x2, row_centreline p row - tube_r)
       /\ nth_error (tg_tube_lines g) (Z.to_nat (2 * row + 1))
          = Some (x1, row_centreline p row + tube_r, x2, row_centreline p row + tube_r))
  /\ Z.of_nat (List.length (tg_bend_arcs g)) = Z.max 0 (no_of_rows p / 2)
  /\ (forall k, (0 <= k < no_of_rows p / 2)%Z ->
        (2 * k + 1 < no_of_rows p)%Z
        /\ exists mid_y r,
             nth_error (tg_bend_arcs g) (Z.to_nat k)
             = Some (casing_width p + casing_right p, mid_y, r, - (90), 180)
             /\ mid_y == (row_centreline p (2 * k) + row_centreline p (2 * k + 1)) / 2
             /\ r == (row_centreline p (2 * k + 1) - row_centreline p (2 * k)) / 2
             /\ r == row_pitch p / 2).
Proof.
  intros g tube_r. split; [|split].
  - intros row Hrow. eexists _, _. exact (tube_lines_at p row Hrow).
  - unfold g. rewrite bend_arcs_map, length_map, length_range3.
    replace (no_of_rows p - 1 - 0 + 2 - 1)%Z with (no_of_rows p) by lia.
    pose proof (Z.div_pos (no_of_rows p) 2).
    assert (no_of_rows p < 0 -> no_of_rows p / 2 < 0)%Z
      by (intros; apply Z.div_lt_upper_bound; lia).
    lia.
  - intros k Hk. split.
    + pose proof (Z.mul_div_le (no_of_rows p) 2). lia.
    + unfold g. rewrite bend_arcs_map, nth_error_map.
      rewrite nth_error_range3
        by (replace (no_of_rows p - 1 - 0 + 2 - 1)%Z with (no_of_rows p) by lia; exact Hk).
      replace (0 + k * 2)%Z with (2 * k)%Z by lia. cbn [option_map].
      eexists _, _. split; [reflexivity|].
      split; [reflexivity|]. split; [reflexivity|].
      unfold row_centreline. rewrite inject_Z_plus. field.
Qed.

Lemma bend_arcs_pair_rows_witness :
  (2 * 2 + 1 < no_of_rows default_params)%Z
  /\ exists mid_y r,
       nth_error (tg_bend_arcs (generate_top_geometry default_params)) (Z.to_nat 2)
       = Some (casing_width default_params + casing_right default_params,
               mid_y, r, - (90), 180)
       /\ mid_y == (row_centreline default_params (2 * 2)
                    + row_centreline default_params (2 * 2 + 1)) / 2
       /\ r == (row_centreline default_params (2 * 2 + 1)
                - row_centreline default_params (2 * 2)) / 2
       /\ r == row_pitch default_params / 2.
Proof.
  refine (proj2 (proj2 (bend_arcs_pair_rows default_params)) 2%Z _).
  vm_compute. split; [discriminate | reflexivity].
Defined.

(** ** Top view: connection pipes *)

Lemma connection_geometry_LHS (p : CoilParameters) :
  connection_side p = "LHS" ->
  let g := generate_top_geometry p in
  let pipe_ext := connection_extension p in
  let pipe_r := tube_diameter p / 2 in
  let stub_lo := - pipe_ext + top_pipe_stub_center_offset p - top_pipe_stub_spacing p / 2 in
  let stub_hi := - pipe_ext + top_pipe_stub_center_offset p + top_pipe_stub_spacing p / 2 in
  tg_connection_pipes g
  = [ mkConnectionPipe (- pipe_ext, pipe_y_in p, header_block_len p, pipe_y_in p)
                       "IN" (- pipe_ext - 20, pipe_y_in p);
      mkConnectionPipe (- pipe_ext, pipe_y_out p, header_block_len p, pipe_y_out p)
                       "OUT" (- pipe_ext - 25, pipe_y_out p) ]
  /\ tg_pipe_circles g
     = [ (- pipe_ext + top_pipe_fitting_outer_offset p, pipe_y_in p, pipe_r);
         (header_block_len p - top_pipe_fitting_inner_offset p, pipe_y_in p, pipe_r);
         (- pipe_ext + top_pipe_fitting_outer_offset p, pipe_y_out p, pipe_r);
         (header_block_len p - top_pipe_fitting_inner_offset p, pipe_y_out p, pipe_r) ]
  /\ tg_pipe_stubs g
     = [ (stub_lo, pipe_y_in p - pipe_r, stub_lo, pipe_y_in p + pipe_r);
         (stub_hi, pipe_y_in p - pipe_r, stub_hi, pipe_y_in p + pipe_r);
         (stub_lo, pipe_y_out p - pipe_r, stub_lo, pipe_y_out p + pipe_r);
         (stub_hi, pipe_y_out p - pipe_r, stub_hi, pipe_y_out p + pipe_r) ].
Proof.
  intros Hside. cbv zeta.
  unfold generate_top_geometry. rewrite Hside.
  repeat split.
Qed.

Lemma connection_geometry_not_LHS (p : CoilParameters) :
  connection_side p <> "LHS" ->
  let g := generate_top_geometry p in
  let CW := casing_width p in
  let pipe_ext := connection_extension p in
  let pipe_r := tube_diameter p / 2 in
  tg_connection_pipes g
  = [ mkConnectionPipe (CW - header_block_len p, pipe_y_in p, CW + pipe_ext, pipe_y_in p)
                       "IN" (CW + pipe_ext + 15, pipe_y_in p);
      mkConnectionPipe (CW - header_block_len p, pipe_y_out p, CW + pipe_ext, pipe_y_out p)
                       "OUT" (CW + pipe_ext + 15, pipe_y_out p) ]
  /\ tg_pipe_circles g
     = [ (CW + pipe_ext - top_pipe_fitting_outer_offset p, pipe_y_in p, pipe_r);
         (CW - header_block_len p + top_pipe_fitting_inner_offset p, pipe_y_in p, pipe_r);
         (CW + pipe_ext - top_pipe_fitting_outer_offset p, pipe_y_out p, pipe_r);
         (CW - header_block_len p + top_pipe_fitting_inner_offset p, pipe_y_out p, pipe_r) ]
  /\ tg_pipe_stubs g = [].
Proof.
  intros Hside. apply String.eqb_neq in Hside. cbv zeta.
  unfold generate_top_geometry. rewrite Hside.
  repeat split.
Qed.

Lemma set_connection_side_LHS (p : CoilParameters) :
  connection_side (set_connection_side "LHS" p) = "LHS".
Proof. reflexivity. Qed.

Lemma set_connection_side_RHS (p : CoilParameters) :
  connection_side (set_connection_side "RHS" p) <> "LHS".
Proof. simpl. discriminate. Qed.

(** C2 (as stated) fails on the default record: the LHS label of the IN
    pipe is at x = -190, whose mirror image is x = 1620, but the RHS
    label is at x = 1615 (and the OUT labels are at -195 and 1615);
    moreover the LHS record has four stub lines and the RHS record has
    none. *)
Lemma rhs_connection_is_not_mirror_of_lhs :
  ~ rhs_connection_is_mirror_of_lhs default_params
  /\ List.length (tg_pipe_stubs (generate_top_geometry (set_connection_side "LHS" default_params))) = 4%nat
  /\ tg_pipe_stubs (generate_top_geometry (set_connection_side "RHS" default_params)) = [].
Proof.
  split; [|split; reflexivity].
  unfold rhs_connection_is_mirror_of_lhs. intros (_ & _ & _ & Hlabels).
  destruct (connection_geometry_LHS _ (set_connection_side_LHS default_params))
    as (Hl & _ & _).
  destruct (connection_geometry_not_LHS _ (set_connection_side_RHS default_params))
    as (Hr & _ & _).
  rewrite Hl, Hr in Hlabels.
  inversion Hlabels as [|a b la lb [_ Hpos] _]; subst.
  vm_compute in Hpos. destruct Hpos as [Hx _]. discriminate Hx.
Qed.

(** C2 (as amended).  For two records that differ only in
    connection_side, the two pipe lines (the same segments, with end
    points listed in the opposite order) and the four fitting circles
    of the RHS record are the exact mirror images, in the casing's
    vertical centreline, of those of the LHS record, pipe by pipe with
    the same IN/OUT labels.  The labels sit at the height of their pipe
    beyond its outer tip: 20 (IN) and 25 (OUT) to the left of the tip
    for LHS, 15 to the right of the tip for RHS. *)
Theorem rhs_pipes_and_fittings_mirror_lhs (p : CoilParameters) :
  let gl := generate_top_geometry (set_connection_side "LHS" p) in
  let gr := generate_top_geometry (set_connection_side "RHS" p) in
  let CW := rect_w (tg_outer_rect gl) in
  let pipe_ext := connection_extension p in
  CW = casing_width p
  /\ Forall2 (fun a b => label a = label b
                         /\ line_eq (reverse_line (mirror_line CW (line a))) (line b))
             (tg_connection_pipes gl) (tg_connection_pipes gr)
  /\ map label (tg_connection_pipes gl) = ["IN"; "OUT"]
  /\ Forall2 (fun a b => circle_eq (mirror_circle CW a) b)
             (tg_pipe_circles gl) (tg_pipe_circles gr)
  /\ List.length (tg_pipe_circles gl) = 4%nat
  /\ map label_pos (tg_connection_pipes gl)
     = [ (- pipe_ext - 20, pipe_y_in p); (- pipe_ext - 25, pipe_y_out p) ]
  /\ map label_pos (tg_connection_pipes gr)
     = [ (CW + pipe_ext + 15, pipe_y_in p); (CW + pipe_ext + 15, pipe_y_out p) ].
Proof.
  intros gl gr CW pipe_ext.
  assert (HCW : CW = casing_width p) by reflexivity.
  clearbody CW. subst CW.
  destruct (connection_geometry_LHS _ (set_connection_side_LHS p)) as (Hlp & Hlc & _).
  destruct (connection_geometry_not_LHS _ (set_connection_side_RHS p)) as (Hrp & Hrc & _).
  change (pipe_y_in (set_connection_side "LHS" p)) with (pipe_y_in p) in *.
  change (pipe_y_out (set_connection_side "LHS" p)) with (pipe_y_out p) in *.
  change (pipe_y_in (set_connection_side "RHS" p)) with (pipe_y_in p) in *.
  change (pipe_y_out (set_connection_side "RHS" p)) with (pipe_y_out p) in *.
  change (header_block_len (set_connection_side "LHS" p)) with (header_block_len p) in *.
  change (header_block_len (set_connection_side "RHS" p)) with (header_block_len p) in *.
  change (casing_width (set_connection_side "RHS" p)) with (casing_width p) in *.
  cbn [set_connection_side connection_extension tube_diameter
       top_pipe_fitting_outer_offset top_pipe_fitting_inner_offset] in Hlp, Hlc, Hrp, Hrc.
  fold gl in Hlp, Hlc. fold gr in Hrp, Hrc.
  rewrite Hlp, Hlc, Hrp, Hrc. fold pipe_ext.
  split; [reflexivity|].
  split.
  { apply Forall2_cons; [|apply Forall2_cons; [|apply Forall2_nil]];
      cbn [line label mirror_line reverse_line line_eq];
      (split; [reflexivity|]); repeat split; try reflexivity; ring. }
  split; [reflexivity|].
  split.
  { repeat (apply Forall2_cons; [cbn [mirror_circle circle_eq];
                                 repeat split; try reflexivity; ring|]).
    apply Forall2_nil. }
  split; [reflexivity|].
  split; reflexivity.
Qed.

(** ** Connection side outside its documented domain *)

Lemma invariant_messages (p : CoilParameters) :
  map fst (invariants p) = all_messages.
Proof.
  unfold invariants, all_messages.
  generalize positive_fields as pf, count_fields as cf. intros pf cf.
  rewrite !map_app, !map_map. f_equal; [|f_equal].
  - apply map_ext. now intros [n g].
  - apply map_ext. now intros [n g].
Qed.

Lemma validate_parameters_messages (p : CoilParameters) (m : string) :
  In m (validate_parameters p) -> In m all_messages.
Proof.
  rewrite validate_parameters_closed_form, <- (invariant_messages p).
  intros Hin. apply in_map_iff in Hin. destruct Hin as [x [Hx Hf]].
  apply filter_In in Hf. apply in_map_iff. exists x. tauto.
Qed.

Lemma no_message_mentions_connection_side (m : string) :
  In m all_messages -> str_in "connection_side" m = false.
Proof.
  intros Hin.
  assert (Hall : forallb (fun m => negb (str_in "connection_side" m)) all_messages = true)
    by (vm_compute; reflexivity).
  rewrite forallb_forall in Hall. specialize (Hall m Hin).
  now destruct (str_in "connection_side" m).
Qed.

Lemma invariants_ignore_side (s : string) (p : CoilParameters) :
  invariants (set_connection_side s p) = invariants p.
Proof. reflexivity. Qed.

Lemma validate_parameters_ignores_side (s : string) (p : CoilParameters) :
  validate_parameters (set_connection_side s p) = validate_parameters p.
Proof.
  rewrite !validate_parameters_closed_form.
  now rewrite invariants_ignore_side.
Qed.

Example str_in_finds_substring :
  str_in "connection_side" "the connection_side is wrong" = true
  /\ str_in "connection_side" "connection_extension must be positive" = false.
Proof. split; reflexivity. Qed.

(** C10.  For every parameter record whose connection_side is any
    string other than "LHS", [generate_top_geometry] takes the RHS
    branch: connection pipes, fitting circles and stub lines are those
    of the same record with side "RHS", every pipe running from
    casing_width - header_block_len to casing_width + pipe_ext with its
    label 15 further right; and [validate_parameters] returns no
    message that mentions connection_side (it returns the same list as
    for side "RHS"). *)
Theorem out_of_domain_side_is_rendered_as_RHS (p : CoilParameters) :
  connection_side p <> "LHS" ->
  let g := generate_top_geometry p in
  let gr := generate_top_geometry (set_connection_side "RHS" p) in
  let CW := casing_width p in
  let pipe_ext := connection_extension p in
  tg_connection_pipes g = tg_connection_pipes gr
  /\ tg_pipe_circles g = tg_pipe_circles gr
  /\ tg_pipe_stubs g = tg_pipe_stubs gr
  /\ tg_connection_pipes g
     = [ mkConnectionPipe (CW - header_block_len p, pipe_y_in p, CW + pipe_ext, pipe_y_in p)
                          "IN" (CW + pipe_ext + 15, pipe_y_in p);
         mkConnectionPipe (CW - header_block_len p, pipe_y_out p, CW + pipe_ext, pipe_y_out p)
                          "OUT" (CW + pipe_ext + 15, pipe_y_out p) ]
  /\ (forall m, In m (validate_parameters p) -> str_in "connection_side" m = false)
  /\ validate_parameters p = validate_parameters (set_connection_side "RHS" p).
Proof.
  intros Hside g gr CW pipe_ext.
  destruct (connection_geometry_not_LHS p Hside) as (Hp & Hc & Hs).
  destruct (connection_geometry_not_LHS _ (set_connection_side_RHS p)) as (Hrp & Hrc & Hrs).
  fold g in Hp, Hc, Hs. fold gr in Hrp, Hrc, Hrs.
  split; [rewrite Hp, Hrp; reflexivity|].
  split; [rewrite Hc, Hrc; reflexivity|].
  split; [rewrite Hs, Hrs; reflexivity|].
  split; [exact Hp|].
  split.
  - intros m Hin. apply no_message_mentions_connection_side.
    exact (validate_parameters_messages p m Hin).
  - symmetry. apply validate_parameters_ignores_side.
Qed.

Lemma out_of_domain_side_is_rendered_as_RHS_witness :
  connection_side (set_connection_side "BOTH" default_params) <> "LHS"
  /\ tg_pipe_stubs (generate_top_geometry (set_connection_side "BOTH" default_params))
     = tg_pipe_stubs (generate_top_geometry
                        (set_connection_side "RHS" (set_connection_side "BOTH" default_params))).
Proof.
  assert (Hside : connection_side (set_connection_side "BOTH" default_params) <> "LHS")
    by (simpl; discriminate).
  split; [exact Hside|].
  exact (proj1 (proj2 (proj2 (out_of_domain_side_is_rendered_as_RHS
                                (set_connection_side "BOTH" default_params) Hside)))).
Defined.

(** ** Side-view height against the front view's casing height *)

Lemma vertical_pitch_spans_usable_height (p : CoilParameters) :
  (tubes_per_row p > 1)%Z ->
  vertical_pitch p * inject_Z (tubes_per_row p - 1)
  == fin_height p - top_plate p - bottom_plate p.
Proof.
  intros Htpr. unfold vertical_pitch.
  destruct (Z.leb_spec (tubes_per_row p) 1) as [Hle|Hgt]; [lia|].
  field. intros H0. unfold Qeq in H0. simpl in H0. lia.
Qed.

Lemma front_outer_rect (p : CoilParameters) (fg : FrontGeometry) :
  generate_front_geometry p = Return fg ->
  fg_outer_rect fg = (0, 0, casing_width p, casing_height p).
Proof.
  unfold generate_front_geometry, bind.
  destruct (py_float (fpi p)) as [fpi_as_float|e]; [|discriminate].
  destruct (py_div (254 # 10) fpi_as_float) as [fin_spacing|e]; [|discriminate].
  destruct (py_div (fin_height p) fin_spacing) as [ratio|e]; [|discriminate].
  destruct (py_int ratio) as [n_fins|e]; [|discriminate].
  intros H. inversion H. reflexivity.
Qed.

Example default_vertical_pitch : vertical_pitch default_params == 1300 # 34.
Proof. reflexivity. Qed.

Example default_side_view_height :
  rect_h (sg_outer_rect (generate_header_geometry default_params)) == 48900 # 34
  /\ casing_height default_params == 1430.
Proof. split; reflexivity. Qed.

(** C9.  For every parameter record with tubes_per_row > 1, the header
    view and the return view have the same outer-rectangle height,
    tubes_per_row * vertical_pitch + top_plate + bottom_plate, and it
    equals fin_height + vertical_pitch: it exceeds fin_height by one
    vertical pitch, and it differs from the front view's casing_height
    = casing_bottom + fin_height + casing_top whenever vertical_pitch
    is not casing_bottom + casing_top. *)
Theorem side_view_height_is_fin_height_plus_pitch (p : CoilParameters) :
  (tubes_per_row p > 1)%Z ->
  let h := rect_h (sg_outer_rect (generate_header_geometry p)) in
  rect_h (sg_outer_rect (generate_return_geometry p)) = h
  /\ h = inject_Z (tubes_per_row p) * vertical_pitch p + top_plate p + bottom_plate p
  /\ h == fin_height p + vertical_pitch p
  /\ h - fin_height p == vertical_pitch p
  /\ casing_height p = casing_bottom p + fin_height p + casing_top p
  /\ (forall fg, generate_front_geometry p = Return fg ->
        rect_h (fg_outer_rect fg) = casing_height p)
  /\ (~ vertical_pitch p == casing_bottom p + casing_top p ->
      ~ h == casing_height p).
Proof.
  intros Htpr h.
  pose proof (vertical_pitch_spans_usable_height p Htpr) as Hvp.
  assert (Hh : h == fin_height p + vertical_pitch p).
  { unfold h, generate_header_geometry. cbn [sg_outer_rect rect_h].
    replace (tubes_per_row p) with ((tubes_per_row p - 1) + 1)%Z at 1 by lia.
    rewrite inject_Z_plus.
    setoid_replace ((inject_Z (tubes_per_row p - 1) + inject_Z 1) * vertical_pitch p
                    + top_plate p + bottom_plate p)
      with (vertical_pitch p * inject_Z (tubes_per_row p - 1)
            + vertical_pitch p + top_plate p + bottom_plate p)
      by (change (inject_Z 1) with 1; ring).
    rewrite Hvp. ring. }
  split; [reflexivity|]. split; [reflexivity|].
  split; [exact Hh|]. split; [rewrite Hh; ring|].
  split; [reflexivity|]. split.
  - intros fg Hfg. now rewrite (front_outer_rect p fg Hfg).
  - intros Hne Heq. apply Hne. rewrite Hh in Heq. unfold casing_height in Heq.
    Lqa.lra.
Qed.

Lemma side_view_height_is_fin_height_plus_pitch_witness :
  (tubes_per_row default_params > 1)%Z
  /\ rect_h (sg_outer_rect (generate_header_geometry default_params))
     == fin_height default_params + vertical_pitch default_params.
Proof.
  assert (Htpr : (tubes_per_row default_params > 1)%Z) by (simpl; lia).
  split; [exact Htpr|].
  exact (proj1 (proj2 (proj2 (side_view_height_is_fin_height_plus_pitch
                                default_params Htpr)))).
Defined.

(** ** Sheet layout *)

Lemma py_div_returns (a b : Q) :
  ~ b == 0 -> py_div a b = Return (a / b).
Proof.
  intros Hb. unfold py_div.
  destruct (Qeq_bool b 0) eqn:E; [|reflexivity].
  apply Qeq_bool_iff in E. contradiction.
Qed.

Lemma inject_Z_nonzero (n : Z) : n <> 0%Z -> ~ inject_Z n == 0.
Proof. intros Hn H0. unfold Qeq in H0. simpl in H0. lia. Qed.

Lemma fin_spacing_nonzero (n : Z) : n <> 0%Z -> ~ (254 # 10) / inject_Z n == 0.
Proof.
  intros Hn H0. pose proof (inject_Z_nonzero n Hn) as Hq.
  assert (H : (254 # 10) == 0).
  { setoid_replace (254 # 10) with ((254 # 10) / inject_Z n * inject_Z n)
      by (field; exact Hq).
    rewrite H0. ring. }
  discriminate H.
Qed.

Lemma float_safe_below_overflow : (FLOAT_SAFE < FLOAT_OVERFLOW)%Z.
Proof. vm_compute. reflexivity. Qed.

Lemma no_overflow (x : Q) : Qabs x < inject_Z FLOAT_SAFE -> overflows x = false.
Proof.
  intros Hx. unfold overflows.
  destruct (Qle_bool (inject_Z FLOAT_OVERFLOW) (Qabs x)) eqn:E; [|reflexivity].
  apply Qle_bool_iff in E. exfalso.
  assert (H : inject_Z FLOAT_SAFE < inject_Z FLOAT_OVERFLOW)
    by (rewrite <- Zlt_Qlt; exact float_safe_below_overflow).
  apply (Qlt_irrefl (Qabs x)).
  eapply Qlt_le_trans; [|exact E]. eapply Qlt_trans; eassumption.
Qed.

Lemma no_overflow_int (n : Z) :
  (Z.abs n < FLOAT_SAFE)%Z -> overflows (inject_Z n) = false.
Proof.
  intros Hn. apply no_overflow.
  change (Qabs (inject_Z n)) with (inject_Z (Z.abs n)).
  rewrite <- Zlt_Qlt. exact Hn.
Qed.

(** The outcomes of [generate_front_geometry], in the order in which
    the code reaches them. *)
Lemma generate_front_geometry_cases (p : CoilParameters) :
  generate_front_geometry p
  = if overflows (inject_Z (fpi p)) then Raise OverflowError
    else if (fpi p =? 0)%Z then Raise ZeroDivisionError
    else if overflows (fin_height p / fin_spacing p) then Raise OverflowError
    else Return (front_view p).
Proof.
  unfold generate_front_geometry, py_float.
  destruct (overflows (inject_Z (fpi p))); [reflexivity|]. cbn [bind].
  destruct (Z.eqb_spec (fpi p) 0) as [H0|Hne].
  - rewrite H0. reflexivity.
  - rewrite (py_div_returns _ _ (inject_Z_nonzero _ Hne)). cbn [bind].
    rewrite (py_div_returns _ _ (fin_spacing_nonzero _ Hne)). cbn [bind].
    unfold py_int. fold (fin_spacing p).
    destruct (overflows (fin_height p / fin_spacing p)); reflexivity.
Qed.

(** The front view is computed when fpi is not zero and the numbers
    stay inside the float range. *)
Lemma front_view_computed (p : CoilParameters) :
  fpi p <> 0%Z ->
  (Z.abs (fpi p) < FLOAT_SAFE)%Z ->
  Qabs (fin_height p / fin_spacing p) < inject_Z FLOAT_SAFE ->
  generate_front_geometry p = Return (front_view p).
Proof.
  intros Hfpi Hf Hq. rewrite generate_front_geometry_cases.
  rewrite (no_overflow_int _ Hf), (no_overflow _ Hq).
  destruct (Z.eqb_spec (fpi p) 0) as [H0|_]; [contradiction|reflexivity].
Qed.

Lemma generate_front_geometry_returns (p : CoilParameters) :
  fpi p <> 0%Z -> in_float_range p ->
  generate_front_geometry p = Return (front_view p).
Proof.
  intros Hfpi (Hf & _ & _ & _ & Hq). now apply front_view_computed.
Qed.

Lemma generate_front_geometry_raises (p : CoilParameters) :
  fpi p = 0%Z -> generate_front_geometry p = Raise ZeroDivisionError.
Proof.
  intros Hfpi. rewrite generate_front_geometry_cases, Hfpi.
  rewrite (no_overflow_int 0) by (vm_compute; reflexivity).
  reflexivity.
Qed.

Lemma front_geometry_inversion (p : CoilParameters) (fg : FrontGeometry) :
  generate_front_geometry p = Return fg ->
  fpi p <> 0%Z /\ fg = front_view p.
Proof.
  rewrite generate_front_geometry_cases.
  destruct (overflows (inject_Z (fpi p))); [discriminate|].
  destruct (Z.eqb_spec (fpi p) 0) as [H0|Hne]; [discriminate|].
  destruct (overflows (fin_height p / fin_spacing p)); [discriminate|].
  intros H. inversion H. split; [exact Hne|reflexivity].
Qed.

Lemma generate_layout_sheet (p : CoilParameters) (fg : FrontGeometry) :
  generate_front_geometry p = Return fg ->
  generate_layout p = Return (sheet p fg).
Proof.
  intros Hfg. unfold generate_layout. rewrite Hfg. cbn [bind].
  rewrite (front_outer_rect p fg Hfg). reflexivity.
Qed.

Lemma generate_layout_raises (p : CoilParameters) :
  fpi p = 0%Z -> generate_layout p = Raise ZeroDivisionError.
Proof.
  intros Hfpi. unfold generate_layout.
  now rewrite (generate_front_geometry_raises p Hfpi).
Qed.

Lemma generate_layout_returns_sheet (p : CoilParameters) (L : DrawingLayout) :
  generate_layout p = Return L ->
  exists fg, generate_front_geometry p = Return fg /\ L = sheet p fg.
Proof.
  intros HL. destruct (generate_front_geometry p) as [fg|e] eqn:Hfg.
  - exists fg. split; [reflexivity|].
    rewrite (generate_layout_sheet p fg Hfg) in HL. now inversion HL.
  - unfold generate_layout in HL. rewrite Hfg in HL. discriminate HL.
Qed.

Lemma generate_layout_returns (p : CoilParameters) :
  fpi p <> 0%Z -> in_float_range p ->
  generate_layout p = Return (sheet p (front_view p)).
Proof.
  intros Hfpi Hrange. apply generate_layout_sheet.
  now apply generate_front_geometry_returns.
Qed.

Lemma in_float_range_default : in_float_range default_params.
Proof.
  unfold in_float_range.
  repeat split; try (vm_compute; reflexivity).
Qed.

Lemma py_max_is_max (a b : Q) :
  a <= py_max a b /\ b <= py_max a b /\ (py_max a b = a \/ py_max a b = b).
Proof.
  unfold py_max, Qlt_bool.
  destruct (Qle_bool b a) eqn:E; cbn [negb].
  - apply Qle_bool_iff in E. repeat split; [apply Qle_refl | exact E | now left].
  - assert (Hlt : a < b).
    { apply Qnot_le_lt. intros Hle. apply Qle_bool_iff in Hle. congruence. }
    repeat split; [now apply Qlt_le_weak | apply Qle_refl | now right].
Qed.

Lemma py_max3_is_max (a b c : Q) :
  let m := py_max3 a b c in
  a <= m /\ b <= m /\ c <= m /\ (m = a \/ m = b \/ m = c).
Proof.
  cbv zeta. unfold py_max3.
  destruct (py_max_is_max a b) as (Ha & Hb & Hab).
  destruct (py_max_is_max (py_max a b) c) as (Hm & Hc & Hmc).
  repeat split.
  - eapply Qle_trans; eassumption.
  - eapply Qle_trans; eassumption.
  - exact Hc.
  - destruct Hmc as [-> | ->]; [|tauto]. destruct Hab as [-> | ->]; tauto.
Qed.

(** C7 (as stated) fails for fpi = 0: the front view divides 25.4 by
    fpi, so [generate_layout] raises ZeroDivisionError and places no
    view at all. *)
Lemma generate_layout_raises_without_fins :
  generate_layout (set_fpi 0 default_params) = Raise ZeroDivisionError
  /\ ~ exists L, generate_layout (set_fpi 0 default_params) = Return L.
Proof.
  assert (H : generate_layout (set_fpi 0 default_params) = Raise ZeroDivisionError)
    by (apply generate_layout_raises; reflexivity).
  split; [exact H|]. intros [L HL]. rewrite H in HL. discriminate HL.
Qed.

(** Where the views of a sheet are. *)
Lemma sheet_places_views (p : CoilParameters) (fg : FrontGeometry) :
  generate_front_geometry p = Return fg ->
  exists top header front ret,
    views (sheet p fg) = [top; header; front; ret]
    /\ (vd_label top = "TOP" /\ vd_label header = "HEADER SIDE"
        /\ vd_label front = "FRONT" /\ vd_label ret = "RETURN END SIDE")
    /\ (geometry top = TopView (generate_top_geometry p)
        /\ geometry header = SideView (generate_header_geometry p)
        /\ generate_front_geometry p = Return fg /\ geometry front = FrontView fg
        /\ geometry ret = SideView (generate_return_geometry p))
    /\ VIEW_GAP = 80
    /\ offset_x header = 0
    /\ offset_x front = rect_w (outer_rect (geometry header)) + VIEW_GAP
    /\ offset_x ret = offset_x front + rect_w (outer_rect (geometry front)) + VIEW_GAP
    /\ (let bottom_y := rect_h (outer_rect (geometry top)) + VIEW_GAP in
        let tallest := py_max3 (rect_h (outer_rect (geometry front)))
                               (rect_h (outer_rect (geometry header)))
                               (rect_h (outer_rect (geometry ret))) in
        offset_y header = bottom_y /\ offset_y front = bottom_y
        /\ offset_y ret = bottom_y
        /\ notes_offset (sheet p fg)
           = (offset_x header, bottom_y + tallest + VIEW_GAP / 2)
        /\ title_block_offset (sheet p fg)
           = (offset_x ret, bottom_y + tallest + VIEW_GAP / 2)
        /\ rect_h (outer_rect (geometry front)) <= tallest
        /\ rect_h (outer_rect (geometry header)) <= tallest
        /\ rect_h (outer_rect (geometry ret)) <= tallest
        /\ (tallest = rect_h (outer_rect (geometry front))
            \/ tallest = rect_h (outer_rect (geometry header))
            \/ tallest = rect_h (outer_rect (geometry ret))))
    /\ offset_x top = offset_x front
    /\ offset_y top = 0.
Proof.
  intros Hfg.
  exists (mkViewDescriptor "TOP" (header_depth p + VIEW_GAP) 0
                           (TopView (generate_top_geometry p))).
  exists (mkViewDescriptor "HEADER SIDE" 0 (header_depth p + VIEW_GAP)
                           (SideView (generate_header_geometry p))).
  exists (mkViewDescriptor "FRONT" (header_depth p + VIEW_GAP) (header_depth p + VIEW_GAP)
                           (FrontView fg)).
  exists (mkViewDescriptor "RETURN END SIDE"
                           (header_depth p + VIEW_GAP + casing_width p + VIEW_GAP)
                           (header_depth p + VIEW_GAP)
                           (SideView (generate_return_geometry p))).
  split; [reflexivity|].
  split; [repeat split|].
  split; [repeat split; exact Hfg|].
  split; [reflexivity|].
  split; [reflexivity|].
  split; [reflexivity|].
  cbn [geometry outer_rect offset_x offset_y].
  rewrite (front_outer_rect p fg Hfg). cbn [rect_w rect_h].
  split; [reflexivity|].
  split; [|split; reflexivity].
  pose proof (py_max3_is_max (casing_height p) (side_view_height p) (side_view_height p))
    as Hmax.
  cbv zeta in Hmax. cbv zeta.
  change (rect_h (sg_outer_rect (generate_header_geometry p))) with (side_view_height p).
  change (rect_h (sg_outer_rect (generate_return_geometry p))) with (side_view_height p).
  change (rect_h (tg_outer_rect (generate_top_geometry p))) with (header_depth p).
  split; [reflexivity|]. split; [reflexivity|]. split; [reflexivity|].
  split; [reflexivity|]. split; [reflexivity|].
  exact Hmax.
Qed.

(** C7 (as amended).  [generate_layout] returns a sheet for every
    parameter record with fpi <> 0 whose numbers stay inside the float
    range (the integer fields fpi, no_of_rows, tubes_per_row and
    no_of_circuits and the fin count fin_height / (25.4 / fpi) below
    2^1023 in magnitude).  Every sheet
    it returns has the four views TOP, HEADER SIDE, FRONT, RETURN END
    SIDE placed as follows, the gap being the constant 80: header-side
    at x = 0, front at x = header-view width + gap, return-end at
    x = front x + front width + gap, all three at y = top-view height
    + gap; the top view at the front view's x and y = 0; the notes at
    (header x, bottom-row y + the largest of the three bottom-row view
    heights + gap / 2) and the title block at the return view's x and
    the same y. *)
Theorem generate_layout_places_views (p : CoilParameters) :
  (fpi p <> 0%Z -> in_float_range p -> exists L, generate_layout p = Return L)
  /\ forall L, generate_layout p = Return L ->
     exists top header front ret fg,
       views L = [top; header; front; ret]
       /\ (vd_label top = "TOP" /\ vd_label header = "HEADER SIDE"
           /\ vd_label front = "FRONT" /\ vd_label ret = "RETURN END SIDE")
       /\ (geometry top = TopView (generate_top_geometry p)
           /\ geometry header = SideView (generate_header_geometry p)
           /\ generate_front_geometry p = Return fg /\ geometry front = FrontView fg
           /\ geometry ret = SideView (generate_return_geometry p))
       /\ VIEW_GAP = 80
       /\ offset_x header = 0
       /\ offset_x front = rect_w (outer_rect (geometry header)) + VIEW_GAP
       /\ offset_x ret
          = offset_x front + rect_w (outer_rect (geometry front)) + VIEW_GAP
       /\ (let bottom_y := rect_h (outer_rect (geometry top)) + VIEW_GAP in
           let tallest := py_max3 (rect_h (outer_rect (geometry front)))
                                  (rect_h (outer_rect (geometry header)))
                                  (rect_h (outer_rect (geometry ret))) in
           offset_y header = bottom_y /\ offset_y front = bottom_y
           /\ offset_y ret = bottom_y
           /\ notes_offset L = (offset_x header, bottom_y + tallest + VIEW_GAP / 2)
           /\ title_block_offset L = (offset_x ret, bottom_y + tallest + VIEW_GAP / 2)
           /\ rect_h (outer_rect (geometry front)) <= tallest
           /\ rect_h (outer_rect (geometry header)) <= tallest
           /\ rect_h (outer_rect (geometry ret)) <= tallest
           /\ (tallest = rect_h (outer_rect (geometry front))
               \/ tallest = rect_h (outer_rect (geometry header))
               \/ tallest = rect_h (outer_rect (geometry ret))))
       /\ offset_x top = offset_x front
       /\ offset_y top = 0.
Proof.
  split.
  - intros Hfpi Hrange. eexists. exact (generate_layout_returns p Hfpi Hrange).
  - intros L HL.
    destruct (generate_layout_returns_sheet p L HL) as [fg [Hfg ->]].
    destruct (sheet_places_views p fg Hfg) as (top & header & front & ret & H).
    exists top, header, front, ret, fg. exact H.
Qed.

Lemma generate_layout_places_views_witness :
  fpi default_params <> 0%Z /\ in_float_range default_params
  /\ exists L, generate_layout default_params = Return L
               /\ List.length (views L) = 4%nat.
Proof.
  assert (Hfpi : fpi default_params <> 0%Z) by (simpl; discriminate).
  split; [exact Hfpi|]. split; [exact in_float_range_default|].
  destruct (generate_layout_places_views default_params) as [Hreturns Hplaces].
  destruct (Hreturns Hfpi in_float_range_default) as [L HL].
  destruct (Hplaces L HL) as (top & header & front & ret & fg & Hviews & _).
  exists L. split; [exact HL|]. rewrite Hviews. reflexivity.
Defined.

(** ** No two views overlap *)

Lemma validate_nil_invariant (p : CoilParameters) (k : string) (b : bool) :
  validate_parameters p = [] -> In (k, b) (invariants p) -> b = false.
Proof.
  intros Hnil Hin.
  pose proof (in_selected_keys (invariants p) k b (invariant_messages_distinct p) Hin)
    as Hiff.
  rewrite <- validate_parameters_closed_form, Hnil in Hiff.
  destruct b; [|reflexivity]. exfalso. now apply Hiff.
Qed.

Lemma validate_nil_positive (p : CoilParameters) name getattr :
  validate_parameters p = [] -> In (name, getattr) positive_fields -> 0 < getattr p.
Proof.
  intros Hnil Hin.
  pose proof (validate_nil_invariant p _ _ Hnil (positive_invariant_listed p name getattr Hin))
    as Hb.
  apply Qnot_le_lt. intros Hle. apply Qle_bool_iff in Hle. congruence.
Qed.

Lemma validate_nil_count (p : CoilParameters) name getattr :
  validate_parameters p = [] -> In (name, getattr) count_fields -> (1 <= getattr p)%Z.
Proof.
  intros Hnil Hin.
  pose proof (validate_nil_invariant p _ _ Hnil (count_invariant_listed p name getattr Hin))
    as Hb.
  apply Z.ltb_ge in Hb. exact Hb.
Qed.

Lemma validated_casing_width_positive (p : CoilParameters) :
  validate_parameters p = [] -> 0 < casing_width p.
Proof.
  intros Hnil.
  assert (Hl : 0 < casing_left p)
    by (apply (validate_nil_positive p "casing_left"); [exact Hnil | simpl; tauto]).
  assert (Hf : 0 < fin_length p)
    by (apply (validate_nil_positive p "fin_length"); [exact Hnil | simpl; tauto]).
  assert (Hr : 0 < casing_right p)
    by (apply (validate_nil_positive p "casing_right"); [exact Hnil | simpl; tauto]).
  unfold casing_width. Lqa.lra.
Qed.

Lemma Qlt_bool_iff (a b : Q) : Qlt_bool a b = true <-> a < b.
Proof.
  unfold Qlt_bool. split.
  - intros H. apply Qnot_le_lt. intros Hle. apply Qle_bool_iff in Hle.
    rewrite Hle in H. discriminate H.
  - intros Hlt. destruct (Qle_bool b a) eqn:E; [|reflexivity].
    apply Qle_bool_iff in E. exfalso. exact (Qlt_not_le _ _ Hlt E).
Qed.

Lemma separated_disjoint (a b : Rect) :
  separated a b -> ~ rects_intersect a b /\ rects_overlap a b = false.
Proof.
  intros Hsep. split.
  - intros (x & y & (Ha1 & Ha2 & Ha3 & Ha4) & (Hb1 & Hb2 & Hb3 & Hb4)).
    unfold separated in Hsep. Lqa.lra.
  - destruct (rects_overlap a b) eqn:E; [|reflexivity]. exfalso.
    unfold rects_overlap in E.
    apply andb_prop in E. destruct E as [E E4].
    apply andb_prop in E. destruct E as [E E3].
    apply andb_prop in E. destruct E as [E1 E2].
    apply Qlt_bool_iff in E1, E2, E3, E4.
    unfold separated in Hsep. Lqa.lra.
Qed.

Lemma extent_from_origin (x w : Q) :
  0 <= w -> py_min x (x + w) == x /\ py_max x (x + w) == x + w.
Proof.
  intros Hw. unfold py_min, py_max. split.
  - destruct (Qlt_bool (x + w) x) eqn:E; [|reflexivity].
    apply Qlt_bool_iff in E. Lqa.lra.
  - destruct (Qlt_bool x (x + w)) eqn:E; [reflexivity|].
    assert (Hn : ~ x < x + w)
      by (intros H; apply Qlt_bool_iff in H; congruence).
    Lqa.lra.
Qed.

Lemma in_rect_from_origin (r : Rect) (x y : Q) :
  0 <= rect_w r -> 0 <= rect_h r ->
  rect_x r <= x -> x <= rect_x r + rect_w r ->
  rect_y r <= y -> y <= rect_y r + rect_h r ->
  in_rect r x y.
Proof.
  intros Hw Hh Hx0 Hx1 Hy0 Hy1.
  unfold in_rect, rect_left, rect_right, rect_low, rect_high.
  destruct (extent_from_origin (rect_x r) (rect_w r) Hw) as [Hl Hr].
  destruct (extent_from_origin (rect_y r) (rect_h r) Hh) as [Hb Ht].
  repeat split; Lqa.lra.
Qed.

Lemma separated_in_x (a b : Rect) :
  0 <= rect_w a -> 0 <= rect_w b ->
  rect_x a + rect_w a < rect_x b -> separated a b.
Proof.
  intros Ha Hb Hlt. left. unfold rect_right, rect_left.
  destruct (extent_from_origin (rect_x a) (rect_w a) Ha) as [_ Hra].
  destruct (extent_from_origin (rect_x b) (rect_w b) Hb) as [Hlb _].
  Lqa.lra.
Qed.

Lemma separated_in_y (a b : Rect) :
  0 <= rect_h a -> 0 <= rect_h b ->
  rect_y a + rect_h a < rect_y b -> separated a b.
Proof.
  intros Ha Hb Hlt. right. right. left. unfold rect_high, rect_low.
  destruct (extent_from_origin (rect_y a) (rect_h a) Ha) as [_ Hra].
  destruct (extent_from_origin (rect_y b) (rect_h b) Hb) as [Hlb _].
  Lqa.lra.
Qed.

Lemma separated_sym (a b : Rect) : separated a b -> separated b a.
Proof. unfold separated. tauto. Qed.

Ltac gap_arithmetic :=
  cbn [rect_x rect_y rect_w rect_h]; unfold VIEW_GAP; Lqa.lra.

Lemma sheet_views_separated (p : CoilParameters) (fg : FrontGeometry) :
  fg_outer_rect fg = (0, 0, casing_width p, casing_height p) ->
  0 < casing_width p -> 0 < casing_height p ->
  0 < header_depth p -> 0 < return_depth p ->
  forall i j vi vj,
    nth_error (views (sheet p fg)) i = Some vi ->
    nth_error (views (sheet p fg)) j = Some vj ->
    i <> j ->
    separated (view_box vi) (view_box vj).
Proof.
  intros Hfront Hcw Hch Hhd Hrd i j vi vj Hi Hj Hne.
  unfold sheet in Hi, Hj. cbn [views] in Hi, Hj.
  destruct i as [|[|[|[|i]]]]; cbn [nth_error] in Hi;
    try (destruct i; discriminate Hi);
    destruct j as [|[|[|[|j]]]]; cbn [nth_error] in Hj;
    try (destruct j; discriminate Hj);
    try (exfalso; now apply Hne);
    inversion Hi; inversion Hj; subst vi vj;
    unfold view_box;
    cbn [geometry outer_rect offset_x offset_y];
    try rewrite Hfront;
    change (sg_outer_rect (generate_header_geometry p))
      with (0, 0, header_depth p, side_view_height p);
    change (sg_outer_rect (generate_return_geometry p))
      with (0, 0, return_depth p, side_view_height p);
    change (tg_outer_rect (generate_top_geometry p))
      with (0, 0, casing_width p, header_depth p);
    first [ apply separated_in_x; gap_arithmetic
          | apply separated_sym, separated_in_x; gap_arithmetic
          | apply separated_in_y; gap_arithmetic
          | apply separated_sym, separated_in_y; gap_arithmetic ].
Qed.

Lemma validated_casing_height_positive (p : CoilParameters) :
  validate_parameters p = [] -> 0 < casing_height p.
Proof.
  intros Hnil.
  assert (Hb : 0 < casing_bottom p)
    by (apply (validate_nil_positive p "casing_bottom"); [exact Hnil | simpl; tauto]).
  assert (Hf : 0 < fin_height p)
    by (apply (validate_nil_positive p "fin_height"); [exact Hnil | simpl; tauto]).
  assert (Ht : 0 < casing_top p)
    by (apply (validate_nil_positive p "casing_top"); [exact Hnil | simpl; tauto]).
  unfold casing_height. Lqa.lra.
Qed.

Example validate_accepts_negative_return_depth :
  validate_parameters (set_return_depth (-2000) default_params) = [].
Proof. reflexivity. Qed.

(** C8, on the code.  The record with return_depth = -2000 and every
    other field at its default passes validation, because
    [validate_parameters] does not check return_depth as it checks
    coil_depth and header_depth.  On the sheet [generate_layout]
    returns for it the return-end view is placed at x = 1910 with
    width -2000, so its box runs from x = -90 to x = 1910 and lies
    over the front view's box, which runs from x = 400 to x = 1830 at
    the same height: the point (1000, 500) is in both boxes, and the
    overlap test on the two boxes is true. *)
Theorem unchecked_return_depth_lets_views_overlap :
  let p := set_return_depth (-2000) default_params in
  validate_parameters p = []
  /\ exists L top header front ret,
       generate_layout p = Return L
       /\ views L = [top; header; front; ret]
       /\ vd_label front = "FRONT" /\ vd_label ret = "RETURN END SIDE"
       /\ (rect_x (view_box front) == 400 /\ rect_w (view_box front) == 1430)
       /\ (rect_x (view_box ret) == 1910 /\ rect_w (view_box ret) == -2000)
       /\ rect_y (view_box front) == rect_y (view_box ret)
       /\ in_rect (view_box front) 1000 500
       /\ in_rect (view_box ret) 1000 500
       /\ rects_intersect (view_box front) (view_box ret)
       /\ rects_overlap (view_box front) (view_box ret) = true.
Proof.
  cbv zeta. split; [reflexivity|].
  assert (Hfpi : fpi (set_return_depth (-2000) default_params) <> 0%Z)
    by (simpl; discriminate).
  assert (Hrange : in_float_range (set_return_depth (-2000) default_params))
    by (unfold in_float_range; repeat split; vm_compute; reflexivity).
  pose proof (generate_layout_returns _ Hfpi Hrange) as HL.
  eexists. eexists. eexists. eexists. eexists.
  split; [exact HL|]. split; [reflexivity|].
  assert (Hfront : in_rect (view_box
                     (mkViewDescriptor "FRONT" (header_depth default_params + VIEW_GAP)
                        (header_depth default_params + VIEW_GAP)
                        (FrontView (front_view
                           (set_return_depth (-2000) default_params))))) 1000 500)
    by (unfold in_rect; repeat split; vm_compute; discriminate).
  assert (Hret : in_rect (view_box
                   (mkViewDescriptor "RETURN END SIDE"
                      (header_depth default_params + VIEW_GAP
                       + casing_width default_params + VIEW_GAP)
                      (header_depth default_params + VIEW_GAP)
                      (SideView (generate_return_geometry
                         (set_return_depth (-2000) default_params))))) 1000 500)
    by (unfold in_rect; repeat split; vm_compute; discriminate).
  split; [reflexivity|]. split; [reflexivity|].
  split; [split; vm_compute; reflexivity|].
  split; [split; vm_compute; reflexivity|].
  split; [vm_compute; reflexivity|].
  split; [exact Hfront|]. split; [exact Hret|].
  split; [exists 1000, 500; split; [exact Hfront|exact Hret]|].
  vm_compute. reflexivity.
Qed.



(** ** Arrowheads *)

Section Arrowhead.
Import DimensionEngine.
Local Open Scope R_scope.

Lemma leg_length (tx ty len t : R) :
  0 <= len ->
  segment_length (tx, ty, tx + len * cos t, ty + len * sin t) = len.
Proof.
  intros Hlen. unfold segment_length.
  replace ((tx + len * cos t - tx) * (tx + len * cos t - tx)
           + (ty + len * sin t - ty) * (ty + len * sin t - ty))
    with (len * len * (Rsqr (sin t) + Rsqr (cos t)))
    by (unfold Rsqr; ring).
  rewrite sin2_cos2, Rmult_1_r. now apply sqrt_square.
Qed.

(** C6.  For every tip position and direction angle the arrowhead
    primitive returns exactly two segments that start at the tip, run
    in the directions "reversed direction + 25 degrees" and "reversed
    direction - 25 degrees", and have length 3; the constants of the
    dimension engine are arrow length 3, arrow half-angle 25,
    extension gap 2 and extension overrun 3. *)
Theorem arrowhead_is_open_V (tx ty a_deg : R) :
  (ARROW_LEN = 3 /\ ARROW_ANGLE = 25 /\ EXT_GAP = 2 /\ EXT_OVER = 3)
  /\ exists leg_plus leg_minus,
       arrowhead_lines tx ty a_deg = [leg_plus; leg_minus]
       /\ leg_plus = (tx, ty,
                      tx + 3 * cos (radians (a_deg + 180 + 25)),
                      ty + 3 * sin (radians (a_deg + 180 + 25)))
       /\ leg_minus = (tx, ty,
                       tx + 3 * cos (radians (a_deg + 180 - 25)),
                       ty + 3 * sin (radians (a_deg + 180 - 25)))
       /\ segment_length leg_plus = 3
       /\ segment_length leg_minus = 3.
Proof.
  split; [repeat split|].
  eexists _, _. split; [reflexivity|].
  assert (Hplus : radians a_deg + 1 * radians ARROW_ANGLE
                  = radians (a_deg + 180 + 25) - PI).
  { unfold radians, ARROW_ANGLE. field. }
  assert (Hminus : radians a_deg + -1 * radians ARROW_ANGLE
                   = radians (a_deg + 180 - 25) - PI).
  { unfold radians, ARROW_ANGLE. field. }
  assert (Hcos : forall t, - ARROW_LEN * cos (t - PI) = 3 * cos t).
  { intros t. replace t with (t - PI + PI) at 2 by ring.
    rewrite neg_cos. unfold ARROW_LEN. ring. }
  assert (Hsin : forall t, - ARROW_LEN * sin (t - PI) = 3 * sin t).
  { intros t. replace t with (t - PI + PI) at 2 by ring.
    rewrite neg_sin. unfold ARROW_LEN. ring. }
  rewrite Hplus, Hminus, !Hcos, !Hsin.
  split; [reflexivity|]. split; [reflexivity|].
  split; apply leg_length; Lra.lra.
Qed.
End Arrowhead.

(** * Further properties of the code *)

(** ** Pitches *)

(** X1.  For tubes_per_row > 1 the tubes_per_row - 1 pitches between
    the first and the last tube of a row, together with the two plate
    offsets, make up the fin height exactly. *)
Theorem vertical_pitch_fills_fin_height (p : CoilParameters) :
  (tubes_per_row p > 1)%Z ->
  vertical_pitch p * inject_Z (tubes_per_row p - 1) + top_plate p + bottom_plate p
  == fin_height p.
Proof.
  intros Htpr. rewrite (vertical_pitch_spans_usable_height p Htpr). ring.
Qed.

Lemma vertical_pitch_fills_fin_height_witness :
  vertical_pitch default_params * inject_Z (tubes_per_row default_params - 1)
  + top_plate default_params + bottom_plate default_params
  == fin_height default_params.
Proof.
  apply (vertical_pitch_fills_fin_height default_params). simpl. lia.
Defined.

Lemma row_pitch_times_rows (p : CoilParameters) :
  row_pitch p * inject_Z (no_of_rows p)
  == if (no_of_rows p <=? 1)%Z then 0 else coil_depth p.
Proof.
  unfold row_pitch.
  destruct (Z.leb_spec (no_of_rows p) 1) as [Hle|Hgt]; [ring|].
  field. intros H0. unfold Qeq in H0. simpl in H0. lia.
Qed.

(** X2.  The inner tube grid of both side views is as wide as the coil
    is deep when there are at least two rows; with a single row (or
    none) the row pitch is 0 and the grid has width 0. *)
Theorem side_view_grid_width (p : CoilParameters) :
  rect_w (sg_inner_rect (generate_header_geometry p))
  = rect_w (sg_inner_rect (generate_return_geometry p))
  /\ rect_w (sg_inner_rect (generate_header_geometry p))
     == (if (no_of_rows p <=? 1)%Z then 0 else coil_depth p)
  /\ ((no_of_rows p <= 1)%Z -> row_pitch p = 0).
Proof.
  split; [reflexivity|]. split.
  - exact (row_pitch_times_rows p).
  - intros Hle. unfold row_pitch.
    destruct (Z.leb_spec (no_of_rows p) 1); [reflexivity|lia].
Qed.

Lemma side_view_grid_width_witness :
  row_pitch (set_no_of_rows 1 default_params) = 0.
Proof.
  refine (proj2 (proj2 (side_view_grid_width (set_no_of_rows 1 default_params))) _).
  simpl. lia.
Defined.

(** ** Front view *)

Lemma overflows_beyond (x : Q) :
  inject_Z FLOAT_OVERFLOW <= Qabs x -> overflows x = true.
Proof. intros H. unfold overflows. now apply Qle_bool_iff. Qed.

Lemma no_fin_count_without_fins (p : CoilParameters) :
  fpi p = 0%Z -> fin_height p / fin_spacing p == 0.
Proof.
  intros H0. unfold fin_spacing. rewrite H0.
  unfold Qeq, Qdiv, Qmult, Qinv. simpl. ring.
Qed.

Lemma front_view_zero_division (p : CoilParameters) :
  generate_front_geometry p = Raise ZeroDivisionError <-> fpi p = 0%Z.
Proof.
  split; [|exact (generate_front_geometry_raises p)].
  rewrite generate_front_geometry_cases.
  destruct (overflows (inject_Z (fpi p))); [discriminate|].
  destruct (Z.eqb_spec (fpi p) 0) as [H0|Hne]; [intros _; exact H0|].
  destruct (overflows (fin_height p / fin_spacing p)); discriminate.
Qed.

Lemma front_view_overflow (p : CoilParameters) :
  (2 ^ 1024 <= Z.abs (fpi p))%Z
  \/ inject_Z (2 ^ 1025) <= Qabs (fin_height p / fin_spacing p) ->
  generate_front_geometry p = Raise OverflowError.
Proof.
  intros Hbig. rewrite generate_front_geometry_cases.
  destruct (overflows (inject_Z (fpi p))) eqn:Ef; [reflexivity|].
  destruct Hbig as [Hf|Hq].
  - rewrite overflows_beyond in Ef; [discriminate Ef|].
    change (Qabs (inject_Z (fpi p))) with (inject_Z (Z.abs (fpi p))).
    rewrite <- Zle_Qle.
    assert (Hlt : (FLOAT_OVERFLOW <= 2 ^ 1024)%Z) by (vm_compute; discriminate).
    lia.
  - assert (Hle : inject_Z FLOAT_OVERFLOW <= inject_Z (2 ^ 1025))
      by (rewrite <- Zle_Qle; vm_compute; discriminate).
    destruct (Z.eqb_spec (fpi p) 0) as [H0|Hne].
    + exfalso. rewrite (no_fin_count_without_fins p H0) in Hq.
      vm_compute in Hq. now apply Hq.
    + rewrite overflows_beyond; [reflexivity|].
      eapply Qle_trans; eassumption.
Qed.

(** X3.  [generate_front_geometry] raises ZeroDivisionError exactly
    when fpi = 0.  Whenever it returns, fpi is not 0 and the view has
    the casing rectangle (0, 0, casing_width, casing_height), the fin
    rectangle (casing_left, casing_bottom, fin_length, fin_height) and
    the record itself.  It does return when fpi is not 0 and both fpi
    and the fin count fin_height / (25.4 / fpi) are below 2^1023 in
    magnitude; it raises OverflowError when fpi reaches 2^1024 or the
    fin count reaches 2^1025 in magnitude. *)
Theorem generate_front_geometry_outcomes (p : CoilParameters) :
  (generate_front_geometry p = Raise ZeroDivisionError <-> fpi p = 0%Z)
  /\ (forall fg, generate_front_geometry p = Return fg ->
        fpi p <> 0%Z
        /\ fg_outer_rect fg = (0, 0, casing_width p, casing_height p)
        /\ fg_fin_rect fg
           = (casing_left p, casing_bottom p, fin_length p, fin_height p)
        /\ fg_params fg = p)
  /\ (fpi p <> 0%Z ->
      (Z.abs (fpi p) < 2 ^ 1023)%Z ->
      Qabs (fin_height p / fin_spacing p) < inject_Z (2 ^ 1023) ->
      exists fg, generate_front_geometry p = Return fg)
  /\ ((2 ^ 1024 <= Z.abs (fpi p))%Z
      \/ inject_Z (2 ^ 1025) <= Qabs (fin_height p / fin_spacing p) ->
      generate_front_geometry p = Raise OverflowError).
Proof.
  split; [exact (front_view_zero_division p)|].
  split; [|split].
  - intros fg Hfg. destruct (front_geometry_inversion p fg Hfg) as [Hne ->].
    split; [exact Hne|]. repeat split.
  - intros Hne Hf Hq. exists (front_view p). now apply front_view_computed.
  - exact (front_view_overflow p).
Qed.

Lemma generate_front_geometry_outcomes_witness :
  exists fg, generate_front_geometry default_params = Return fg.
Proof.
  refine (proj1 (proj2 (proj2 (generate_front_geometry_outcomes default_params)))
            _ _ _).
  - simpl. discriminate.
  - vm_compute. reflexivity.
  - vm_compute. reflexivity.
Defined.

Example front_view_overflows_for_huge_fpi :
  validate_parameters (set_fpi (10 ^ 307) default_params) = []
  /\ generate_front_geometry (set_fpi (10 ^ 307) default_params)
     = Raise OverflowError.
Proof. split; vm_compute; reflexivity. Qed.

Lemma for_each_select {A B : Type} (keep : A -> bool) (f : A -> B)
      (xs : list A) (init : list B) :
  for_each xs (fun out x => if keep x then append out (f x) else out) init
  = init ++ map f (filter keep xs).
Proof.
  unfold for_each, append. revert init.
  induction xs as [|x xs IH]; intros init; simpl.
  - now rewrite app_nil_r.
  - rewrite IH. destruct (keep x); simpl; [|reflexivity].
    now rewrite <- app_assoc.
Qed.

Lemma in_range3 (start stop step i : Z) :
  (0 < step)%Z -> In i (range3 start stop step) -> (start <= i)%Z.
Proof.
  intros Hstep Hin. unfold range3 in Hin.
  apply in_map_iff in Hin. destruct Hin as [k [<- _]]. nia.
Qed.

Lemma fin_step_positive (p : CoilParameters) : (0 < fin_step p)%Z.
Proof. unfold fin_step. lia. Qed.

Lemma fin_line_candidates_bounded (n : Z) :
  ((n - 0 + Z.max 1 (n / 40) - 1) / Z.max 1 (n / 40) <= 79)%Z.
Proof.
  set (step := Z.max 1 (n / 40)).
  assert (Hstep : (1 <= step)%Z) by (unfold step; lia).
  assert (Hn : (n <= 40 * step + 39)%Z).
  { pose proof (Z.mul_div_le n 40) as H1.
    pose proof (Z.mul_succ_div_gt n 40) as H2.
    unfold step. lia. }
  apply Z.lt_succ_r. apply Z.div_lt_upper_bound; lia.
Qed.

(** X4.  Whatever the fin density, the front view draws at most 79
    representative fin lines.  Each of them is horizontal, spans the
    fin rectangle from casing_left to casing_left + fin_length, and
    lies below the top of the fin rectangle; for a positive fpi it also
    lies at or above its bottom. *)
Theorem fin_lines_are_few_and_inside_fin_rect (p : CoilParameters) (fg : FrontGeometry) :
  generate_front_geometry p = Return fg ->
  (List.length (fg_fin_lines fg) <= 79)%nat
  /\ forall l, In l (fg_fin_lines fg) ->
       exists y, l = (casing_left p, y, casing_left p + fin_length p, y)
                 /\ y < casing_bottom p + fin_height p
                 /\ ((0 < fpi p)%Z -> casing_bottom p <= y).
Proof.
  intros Hfg. destruct (front_geometry_inversion p fg Hfg) as [Hfpi ->].
  unfold front_view. cbn [fg_fin_lines].
  rewrite (for_each_select
             (fun i => Qlt_bool (casing_bottom p + inject_Z i * fin_spacing p)
                                (casing_bottom p + fin_height p))
             (fun i => (casing_left p, casing_bottom p + inject_Z i * fin_spacing p,
                        casing_left p + fin_length p,
                        casing_bottom p + inject_Z i * fin_spacing p))).
  cbn [app]. split.
  - rewrite length_map.
    eapply Nat.le_trans; [apply filter_length_le|].
    rewrite length_range3.
    pose proof (fin_line_candidates_bounded (n_fins p)) as Hb.
    fold (fin_step p) in Hb. lia.
  - intros l Hin. apply in_map_iff in Hin. destruct Hin as [i [<- Hi]].
    apply filter_In in Hi. destruct Hi as [Hrange Hkeep].
    eexists. split; [reflexivity|]. split.
    + apply Qlt_bool_iff. exact Hkeep.
    + intros Hpos.
      pose proof (in_range3 _ _ _ i (fin_step_positive p) Hrange) as Hi0.
      assert (Hfs : 0 < fin_spacing p).
      { unfold fin_spacing. apply Qlt_shift_div_l.
        - unfold Qlt. simpl. lia.
        - rewrite Qmult_0_l. reflexivity. }
      assert (Hi0q : 0 <= inject_Z i) by (unfold Qle; simpl; lia).
      pose proof (Qmult_le_0_compat _ _ Hi0q (Qlt_le_weak _ _ Hfs)) as Hprod.
      Lqa.lra.
Qed.

Lemma fin_lines_are_few_and_inside_fin_rect_witness :
  exists fg, generate_front_geometry default_params = Return fg
             /\ (List.length (fg_fin_lines fg) <= 79)%nat.
Proof.
  assert (Hfpi : fpi default_params <> 0%Z) by (simpl; discriminate).
  pose proof (generate_front_geometry_returns default_params Hfpi
                in_float_range_default) as Hfg.
  exists (front_view default_params). split; [exact Hfg|].
  exact (proj1 (fin_lines_are_few_and_inside_fin_rect default_params _ Hfg)).
Defined.

(** ** Side views: grid, plate lines and tubes *)

(** Linear arithmetic over [Q] does not know division: halves and
    quarters are turned into products first. *)
Ltac qlra :=
  unfold Qdiv in *;
  change (/ 2) with (1 # 2) in *;
  change (/ 4) with (1 # 4) in *;
  Lqa.lra.

Lemma in_range (n i : Z) : In i (range n) -> (0 <= i < n)%Z.
Proof.
  unfold range. intros Hin. apply in_map_iff in Hin.
  destruct Hin as [k [<- Hk]]. apply in_seq in Hk. lia.
Qed.

Lemma in_grid_loop {B : Type} (item : Z -> Z -> B) (n m : Z) (c : B) :
  In c (grid_loop item n m) ->
  exists row t, (0 <= row < n)%Z /\ (0 <= t < m)%Z /\ c = item row t.
Proof.
  rewrite grid_loop_flat. intros Hin.
  apply in_flat_map in Hin. destruct Hin as [row [Hrow Hc]].
  apply in_map_iff in Hc. destruct Hc as [t [<- Ht]].
  exists row, t. split; [now apply in_range|]. split; [now apply in_range|reflexivity].
Qed.

Lemma validated_plates (p : CoilParameters) :
  validate_parameters p = [] -> top_plate p + bottom_plate p < fin_height p.
Proof.
  intros Hnil.
  pose proof (validate_nil_invariant p _ _ Hnil (plate_invariant_listed p)) as Hb.
  apply Qnot_le_lt. intros Hle. apply Qle_bool_iff in Hle. congruence.
Qed.

Lemma validated_pitches (p : CoilParameters) :
  validate_parameters p = [] -> 0 <= vertical_pitch p /\ 0 <= row_pitch p.
Proof.
  intros Hnil. split.
  - unfold vertical_pitch.
    destruct (Z.leb_spec (tubes_per_row p) 1) as [Hle|Hgt]; [apply Qle_refl|].
    pose proof (validated_plates p Hnil) as Hpl.
    apply Qle_shift_div_l.
    + unfold Qlt. simpl. lia.
    + Lqa.lra.
  - unfold row_pitch.
    destruct (Z.leb_spec (no_of_rows p) 1) as [Hle|Hgt]; [apply Qle_refl|].
    assert (Hcd : 0 < coil_depth p)
      by (apply (validate_nil_positive p "coil_depth"); [exact Hnil | simpl; tauto]).
    apply Qle_shift_div_l.
    + unfold Qlt. simpl. lia.
    + Lqa.lra.
Qed.

(** X5.  In the header-side and in the return-end-side view the inner
    tube grid is centred horizontally in the view (equal margins left
    and right), it stands on the bottom-plate line, and the top-plate
    line runs along its top edge, top_plate below the top of the view;
    both plate lines span the full width of the view. *)
Theorem side_view_grid_sits_between_plate_lines (p : CoilParameters) (g : SideGeometry) :
  g = generate_header_geometry p \/ g = generate_return_geometry p ->
  let inner := sg_inner_rect g in
  let outer := sg_outer_rect g in
  rect_x inner == rect_w outer - (rect_x inner + rect_w inner)
  /\ rect_y inner = bottom_plate p
  /\ exists top_line_y,
       sg_offset_lines g
       = [ (0, rect_y inner, rect_w outer, rect_y inner);
           (0, top_line_y, rect_w outer, top_line_y) ]
       /\ top_line_y == rect_y inner + rect_h inner
       /\ rect_h outer - top_line_y == top_plate p.
Proof.
  intros [-> | ->]; cbv zeta;
    unfold generate_header_geometry, generate_return_geometry;
    cbn [sg_inner_rect sg_outer_rect sg_offset_lines rect_x rect_y rect_w rect_h];
    (split; [field|]); (split; [reflexivity|]);
    eexists; (split; [reflexivity|]); split; ring.
Qed.

Lemma side_view_grid_sits_between_plate_lines_witness :
  rect_y (sg_inner_rect (generate_return_geometry default_params))
  = bottom_plate default_params.
Proof.
  exact (proj1 (proj2 (side_view_grid_sits_between_plate_lines default_params
                         (generate_return_geometry default_params)
                         (or_intror eq_refl)))).
Defined.

Lemma tube_centre_in_grid (gx gy RP VP : Q) (NR TPR row t : Z) :
  0 <= VP -> 0 <= RP ->
  (0 <= row < NR)%Z -> (0 <= t < TPR)%Z ->
  let y := gy + (if (row mod 2 =? 0)%Z then VP / 4 else 3 * VP / 4) + inject_Z t * VP in
  RP / 2 + inject_Z row * RP <= RP * inject_Z NR - RP / 2
  /\ 0 <= inject_Z row * RP
  /\ gy <= y /\ y <= gy + inject_Z TPR * VP.
Proof.
  intros HVP HRP Hrow Ht y.
  assert (Hr0 : 0 <= inject_Z row) by (unfold Qle; simpl; lia).
  assert (Hr1 : inject_Z row <= inject_Z NR - 1).
  { replace NR with ((NR - 1) + 1)%Z by lia. rewrite inject_Z_plus.
    change (inject_Z 1) with 1.
    assert (inject_Z row <= inject_Z (NR - 1)) by (unfold Qle; simpl; lia).
    Lqa.lra. }
  assert (Ht0 : 0 <= inject_Z t) by (unfold Qle; simpl; lia).
  assert (Ht1 : inject_Z t <= inject_Z TPR - 1).
  { replace TPR with ((TPR - 1) + 1)%Z by lia. rewrite inject_Z_plus.
    change (inject_Z 1) with 1.
    assert (inject_Z t <= inject_Z (TPR - 1)) by (unfold Qle; simpl; lia).
    Lqa.lra. }
  pose proof (Qmult_le_0_compat _ _ Hr0 HRP) as Hp1.
  assert (Hp2 : 0 <= (inject_Z NR - 1 - inject_Z row) * RP)
    by (apply Qmult_le_0_compat; Lqa.lra).
  pose proof (Qmult_le_0_compat _ _ Ht0 HVP) as Hp3.
  assert (Hp4 : 0 <= (inject_Z TPR - 1 - inject_Z t) * VP)
    by (apply Qmult_le_0_compat; Lqa.lra).
  unfold y. destruct (row mod 2 =? 0)%Z; repeat split; qlra.
Qed.

(** X6.  On a record that passes validation, the centre of every tube
    hole of the header-side and of the return-end-side view lies inside
    the inner tube-grid rectangle of that view (border included). *)
Theorem tube_centres_lie_in_the_grid (p : CoilParameters) (g : SideGeometry) :
  validate_parameters p = [] ->
  g = generate_header_geometry p \/ g = generate_return_geometry p ->
  forall c, In c (sg_tubes g) ->
    in_rect (sg_inner_rect g) (circle_cx c) (circle_cy c)
    /\ circle_r c = tube_diameter p / 2.
Proof.
  intros Hnil Hg c Hin.
  destruct (validated_pitches p Hnil) as [HVP HRP].
  destruct Hg as [-> | ->];
    unfold generate_header_geometry, generate_return_geometry in Hin |- *;
    cbn [sg_tubes sg_inner_rect] in Hin |- *;
    apply in_grid_loop in Hin; destruct Hin as (row & t & Hrow & Ht & ->);
    destruct (tube_centre_in_grid ((header_depth p - row_pitch p * inject_Z (no_of_rows p)) / 2)
                (bottom_plate p) (row_pitch p) (vertical_pitch p)
                (no_of_rows p) (tubes_per_row p) row t HVP HRP Hrow Ht)
      as (Hx1 & Hx0 & Hy0 & Hy1);
    assert (HNR : 0 <= inject_Z (no_of_rows p)) by (unfold Qle; simpl; lia);
    assert (HTPR : 0 <= inject_Z (tubes_per_row p)) by (unfold Qle; simpl; lia);
    pose proof (Qmult_le_0_compat _ _ HRP HNR) as Hw;
    pose proof (Qmult_le_0_compat _ _ HTPR HVP) as Hh;
    cbn [circle_cx circle_cy circle_r];
    (split; [|reflexivity]);
    apply in_rect_from_origin;
    cbn [rect_x rect_y rect_w rect_h]; first [assumption | qlra].
Qed.

Lemma tube_centres_lie_in_the_grid_witness :
  exists c,
    nth_error (sg_tubes (generate_header_geometry default_params)) 0 = Some c
    /\ in_rect (sg_inner_rect (generate_header_geometry default_params))
               (circle_cx c) (circle_cy c)
    /\ circle_r c = tube_diameter default_params / 2.
Proof.
  assert (Hr : (0 <= 0 < no_of_rows default_params)%Z) by (cbn; lia).
  assert (Ht : (0 <= 0 < tubes_per_row default_params)%Z) by (cbn; lia).
  pose proof (header_tube_at default_params 0 0 Hr Ht) as H. cbv zeta in H.
  change (tube_index default_params 0 0) with 0%nat in H.
  eexists. split; [exact H|].
  apply (tube_centres_lie_in_the_grid default_params
           (generate_header_geometry default_params) eq_refl (or_introl eq_refl)).
  exact (nth_error_In _ _ H).
Defined.

(** X7.  When header_depth and return_depth are equal, row [row] of
    the return-end view stands at the same x as row
    no_of_rows - 1 - row of the header-side view, and at the reflection
    of the header view's row [row] in the vertical centreline of the
    view. *)
Theorem return_rows_are_header_rows_reversed (p : CoilParameters) (row t : Z) :
  header_depth p == return_depth p ->
  (0 <= row < no_of_rows p)%Z -> (0 <= t < tubes_per_row p)%Z ->
  exists rx ry hx_rev hy_rev hx hy r,
    nth_error (sg_tubes (generate_return_geometry p)) (tube_index p row t)
    = Some (rx, ry, r)
    /\ nth_error (sg_tubes (generate_header_geometry p))
                 (tube_index p (no_of_rows p - 1 - row) t)
       = Some (hx_rev, hy_rev, r)
    /\ nth_error (sg_tubes (generate_header_geometry p)) (tube_index p row t)
       = Some (hx, hy, r)
    /\ rx == hx_rev
    /\ rx == return_depth p - hx.
Proof.
  intros Hdepth Hrow Ht.
  assert (Hrev : (0 <= no_of_rows p - 1 - row < no_of_rows p)%Z) by lia.
  pose proof (return_tube_at p row t Hrow Ht) as Hr.
  pose proof (header_tube_at p _ t Hrev Ht) as Hhr.
  pose proof (header_tube_at p row t Hrow Ht) as Hh.
  cbv zeta in Hr, Hhr, Hh.
  eexists _, _, _, _, _, _, _.
  split; [exact Hr|]. split; [exact Hhr|]. split; [exact Hh|].
  unfold generate_header_geometry, generate_return_geometry.
  cbn [sg_inner_rect rect_x rect_w].
  replace (no_of_rows p - 1 - row)%Z with (no_of_rows p + (- (1) + - row))%Z by lia.
  rewrite !inject_Z_plus, !inject_Z_opp. change (inject_Z 1) with 1.
  split; qlra.
Qed.

Lemma return_rows_are_header_rows_reversed_witness :
  exists rx ry hx_rev hy_rev hx hy r,
    nth_error (sg_tubes (generate_return_geometry default_params))
              (tube_index default_params 1 0)
    = Some (rx, ry, r)
    /\ nth_error (sg_tubes (generate_header_geometry default_params))
                 (tube_index default_params (no_of_rows default_params - 1 - 1) 0)
       = Some (hx_rev, hy_rev, r)
    /\ nth_error (sg_tubes (generate_header_geometry default_params))
                 (tube_index default_params 1 0)
       = Some (hx, hy, r)
    /\ rx == hx_rev
    /\ rx == return_depth default_params - hx.
Proof.
  apply (return_rows_are_header_rows_reversed default_params 1 0).
  - reflexivity.
  - simpl. lia.
  - simpl. lia.
Defined.

(** ** Top view: strip, header block, pipes *)

Lemma py_min_is_min (a b : Q) :
  py_min a b <= a /\ py_min a b <= b /\ (py_min a b = a \/ py_min a b = b).
Proof.
  unfold py_min. destruct (Qlt_bool b a) eqn:E.
  - apply Qlt_bool_iff in E.
    repeat split; [now apply Qlt_le_weak | apply Qle_refl | now right].
  - assert (Hle : a <= b).
    { apply Qnot_lt_le. intros Hlt. apply Qlt_bool_iff in Hlt. congruence. }
    repeat split; [apply Qle_refl | exact Hle | now left].
Qed.

(** X8.  In the top view the coil strip is centred in the depth of the
    casing (the margin above it equals the margin below it) and ends
    casing_right before the casing's right edge.  The two zone lines
    run along the strip's upper and lower edge, from the end of the
    header block to the casing's right edge.  The return-end rectangle
    is attached to the casing's right edge and spans exactly the
    strip's depth; the corner box stands on top of it. *)
Theorem top_view_strip_is_centred (p : CoilParameters) :
  let g := generate_top_geometry p in
  let outer := tg_outer_rect g in
  let strip := tg_fin_rect g in
  let ret := tg_return_rect g in
  let box := tg_top_right_box g in
  rect_y strip - rect_y outer
  == (rect_y outer + rect_h outer) - (rect_y strip + rect_h strip)
  /\ rect_x strip + rect_w strip + casing_right p == rect_x outer + rect_w outer
  /\ (exists upper lower,
        tg_zone_lines g = [upper; lower]
        /\ line_y1 upper = rect_y strip /\ line_y2 upper = rect_y strip
        /\ line_y1 lower = rect_y strip + rect_h strip
        /\ line_y2 lower = rect_y strip + rect_h strip
        /\ line_x1 upper = tg_header_block_len g /\ line_x2 upper = rect_w outer
        /\ line_x1 lower = tg_header_block_len g /\ line_x2 lower = rect_w outer)
  /\ rect_x ret == rect_x outer + rect_w outer
  /\ rect_y ret = rect_y strip /\ rect_h ret = rect_h strip
  /\ rect_x box = rect_x ret
  /\ rect_y box + rect_h box == rect_y ret.
Proof.
  cbv zeta. unfold generate_top_geometry.
  cbn [tg_outer_rect tg_fin_rect tg_zone_lines tg_header_block_len
       tg_return_rect tg_top_right_box rect_x rect_y rect_w rect_h].
  split; [field|]. split; [unfold casing_width; ring|].
  split; [eexists _, _; repeat split|].
  split; [ring|]. split; [reflexivity|]. split; [reflexivity|].
  split; [reflexivity|]. ring.
Qed.

(** X9.  The header block of the top view is clipped to the casing:
    its length is top_header_block_length when that fits and
    casing_width otherwise, so it never exceeds either; the block
    rectangle has that length and the depth of the coil strip. *)
Theorem header_block_is_clipped_to_casing (p : CoilParameters) :
  let g := generate_top_geometry p in
  tg_header_block_len g <= casing_width p
  /\ tg_header_block_len g <= top_header_block_length p
  /\ (tg_header_block_len g = top_header_block_length p
      \/ tg_header_block_len g = casing_width p)
  /\ rect_w (tg_header_block_rect g) == tg_header_block_len g
  /\ rect_y (tg_header_block_rect g) = tg_margin g
  /\ rect_h (tg_header_block_rect g) = coil_depth p.
Proof.
  cbv zeta. unfold generate_top_geometry.
  cbn [tg_header_block_len tg_header_block_rect tg_margin rect_w rect_y rect_h].
  destruct (py_min_is_min (top_header_block_length p) (casing_width p))
    as (H1 & H2 & H3).
  destruct (py_min_is_min (py_min (top_header_block_length p) (casing_width p))
                          (casing_width p)) as (H4 & H5 & H6).
  split; [exact H2|]. split; [exact H1|]. split; [exact H3|].
  split; [|split; reflexivity].
  destruct H6 as [-> | H6]; [reflexivity|].
  rewrite H6. apply Qle_antisym; [|exact H2]. rewrite <- H6 at 1. exact H4.
Qed.

Lemma string_eq_dec_LHS (s : string) : {s = "LHS"} + {s <> "LHS"}.
Proof. apply string_dec. Qed.

(** X10.  Whatever the connection side, the top view has exactly two
    connection pipes, labelled IN and OUT in that order.  Both are
    horizontal, IN above OUT at a distance of connection_vertical_gap
    and symmetric about the middle of the casing depth; each label sits
    at the height of its pipe.  On the LHS the pipes end at the header
    block and start connection_extension left of the casing; otherwise
    they end connection_extension right of the casing. *)
Theorem connection_pipes_are_a_symmetric_pair (p : CoilParameters) :
  exists pipe_in pipe_out,
    tg_connection_pipes (generate_top_geometry p) = [pipe_in; pipe_out]
    /\ label pipe_in = "IN" /\ label pipe_out = "OUT"
    /\ line_y1 (line pipe_in) = line_y2 (line pipe_in)
    /\ line_y1 (line pipe_out) = line_y2 (line pipe_out)
    /\ snd (label_pos pipe_in) = line_y1 (line pipe_in)
    /\ snd (label_pos pipe_out) = line_y1 (line pipe_out)
    /\ line_y1 (line pipe_out) - line_y1 (line pipe_in) == connection_vertical_gap p
    /\ line_y1 (line pipe_in) + line_y1 (line pipe_out) == header_depth p
    /\ line_x1 (line pipe_in) = line_x1 (line pipe_out)
    /\ line_x2 (line pipe_in) = line_x2 (line pipe_out)
    /\ (connection_side p = "LHS" ->
        line_x1 (line pipe_in) = - connection_extension p
        /\ line_x2 (line pipe_in) = tg_header_block_len (generate_top_geometry p))
    /\ (connection_side p <> "LHS" ->
        line_x2 (line pipe_in) = casing_width p + connection_extension p).
Proof.
  destruct (string_eq_dec_LHS (connection_side p)) as [Hl | Hr].
  - destruct (connection_geometry_LHS p Hl) as (Hp & _ & _). rewrite Hp.
    eexists _, _. split; [reflexivity|].
    cbn [label line label_pos line_x1 line_x2 line_y1 line_y2 snd].
    repeat split; try reflexivity; try (intros; contradiction);
      unfold pipe_y_in, pipe_y_out; field.
  - destruct (connection_geometry_not_LHS p Hr) as (Hp & _ & _). rewrite Hp.
    eexists _, _. split; [reflexivity|].
    cbn [label line label_pos line_x1 line_x2 line_y1 line_y2 snd].
    repeat split; try reflexivity; try (intros; contradiction);
      unfold pipe_y_in, pipe_y_out; field.
Qed.

Lemma connection_pipes_are_a_symmetric_pair_witness :
  exists pipe_in pipe_out,
    tg_connection_pipes (generate_top_geometry default_params) = [pipe_in; pipe_out]
    /\ line_x1 (line pipe_in) = - connection_extension default_params.
Proof.
  destruct (connection_pipes_are_a_symmetric_pair default_params)
    as (pipe_in & pipe_out & Hp & _ & _ & _ & _ & _ & _ & _ & _ & _ & _ & Hl & _).
  exists pipe_in, pipe_out. split; [exact Hp|]. exact (proj1 (Hl eq_refl)).
Defined.

(** X11.  Every fitting circle of the top view is centred on one of
    the two pipe axes and has the tube radius; there are four of them.
    With connection side LHS there are four stub lines, each vertical,
    centred on a pipe axis and one tube diameter long, in two pairs
    whose lines are top_pipe_stub_spacing apart; with any other side
    there is no stub line. *)
Theorem fittings_sit_on_the_pipe_axes (p : CoilParameters) :
  let g := generate_top_geometry p in
  List.length (tg_pipe_circles g) = 4%nat
  /\ (forall c, In c (tg_pipe_circles g) ->
        (circle_cy c = pipe_y_in p \/ circle_cy c = pipe_y_out p)
        /\ circle_r c = tube_diameter p / 2)
  /\ (connection_side p <> "LHS" -> tg_pipe_stubs g = [])
  /\ (connection_side p = "LHS" ->
      exists s1 s2 s3 s4,
        tg_pipe_stubs g = [s1; s2; s3; s4]
        /\ line_x2 s2 - line_x1 s1 == top_pipe_stub_spacing p
        /\ line_x1 s3 = line_x1 s1 /\ line_x1 s4 = line_x1 s2
        /\ forall s, In s (tg_pipe_stubs g) ->
             line_x1 s = line_x2 s
             /\ line_y2 s - line_y1 s == tube_diameter p
             /\ ((line_y1 s + line_y2 s) / 2 == pipe_y_in p
                 \/ (line_y1 s + line_y2 s) / 2 == pipe_y_out p)).
Proof.
  cbv zeta.
  destruct (string_eq_dec_LHS (connection_side p)) as [Hl | Hr].
  - destruct (connection_geometry_LHS p Hl) as (_ & Hc & Hs). rewrite Hc, Hs.
    split; [reflexivity|]. split; [|split].
    + intros c Hin. cbn [In] in Hin.
      destruct Hin as [<- | [<- | [<- | [<- | []]]]];
        cbn [circle_cy circle_r]; tauto.
    + intros Hne. contradiction.
    + intros _. eexists _, _, _, _. split; [reflexivity|].
      cbn [line_x1 line_x2].
      split; [field|]. split; [reflexivity|]. split; [reflexivity|].
      intros s Hin. cbn [In] in Hin.
      destruct Hin as [<- | [<- | [<- | [<- | []]]]];
        cbn [line_x1 line_x2 line_y1 line_y2];
        (split; [reflexivity|]); (split; [field|]);
        first [left; field | right; field].
  - destruct (connection_geometry_not_LHS p Hr) as (_ & Hc & Hs). rewrite Hc, Hs.
    split; [reflexivity|]. split; [|split].
    + intros c Hin. cbn [In] in Hin.
      destruct Hin as [<- | [<- | [<- | [<- | []]]]];
        cbn [circle_cy circle_r]; tauto.
    + intros _. reflexivity.
    + intros Hl. contradiction.
Qed.

Lemma fittings_sit_on_the_pipe_axes_witness :
  tg_pipe_stubs (generate_top_geometry (set_connection_side "RHS" default_params)) = [].
Proof.
  refine (proj1 (proj2 (proj2 (fittings_sit_on_the_pipe_axes
                                 (set_connection_side "RHS" default_params)))) _).
  simpl. discriminate.
Defined.

(** X12.  The top view draws two tube lines per row, so 2 * no_of_rows
    in all (none for a negative row count); every tube line is
    horizontal and runs from the end of the header block to the
    casing's right edge. *)
Theorem tube_lines_run_from_header_block_to_casing_edge (p : CoilParameters) :
  let g := generate_top_geometry p in
  List.length (tg_tube_lines g) = (2 * Z.to_nat (no_of_rows p))%nat
  /\ forall l, In l (tg_tube_lines g) ->
       line_x1 l = tg_header_block_len g /\ line_x2 l = casing_width p
       /\ line_y1 l = line_y2 l.
Proof.
  cbv zeta.
  set (g := generate_top_geometry p).
  set (tube_r := tube_diameter p / 2).
  set (pair_of := fun r : Z =>
         [ (tg_header_block_len g, row_centreline p r - tube_r,
            casing_width p, row_centreline p r - tube_r);
           (tg_header_block_len g, row_centreline p r + tube_r,
            casing_width p, row_centreline p r + tube_r) ]).
  assert (Hflat : tg_tube_lines g = flat_map pair_of (range (no_of_rows p))).
  { transitivity (for_each (range (no_of_rows p))
                    (fun (out : list Line) r => out ++ pair_of r) []).
    - refine (for_each_ext
                (fun (out : list Line) r =>
                   append (append out
                             (tg_header_block_len g, row_centreline p r - tube_r,
                              casing_width p, row_centreline p r - tube_r))
                          (tg_header_block_len g, row_centreline p r + tube_r,
                           casing_width p, row_centreline p r + tube_r))
                (fun (out : list Line) r => out ++ pair_of r)
                (range (no_of_rows p)) [] _).
      intros acc r. unfold append, pair_of. now rewrite <- app_assoc.
    - exact (for_each_extend pair_of (range (no_of_rows p)) []). }
  rewrite Hflat. split.
  - rewrite (length_blocks pair_of 2 _ (fun _ => eq_refl)), length_range. lia.
  - intros l Hin. apply in_flat_map in Hin. destruct Hin as [r [_ Hl]].
    unfold pair_of in Hl. cbn [In] in Hl.
    destruct Hl as [<- | [<- | []]]; cbn [line_x1 line_x2 line_y1 line_y2];
      repeat split.
Qed.

(** ** Sheet layout: failure, alignment, notes *)

Lemma generate_layout_passes_error (p : CoilParameters) (e : pyexc) :
  generate_front_geometry p = Raise e -> generate_layout p = Raise e.
Proof. intros H. unfold generate_layout. now rewrite H. Qed.

(** X13.  [generate_layout] computes the front view first and passes
    on its error.  It raises ZeroDivisionError exactly when fpi = 0,
    so it returns no sheet then; it returns a sheet when fpi is not 0
    and the record's numbers are inside the float range; it raises
    OverflowError when fpi reaches 2^1024 or the fin count
    fin_height / (25.4 / fpi) reaches 2^1025 in magnitude. *)
Theorem generate_layout_outcomes (p : CoilParameters) :
  (generate_layout p = Raise ZeroDivisionError <-> fpi p = 0%Z)
  /\ (forall L, generate_layout p = Return L -> fpi p <> 0%Z)
  /\ (fpi p <> 0%Z -> in_float_range p -> exists L, generate_layout p = Return L)
  /\ ((2 ^ 1024 <= Z.abs (fpi p))%Z
      \/ inject_Z (2 ^ 1025) <= Qabs (fin_height p / fin_spacing p) ->
      generate_layout p = Raise OverflowError)
  /\ (forall e, generate_front_geometry p = Raise e -> generate_layout p = Raise e).
Proof.
  split; [split|split; [|split; [|split]]].
  - intros Hraise. apply front_view_zero_division.
    destruct (generate_front_geometry p) as [fg|e] eqn:Hfg.
    + rewrite (generate_layout_sheet p fg Hfg) in Hraise. discriminate Hraise.
    + rewrite (generate_layout_passes_error p e Hfg) in Hraise.
      now inversion Hraise.
  - exact (generate_layout_raises p).
  - intros L HL H0. rewrite (generate_layout_raises p H0) in HL. discriminate HL.
  - intros Hne Hrange. eexists. exact (generate_layout_returns p Hne Hrange).
  - intros Hbig. apply generate_layout_passes_error. now apply front_view_overflow.
  - exact (generate_layout_passes_error p).
Qed.

Lemma generate_layout_outcomes_witness :
  fpi default_params <> 0%Z /\ in_float_range default_params
  /\ exists L, generate_layout default_params = Return L.
Proof.
  assert (Hfpi : fpi default_params <> 0%Z) by (simpl; discriminate).
  split; [exact Hfpi|]. split; [exact in_float_range_default|].
  exact (proj1 (proj2 (proj2 (generate_layout_outcomes default_params)))
           Hfpi in_float_range_default).
Defined.

Example layout_overflows_for_huge_fpi :
  generate_layout (set_fpi (10 ^ 307) default_params) = Raise OverflowError.
Proof.
  apply generate_layout_passes_error. vm_compute. reflexivity.
Qed.

(** X14.  On every sheet [generate_layout] returns, the top view spans
    exactly the same x-range as the front view (same left edge, same
    width) and ends one gap (80) above it; the notes start at the left
    edge of the header-side view and the title block at the left edge
    of the return-end view, both at the same height, which is at least
    half a gap (40) beyond the far edge of each of the three bottom-row
    views. *)
Theorem sheet_alignment (p : CoilParameters) (L : DrawingLayout) :
  generate_layout p = Return L ->
  exists top header front ret,
    views L = [top; header; front; ret]
    /\ rect_x (view_box top) = rect_x (view_box front)
    /\ rect_w (view_box top) = rect_w (view_box front)
    /\ rect_y (view_box top) + rect_h (view_box top) + 80 == rect_y (view_box front)
    /\ fst (notes_offset L) == rect_x (view_box header)
    /\ fst (title_block_offset L) == rect_x (view_box ret)
    /\ snd (title_block_offset L) = snd (notes_offset L)
    /\ forall v, In v [header; front; ret] ->
         rect_y (view_box v) + rect_h (view_box v) + 40 <= snd (notes_offset L).
Proof.
  intros HL. destruct (generate_layout_returns_sheet p L HL) as (fg & Hfg & ->).
  pose proof (front_outer_rect p fg Hfg) as Hfront.
  unfold sheet. cbn [views notes_offset title_block_offset fst snd].
  eexists _, _, _, _. split; [reflexivity|].
  unfold view_box. cbn [geometry outer_rect offset_x offset_y].
  rewrite Hfront.
  change (sg_outer_rect (generate_header_geometry p))
    with (0, 0, header_depth p, side_view_height p).
  change (sg_outer_rect (generate_return_geometry p))
    with (0, 0, return_depth p, side_view_height p).
  change (tg_outer_rect (generate_top_geometry p))
    with (0, 0, casing_width p, header_depth p).
  cbn [rect_x rect_y rect_w rect_h]. unfold VIEW_GAP.
  split; [reflexivity|]. split; [reflexivity|].
  split; [ring|]. split; [ring|]. split; [ring|]. split; [reflexivity|].
  pose proof (py_max3_is_max (casing_height p) (side_view_height p) (side_view_height p))
    as Hmax. cbv zeta in Hmax. destruct Hmax as (Hf & Hh & Hr & _).
  intros v Hin. cbn [In] in Hin.
  destruct Hin as [<- | [<- | [<- | []]]];
    cbn [geometry outer_rect offset_x offset_y];
    try rewrite Hfront;
    change (sg_outer_rect (generate_header_geometry p))
      with (0, 0, header_depth p, side_view_height p);
    change (sg_outer_rect (generate_return_geometry p))
      with (0, 0, return_depth p, side_view_height p);
    cbn [rect_x rect_y rect_w rect_h]; qlra.
Qed.

Lemma sheet_alignment_witness :
  exists L top header front ret,
    generate_layout default_params = Return L
    /\ views L = [top; header; front; ret]
    /\ rect_x (view_box top) = rect_x (view_box front).
Proof.
  assert (Hfpi : fpi default_params <> 0%Z) by (simpl; discriminate).
  pose proof (generate_layout_returns default_params Hfpi in_float_range_default)
    as HL.
  destruct (sheet_alignment default_params _ HL)
    as (top & header & front & ret & Hv & Hx & _).
  exists (sheet default_params (front_view default_params)), top, header, front, ret.
  split; [exact HL|]. split; [exact Hv|exact Hx].
Defined.

(** ** Linear dimensions *)

Section LinearDimensionProperties.
Import DimensionEngine.
Local Open Scope R_scope.
Variable format_1f : R -> string.

Lemma horizontal_length (x1 x2 y : R) :
  segment_length (x1, y, x2, y) = Rabs (x2 - x1).
Proof.
  unfold segment_length.
  replace ((x2 - x1) * (x2 - x1) + (y - y) * (y - y)) with (Rsqr (x2 - x1))
    by (unfold Rsqr; ring).
  apply sqrt_Rsqr_abs.
Qed.

Lemma vertical_length (x y1 y2 : R) :
  segment_length (x, y1, x, y2) = Rabs (y2 - y1).
Proof.
  unfold segment_length.
  replace ((x - x) * (x - x) + (y2 - y1) * (y2 - y1)) with (Rsqr (y2 - y1))
    by (unfold Rsqr; ring).
  apply sqrt_Rsqr_abs.
Qed.

(** X15.  [_hdim] and [_vdim] use only the magnitude of the offset:
    negating it gives the same dimension.  The side on which the
    dimension line is drawn is chosen by the flag alone: the line lies
    at distance |offset| from the first measured point, towards +y
    (resp. +x) when the flag is set and towards -y (resp. -x) when it
    is not. *)
Theorem offset_sign_is_ignored (p1 p2 : R * R) (offset : R) (text : option string)
        (flag : bool) :
  _hdim format_1f p1 p2 (- offset) text flag = _hdim format_1f p1 p2 offset text flag
  /\ _vdim format_1f p1 p2 (- offset) text flag = _vdim format_1f p1 p2 offset text flag
  /\ dimension_line (_hdim format_1f p1 p2 offset text flag)
     = Some (fst p1, snd p1 + (if flag then 1 else -1) * Rabs offset,
             fst p2, snd p1 + (if flag then 1 else -1) * Rabs offset)
  /\ dimension_line (_vdim format_1f p1 p2 offset text flag)
     = Some (fst p1 + (if flag then 1 else -1) * Rabs offset, snd p1,
             fst p1 + (if flag then 1 else -1) * Rabs offset, snd p2).
Proof.
  unfold _hdim, _vdim, dimension_line. rewrite Rabs_Ropp.
  repeat split.
Qed.

(** X16.  A horizontal dimension consists of two extension lines, the
    dimension line, two arrow tips and one label.  The dimension line
    is horizontal and as long as the two measured points are apart in
    x; the arrow tips are its end points, with directions 0 and 180;
    the label is centred on it.  The extension line of the first point
    is vertical, starts 2 away from the point and ends 3 beyond the
    dimension line, so it is |offset| + 1 long.  Without a label
    override the label is the formatted distance in x. *)
Theorem hdim_geometry (p1 p2 : R * R) (offset : R) (text : option string) (above : bool) :
  let d := _hdim format_1f p1 p2 offset text above in
  exists ext1 ext2 dim_line label,
    lines d = [ext1; ext2; dim_line]
    /\ dimension_length d = Rabs (fst p2 - fst p1)
    /\ arrows d = [ (fst p1, snd p1 + (if above then 1 else -1) * Rabs offset, 0);
                    (fst p2, snd p1 + (if above then 1 else -1) * Rabs offset, 180) ]
    /\ texts d = [ ((fst p1 + fst p2) / 2,
                    snd p1 + (if above then 1 else -1) * Rabs offset, label, 0) ]
    /\ (text = None -> label = format_1f (Rabs (fst p2 - fst p1)))
    /\ (forall s, text = Some s -> label = s)
    /\ segment_length ext1 = Rabs offset + 1
    /\ (snd p2 = snd p1 -> segment_length ext2 = Rabs offset + 1).
Proof.
  cbv zeta. unfold _hdim, dimension_length, dimension_line.
  cbn [lines arrows texts nth_error].
  eexists _, _, _, _. split; [reflexivity|].
  split; [apply horizontal_length|].
  split; [reflexivity|]. split; [reflexivity|].
  split; [intros ->; reflexivity|].
  split; [intros s ->; reflexivity|].
  assert (Hlen : forall s : R, s = 1 \/ s = -1 ->
            Rabs (snd p1 + s * Rabs offset + s * EXT_OVER - (snd p1 + s * EXT_GAP))
            = Rabs offset + 1).
  { intros s Hs. pose proof (Rabs_pos offset) as Hpos. unfold EXT_OVER, EXT_GAP.
    destruct Hs as [-> | ->].
    - rewrite Rabs_pos_eq; Lra.lra.
    - rewrite Rabs_left; Lra.lra. }
  split.
  - rewrite vertical_length. apply Hlen. destruct above; [now left|now right].
  - intros ->. rewrite vertical_length. apply Hlen.
    destruct above; [now left|now right].
Qed.

(** X17.  A vertical dimension is the horizontal dimension of the
    reflected points, reflected back in the diagonal: [_vdim] applied
    to two points equals [_hdim] applied to the points with x and y
    exchanged, with every coordinate pair exchanged again and every
    arrow direction and the text rotation turned by 90 degrees. *)
Theorem vdim_is_transposed_hdim (p1 p2 : R * R) (offset : R) (text : option string)
        (flag : bool) :
  _vdim format_1f p1 p2 offset text flag
  = transpose_dimension (_hdim format_1f (swap_point p1) (swap_point p2) offset text flag).
Proof.
  unfold _vdim, _hdim, transpose_dimension, swap_point.
  cbn [lines arrows texts map transpose_segment fst snd].
  replace (0 + 90) with 90 by ring.
  replace (180 + 90) with 270 by ring.
  reflexivity.
Qed.

(** ** Arrowheads of a dimension *)

Lemma radians_plus_180 (a : R) : radians (a + 180) = radians a + PI.
Proof. unfold radians. field. Qed.

(** X18.  Turning the direction of an arrowhead by 180 degrees reflects
    both legs through the tip, and turning it by 360 degrees gives the
    same arrowhead. *)
Theorem arrowhead_half_turn (tx ty a_deg : R) :
  arrowhead_lines tx ty (a_deg + 180)
  = map (reflect_through tx ty) (arrowhead_lines tx ty a_deg)
  /\ arrowhead_lines tx ty (a_deg + 360) = arrowhead_lines tx ty a_deg.
Proof.
  unfold arrowhead_lines, for_each, append.
  cbn [fold_left app map reflect_through].
  split.
  - rewrite radians_plus_180.
    replace (radians a_deg + PI + 1 * radians ARROW_ANGLE)
      with (radians a_deg + 1 * radians ARROW_ANGLE + PI) by ring.
    replace (radians a_deg + PI + -1 * radians ARROW_ANGLE)
      with (radians a_deg + -1 * radians ARROW_ANGLE + PI) by ring.
    rewrite !neg_cos, !neg_sin.
    repeat (f_equal; try ring).
  - replace (radians (a_deg + 360)) with (radians a_deg + 2 * PI)
      by (unfold radians; field).
    replace (radians a_deg + 2 * PI + 1 * radians ARROW_ANGLE)
      with (radians a_deg + 1 * radians ARROW_ANGLE + PI + PI) by ring.
    replace (radians a_deg + 2 * PI + -1 * radians ARROW_ANGLE)
      with (radians a_deg + -1 * radians ARROW_ANGLE + PI + PI) by ring.
    rewrite !neg_cos, !neg_sin, !Ropp_involutive.
    reflexivity.
Qed.
End LinearDimensionProperties.

Lemma hdim_geometry_witness :
  exists ext1 ext2 dim_line label,
    DimensionEngine.lines
      (DimensionEngine._hdim (fun _ : R => "10.0"%string) (0, 0)%R (10, 0)%R 25%R
         None false)
    = [ext1; ext2; dim_line]
    /\ label = (fun _ : R => "10.0"%string) (Rabs (fst (10, 0)%R - fst (0, 0)%R))
    /\ DimensionEngine.segment_length ext2 = (Rabs 25 + 1)%R.
Proof.
  destruct (hdim_geometry (fun _ : R => "10.0"%string) (0, 0)%R (10, 0)%R 25%R None false)
    as (e1 & e2 & l & lbl & Hl & _ & _ & _ & Hnone & _ & _ & He2).
  exists e1, e2, l, lbl. split; [exact Hl|].
  split; [exact (Hnone eq_refl) | exact (He2 eq_refl)].
Defined.

(** ** Dimensions of the views *)

Section ViewDimensionProperties.
Import DimensionEngine.
Variable format_0f : R -> string.
Variable format_1f : R -> string.
Variable format_int : Z -> string.

Lemma cos_half_angle_positive :
  (0 < cos (radians 0 + 1 * radians ARROW_ANGLE))%R
  /\ (0 < cos (radians 0 + -1 * radians ARROW_ANGLE))%R.
Proof.
  pose proof PI_RGT_0 as Hpi.
  split; apply cos_gt_0; unfold radians, ARROW_ANGLE; Lra.lra.
Qed.

(** X19.  The four arrowhead segments the renderers draw for a
    horizontal dimension start at the two ends of the dimension line.
    The legs at the first measured point run towards smaller x and
    those at the second point towards larger x, so when the first point
    is the left one both arrowheads lie outside the measured span, tips
    pointing inward; the two legs of an arrowhead are mirror images in
    the dimension line. *)
Theorem hdim_arrowheads_open_outward (p1 p2 : R * R) (offset : R)
        (text : option string) (above : bool) :
  let d := _hdim format_1f p1 p2 offset text above in
  let dim_y := (snd p1 + (if above then 1 else -1) * Rabs offset)%R in
  exists xa1 ya1 xa2 ya2 xb1 yb1 xb2 yb2,
    arrow_segments d
    = [ (fst p1, dim_y, xa1, ya1); (fst p1, dim_y, xa2, ya2);
        (fst p2, dim_y, xb1, yb1); (fst p2, dim_y, xb2, yb2) ]
    /\ (xa1 < fst p1)%R /\ (xa2 < fst p1)%R
    /\ (fst p2 < xb1)%R /\ (fst p2 < xb2)%R
    /\ (ya1 - dim_y = - (ya2 - dim_y))%R
    /\ (yb1 - dim_y = - (yb2 - dim_y))%R.
Proof.
  cbv zeta. unfold arrow_segments, _hdim. cbn [arrows flat_map].
  unfold arrowhead_lines, for_each, append. cbn [fold_left app].
  eexists _, _, _, _, _, _, _, _. split; [reflexivity|].
  destruct cos_half_angle_positive as [Hc1 Hc2].
  assert (H180 : forall h : R, (radians 180 + h = radians 0 + h + PI)%R)
    by (intros h; unfold radians; field).
  rewrite !H180, !neg_cos, !neg_sin.
  assert (Hneg : (radians 0 + -1 * radians ARROW_ANGLE
                  = - (radians 0 + 1 * radians ARROW_ANGLE))%R)
    by (unfold radians; field).
  unfold ARROW_LEN.
  split; [Lra.lra|]. split; [Lra.lra|]. split; [Lra.lra|]. split; [Lra.lra|].
  rewrite Hneg, sin_neg. split; Lra.lra.
Qed.

Lemma Q2R_nonneg (q : Q) : 0 <= q -> (0 <= Q2R q)%R.
Proof. intros H. rewrite <- RMicromega.Q2R_0. now apply Qle_Rle. Qed.

Lemma measured_span (a b len : Q) :
  b - a == len -> 0 <= len -> Rabs (Q2R b - Q2R a) = Q2R len.
Proof.
  intros Heq Hlen. rewrite <- Q2R_minus, (Qeq_eqR _ _ Heq).
  apply Rabs_pos_eq. now apply Q2R_nonneg.
Qed.


(** X21.  The dimensions of the top view do not depend on the
    connection side: the pipe-extension and pipe-run dimensions are
    measured from x = -pipe_ext, left of the casing, also for a record
    whose pipes are drawn on the right.  The pipe-extension dimension
    (the fifth) has its dimension line from x = -connection_extension
    to x = 0 at y = header_depth - 55, that is 55 short of the
    casing's far edge. *)
Theorem top_dimensions_ignore_connection_side (p : CoilParameters) (s : string) :
  generate_top_dimensions format_0f format_1f
    (generate_top_geometry (set_connection_side s p))
  = generate_top_dimensions format_0f format_1f (generate_top_geometry p)
  /\ exists d,
       nth_error (generate_top_dimensions format_0f format_1f
                    (generate_top_geometry (set_connection_side s p))) 4
       = Some d
       /\ dimension_line d
          = Some (Q2R (- connection_extension p), (Q2R (0 + header_depth p) + -1 * Rabs 55)%R,
                  Q2R 0, (Q2R (0 + header_depth p) + -1 * Rabs 55)%R).
Proof.
  split; [reflexivity|].
  eexists. split; [reflexivity|]. reflexivity.
Qed.
End ViewDimensionProperties.


Section FrontDimensionProperties.
Import DimensionEngine.
Variable format_0f : R -> string.
Variable format_1f : R -> string.
Variable format_int : Z -> string.

(** X22.  The front view carries ten annotations: nine linear
    dimensions and the fins-per-inch label, which has no lines and is
    placed at the centre of the fin rectangle.  The dimension line of
    every linear dimension lies outside the casing rectangle: below its
    bottom edge, to the right of its right edge, or to the left of its
    left edge. *)
Theorem front_dimension_lines_are_outside_the_casing
        (p : CoilParameters) (fg : FrontGeometry) :
  generate_front_geometry p = Return fg ->
  let dims := generate_front_dimensions format_0f format_1f format_int fg in
  List.length dims = 10%nat
  /\ nth_error dims 9
     = Some (mkDimension [] []
               [ (Q2R (casing_left p + fin_length p / 2),
                  Q2R (casing_bottom p + fin_height p / 2),
                  (format_int (fpi p) ++ " FPI")%string, 0%R) ])
  /\ forall d, In d dims ->
       dimension_line d = None
       \/ exists x1 y1 x2 y2,
            dimension_line d = Some (x1, y1, x2, y2)
            /\ ((y1 = y2 /\ y1 < 0)
                \/ (x1 = x2 /\ (Q2R (casing_width p) < x1 \/ x1 < 0)))%R.
Proof.
  intros Hfg. destruct (front_geometry_inversion p fg Hfg) as [_ ->].
  cbv zeta. unfold generate_front_dimensions.
  cbn [fg_params fg_outer_rect fg_fin_rect]. unfold append. cbn [app].
  split; [reflexivity|]. split; [reflexivity|].
  intros d Hin. cbn [In] in Hin.
  assert (Habs : forall k : R, (0 < k)%R -> Rabs k = k)
    by (intros k Hk; apply Rabs_pos_eq; Lra.lra).
  destruct Hin as [<- | [<- | [<- | [<- | [<- | [<- | [<- | [<- | [<- | [<- | []]]]]]]]]]];
    unfold dimension_line, _hdim, _vdim, pt; cbn [lines nth_error fst snd];
    first
      [ left; reflexivity
      | right; eexists _, _, _, _; split; [reflexivity|];
        rewrite ?Q2R_plus, ?RMicromega.Q2R_0;
        first
          [ left; split; [reflexivity|]; rewrite Habs by Lra.lra; Lra.lra
          | right; split; [reflexivity|]; rewrite Habs by Lra.lra;
            first [left; Lra.lra | right; Lra.lra] ] ].
Qed.
End FrontDimensionProperties.

Lemma front_dimension_lines_are_outside_the_casing_witness :
  exists fg, generate_front_geometry default_params = Return fg
             /\ List.length (DimensionEngine.generate_front_dimensions
                               (fun _ : R => "0"%string) (fun _ : R => "0.0"%string)
                               (fun _ : Z => "13"%string) fg) = 10%nat.
Proof.
  assert (Hfpi : fpi default_params <> 0%Z) by (simpl; discriminate).
  pose proof (generate_front_geometry_returns default_params Hfpi
                in_float_range_default) as Hfg.
  exists (front_view default_params). split; [exact Hfg|].
  exact (proj1 (front_dimension_lines_are_outside_the_casing
                  (fun _ : R => "0"%string) (fun _ : R => "0.0"%string)
                  (fun _ : Z => "13"%string) default_params _ Hfg)).
Defined.

(** ** The drawing canvas: zoom and pan *)

Lemma clamp_within (lo hi x : Q) :
  lo <= hi -> lo <= py_max lo (py_min x hi) /\ py_max lo (py_min x hi) <= hi.
Proof.
  intros Hlohi.
  destruct (py_max_is_max lo (py_min x hi)) as (H1 & _ & H3).
  destruct (py_min_is_min x hi) as (_ & H5 & _).
  split; [exact H1|]. destruct H3 as [-> | ->]; assumption.
Qed.

Lemma clamp_fixes (lo hi x : Q) :
  lo <= x -> x <= hi -> py_max lo (py_min x hi) == x.
Proof.
  intros Hlo Hhi.
  destruct (py_min_is_min x hi) as (H1 & H2 & H3).
  destruct (py_max_is_max lo (py_min x hi)) as (H4 & H5 & H6).
  set (m := py_min x hi) in *. set (M := py_max lo m) in *.
  assert (Hm : m == x \/ m == hi) by (destruct H3 as [-> | ->]; [left|right]; reflexivity).
  assert (HM : M == lo \/ M == m) by (destruct H6 as [-> | ->]; [left|right]; reflexivity).
  clearbody M. clearbody m. clear H3 H6.
  destruct Hm, HM; Lqa.lra.
Qed.

(** X23.  Whatever events the canvas receives after its creation, its
    zoom factor stays between 0.05 and 10; a wheel event brings it into
    that range from any value. *)
Theorem zoom_stays_within_limits (events : list DrawingView.event) :
  (forall st dy, 5 # 100 <= DrawingView._scale (DrawingView.wheelEvent st dy) <= 10)
  /\ 5 # 100 <= DrawingView._scale (DrawingView.run DrawingView.init events) <= 10.
Proof.
  assert (Hwheel : forall st dy,
            5 # 100 <= DrawingView._scale (DrawingView.wheelEvent st dy) <= 10).
  { intros st dy. unfold DrawingView.wheelEvent. cbn [DrawingView._scale].
    apply clamp_within. unfold Qle. simpl. lia. }
  split; [exact Hwheel|].
  assert (Hinv : forall evs st,
            5 # 100 <= DrawingView._scale st <= 10 ->
            5 # 100 <= DrawingView._scale (DrawingView.run st evs) <= 10).
  { induction evs as [|e evs IH]; intros st Hst; [exact Hst|].
    unfold DrawingView.run in *. cbn [fold_left]. apply IH.
    destruct e as [dy | b pos | pos | b | l]; cbn [DrawingView.handle].
    - apply Hwheel.
    - destruct b; exact Hst.
    - unfold DrawingView.mouseMoveEvent.
      destruct (DrawingView._dragging st); exact Hst.
    - destruct b; exact Hst.
    - exact Hst. }
  apply Hinv. cbn. split; unfold Qle; simpl; lia.
Qed.

(** X24.  Zooming in one notch and out again restores the zoom factor
    when the enlarged factor does not hit the upper limit, and zooming
    out and in again restores it when the reduced factor does not hit
    the lower limit. *)
Theorem zoom_in_and_out_cancel (st : DrawingView.state) (up down : Z) :
  (up > 0)%Z -> (down <= 0)%Z ->
  5 # 100 <= DrawingView._scale st <= 10 ->
  (DrawingView._scale st * (115 # 100) <= 10 ->
   DrawingView._scale (DrawingView.wheelEvent (DrawingView.wheelEvent st up) down)
   == DrawingView._scale st)
  /\ (5 # 100 <= DrawingView._scale st / (115 # 100) ->
      DrawingView._scale (DrawingView.wheelEvent (DrawingView.wheelEvent st down) up)
      == DrawingView._scale st).
Proof.
  intros Hup Hdown [Hlo Hhi].
  assert (Hupb : (up >? 0)%Z = true) by (apply Z.gtb_lt; lia).
  assert (Hdownb : (down >? 0)%Z = false).
  { destruct (down >? 0)%Z eqn:E; [|reflexivity]. apply Z.gtb_lt in E. lia. }
  set (s := DrawingView._scale st) in *.
  split; intros Hfit; unfold DrawingView.wheelEvent; cbn [DrawingView._scale];
    rewrite Hupb, Hdownb; fold s;
    change (1 / (115 # 100)) with (100 # 115) in *.
  - assert (H1 : py_max (5 # 100) (py_min (s * (115 # 100)) 10) == s * (115 # 100))
      by (apply clamp_fixes; Lqa.lra).
    set (s1 := py_max (5 # 100) (py_min (s * (115 # 100)) 10)) in *.
    clearbody s1.
    rewrite (clamp_fixes (5 # 100) 10) by Lqa.lra.
    Lqa.lra.
  - assert (Hfit' : 5 # 100 <= s * (100 # 115)).
    { setoid_replace (s * (100 # 115)) with (s / (115 # 100)) by field. exact Hfit. }
    assert (H1 : py_max (5 # 100) (py_min (s * (100 # 115)) 10) == s * (100 # 115))
      by (apply clamp_fixes; Lqa.lra).
    set (s1 := py_max (5 # 100) (py_min (s * (100 # 115)) 10)) in *.
    clearbody s1.
    rewrite (clamp_fixes (5 # 100) 10) by Lqa.lra.
    Lqa.lra.
Qed.

Lemma zoom_in_and_out_cancel_witness :
  DrawingView._scale
    (DrawingView.wheelEvent (DrawingView.wheelEvent DrawingView.init 120) (-120))
  == DrawingView._scale DrawingView.init.
Proof.
  refine (proj1 (zoom_in_and_out_cancel DrawingView.init 120 (-120) _ _ _) _).
  - lia.
  - lia.
  - split; unfold Qle; simpl; lia.
  - unfold Qle. simpl. lia.
Defined.

Lemma drag_moves (ms : list Point) (st : DrawingView.state) :
  DrawingView._dragging st = true ->
  let st' := DrawingView.run st (map DrawingView.Move ms) in
  let final := last ms (DrawingView._last_pos st) in
  DrawingView._dragging st' = true
  /\ DrawingView._last_pos st' = final
  /\ DrawingView._scale st' = DrawingView._scale st
  /\ fst (DrawingView._offset st')
     == fst (DrawingView._offset st) + (fst final - fst (DrawingView._last_pos st))
  /\ snd (DrawingView._offset st')
     == snd (DrawingView._offset st) + (snd final - snd (DrawingView._last_pos st)).
Proof.
  revert st. induction ms as [|m ms IH]; intros st Hdrag; cbv zeta.
  - unfold DrawingView.run. cbn [map fold_left last].
    split; [exact Hdrag|]. split; [reflexivity|]. split; [reflexivity|].
    split; ring.
  - unfold DrawingView.run. cbn [map fold_left DrawingView.handle].
    set (st1 := DrawingView.mouseMoveEvent st m).
    assert (H1 : st1 = DrawingView.mkState (DrawingView._layout st) (DrawingView._scale st)
                         (fst (DrawingView._offset st)
                          + (fst m - fst (DrawingView._last_pos st)),
                          snd (DrawingView._offset st)
                          + (snd m - snd (DrawingView._last_pos st)))
                         true m).
    { unfold st1, DrawingView.mouseMoveEvent. rewrite Hdrag. reflexivity. }
    assert (Hdrag1 : DrawingView._dragging st1 = true) by (rewrite H1; reflexivity).
    specialize (IH st1 Hdrag1). cbv zeta in IH. unfold DrawingView.run in IH.
    destruct IH as (Hd & Hl & Hs & Hx & Hy).
    assert (Hlast : last (m :: ms) (DrawingView._last_pos st)
                    = last ms (DrawingView._last_pos st1)).
    { rewrite H1. cbn [DrawingView._last_pos].
      destruct ms as [|m' ms']; [reflexivity|].
      change (last (m :: m' :: ms') (DrawingView._last_pos st))
        with (last (m' :: ms') (DrawingView._last_pos st)).
      clear. revert m'. induction ms' as [|x xs IHx]; intros m'; [reflexivity|].
      change (last (m' :: x :: xs) (DrawingView._last_pos st))
        with (last (x :: xs) (DrawingView._last_pos st)).
      change (last (m' :: x :: xs) m) with (last (x :: xs) m). apply IHx. }
    rewrite Hlast.
    split; [exact Hd|]. split; [exact Hl|].
    split; [rewrite Hs, H1; reflexivity|].
    rewrite Hx, Hy. rewrite H1. cbn [DrawingView._offset DrawingView._last_pos fst snd].
    split; ring.
Qed.

(** X25.  Dragging pans by the total mouse displacement: after the left
    button is pressed at a point and the mouse then moves through any
    sequence of positions, the canvas offset has changed by exactly the
    last position minus the press position, whatever path was taken;
    the zoom factor is unchanged and the canvas is still dragging. *)
Theorem drag_pans_by_total_displacement
        (st : DrawingView.state) (start : Point) (ms : list Point) :
  let st' := DrawingView.run st
               (DrawingView.Press DrawingView.LeftButton start
                :: map DrawingView.Move ms) in
  let final := last ms start in
  fst (DrawingView._offset st')
  == fst (DrawingView._offset st) + (fst final - fst start)
  /\ snd (DrawingView._offset st')
     == snd (DrawingView._offset st) + (snd final - snd start)
  /\ DrawingView._scale st' = DrawingView._scale st
  /\ DrawingView._dragging st' = true
  /\ DrawingView._last_pos st' = final.
Proof.
  cbv zeta. unfold DrawingView.run. cbn [fold_left DrawingView.handle].
  set (st0 := DrawingView.mousePressEvent st DrawingView.LeftButton start).
  destruct (drag_moves ms st0 eq_refl) as (Hd & Hl & Hs & Hx & Hy).
  unfold DrawingView.run in Hd, Hl, Hs, Hx, Hy.
  split; [exact Hx|]. split; [exact Hy|]. split; [exact Hs|].
  split; [exact Hd|exact Hl].
Qed.

(** X26.  The canvas never pans unless the left button is held: from a
    state that is not dragging, any sequence of events without a
    left-button press (mouse moves, wheel turns, other buttons,
    releases, a new layout) leaves the offset unchanged and the canvas
    not dragging. *)
Theorem no_pan_without_left_button (events : list DrawingView.event)
        (st : DrawingView.state) :
  DrawingView._dragging st = false ->
  Forall not_left_press events ->
  DrawingView._offset (DrawingView.run st events) = DrawingView._offset st
  /\ DrawingView._dragging (DrawingView.run st events) = false.
Proof.
  revert st. induction events as [|e events IH]; intros st Hdrag Hall.
  - split; [reflexivity|exact Hdrag].
  - inversion Hall as [|? ? He Hrest]; subst.
    unfold DrawingView.run in *. cbn [fold_left].
    assert (Hstep : DrawingView._offset (DrawingView.handle st e)
                    = DrawingView._offset st
                    /\ DrawingView._dragging (DrawingView.handle st e) = false).
    { destruct e as [dy | b pos | pos | b | l]; cbn [DrawingView.handle].
      - split; [reflexivity|exact Hdrag].
      - destruct b; [destruct He | |]; split; [reflexivity|exact Hdrag|reflexivity|exact Hdrag].
      - unfold DrawingView.mouseMoveEvent. rewrite Hdrag.
        split; [reflexivity|exact Hdrag].
      - destruct b; split; first [reflexivity | exact Hdrag].
      - split; [reflexivity|exact Hdrag]. }
    destruct Hstep as [Hoff Hd].
    destruct (IH _ Hd Hrest) as [IH1 IH2].
    split; [rewrite IH1; exact Hoff | exact IH2].
Qed.

Lemma no_pan_without_left_button_witness :
  DrawingView._offset
    (DrawingView.run DrawingView.init
       [ DrawingView.Move (10, 10); DrawingView.Wheel 120;
         DrawingView.Press DrawingView.RightButton (3, 4); DrawingView.Move (50, 60) ])
  = DrawingView._offset DrawingView.init.
Proof.
  refine (proj1 (no_pan_without_left_button _ DrawingView.init eq_refl _)).
  repeat constructor.
Defined.

(** ** Page bounds of the PDF export *)

Lemma py_min3_is_min (a b c : Q) :
  py_min3 a b c <= a /\ py_min3 a b c <= b /\ py_min3 a b c <= c.
Proof.
  unfold py_min3.
  destruct (py_min_is_min a b) as (H1 & H2 & _).
  destruct (py_min_is_min (py_min a b) c) as (H3 & H4 & _).
  repeat split; Lqa.lra.
Qed.

Lemma widen_by_pipes (off : Q) (pipes : list ConnectionPipe) (x0 x1 : Q) :
  exists x0' x1',
    for_each pipes (widen_by_pipe off) (x0, x1) = (x0', x1')
    /\ x0' <= x0 /\ x1 <= x1'
    /\ forall pipe, In pipe pipes ->
         x0' <= off + line_x1 (line pipe) <= x1'
         /\ x0' <= off + line_x2 (line pipe) <= x1'.
Proof.
  revert x0 x1. induction pipes as [|pipe pipes IH]; intros x0 x1.
  - exists x0, x1. split; [reflexivity|].
    split; [apply Qle_refl|]. split; [apply Qle_refl|]. intros ? [].
  - unfold for_each. cbn [fold_left].
    unfold widen_by_pipe at 2.
    destruct (line pipe) as [[[ln0 ln1] ln2] ln3] eqn:Hline.
    destruct (py_min3_is_min x0 (off + ln0) (off + ln2)) as (Ha & Hb & Hc).
    destruct (py_max3_is_max x1 (off + ln0) (off + ln2)) as (Hd & He & Hf & _).
    destruct (IH (py_min3 x0 (off + ln0) (off + ln2))
                 (py_max3 x1 (off + ln0) (off + ln2)))
      as (x0' & x1' & Hfold & Hlo & Hhi & Hrest).
    exists x0', x1'. split; [exact Hfold|].
    split; [Lqa.lra|]. split; [Lqa.lra|].
    intros q [<- | Hin]; [|now apply Hrest].
    rewrite Hline. cbn [line_x1 line_x2]. repeat split; Lqa.lra.
Qed.

Lemma widen_by_view_reaches (acc : Q * Q * Q * Q) (v : ViewDescriptor) :
  let '(a, b, c, d) := acc in
  exists a' b' c' d',
    widen_by_view acc v = (a', b', c', d')
    /\ a' <= a /\ b' <= b /\ c <= c' /\ d <= d'
    /\ reaches_corners a' b' c' d' v.
Proof.
  destruct acc as [[[a b] c] d]. unfold widen_by_view, reaches_corners, view_box.
  destruct (outer_rect (geometry v)) as [[[r0 r1] r2] r3].
  cbn [rect_x rect_y rect_w rect_h].
  destruct (widen_by_pipes (offset_x v) (connection_pipes (geometry v))
              (offset_x v + r0) (offset_x v + r0 + r2))
    as (x0' & x1' & Hfold & Hlo & Hhi & Hpipes).
  rewrite Hfold.
  destruct (py_min_is_min a x0') as (H1 & H2 & _).
  destruct (py_min_is_min b (offset_y v + r1)) as (H3 & H4 & _).
  destruct (py_max_is_max c x1') as (H5 & H6 & _).
  destruct (py_max_is_max d (offset_y v + r1 + r3)) as (H7 & H8 & _).
  eexists _, _, _, _. split; [reflexivity|].
  repeat split; try assumption; try Lqa.lra;
    destruct (Hpipes pipe H) as [[? ?] [? ?]]; Lqa.lra.
Qed.

Lemma reaches_corners_widen (a b c d a' b' c' d' : Q) (v : ViewDescriptor) :
  a' <= a -> b' <= b -> c <= c' -> d <= d' ->
  reaches_corners a b c d v -> reaches_corners a' b' c' d' v.
Proof.
  unfold reaches_corners. intros Ha Hb Hc Hd (H1 & H2 & H3 & H4 & H5).
  repeat split; try Lqa.lra; destruct (H5 pipe H) as [[? ?] [? ?]]; Lqa.lra.
Qed.

Lemma widen_by_views (vs : list ViewDescriptor) (a b c d : Q) :
  exists a' b' c' d',
    for_each vs widen_by_view (a, b, c, d) = (a', b', c', d')
    /\ a' <= a /\ b' <= b /\ c <= c' /\ d <= d'
    /\ forall v, In v vs -> reaches_corners a' b' c' d' v.
Proof.
  revert a b c d. induction vs as [|v vs IH]; intros a b c d.
  - exists a, b, c, d. split; [reflexivity|].
    repeat split; try apply Qle_refl; destruct H.
  - unfold for_each. cbn [fold_left].
    pose proof (widen_by_view_reaches (a, b, c, d) v) as Hstep. cbv beta iota in Hstep.
    destruct Hstep as (a1 & b1 & c1 & d1 & Hv & Ha & Hb & Hc & Hd & Hcov).
    rewrite Hv.
    destruct (IH a1 b1 c1 d1) as (a' & b' & c' & d' & Hfold & Ha' & Hb' & Hc' & Hd' & Hrest).
    exists a', b', c', d'. split; [exact Hfold|].
    split; [Lqa.lra|]. split; [Lqa.lra|]. split; [Lqa.lra|]. split; [Lqa.lra|].
    intros w [<- | Hin]; [|now apply Hrest].
    now apply (reaches_corners_widen a1 b1 c1 d1).
Qed.

Lemma reached_view_is_contained (a b c d : Q) (v : ViewDescriptor) :
  reaches_corners a b c d v ->
  0 <= rect_w (view_box v) -> 0 <= rect_h (view_box v) ->
  contains_view a b c d v.
Proof.
  intros (H1 & H2 & H3 & H4 & _) Hw Hh x y (Hx0 & Hx1 & Hy0 & Hy1).
  unfold rect_left, rect_right, rect_low, rect_high in *.
  destruct (extent_from_origin (rect_x (view_box v)) (rect_w (view_box v)) Hw)
    as [Hl Hr].
  destruct (extent_from_origin (rect_y (view_box v)) (rect_h (view_box v)) Hh)
    as [Hb Ht].
  repeat split; Lqa.lra.
Qed.

(** X27.  The bounding box [export_pdf] computes starts at or before
    the corner (x, y) of every view's outer rectangle on the sheet and
    ends at or after its corner (x + w, y + h), so it contains every
    view whose width and height are not negative; it spans both ends
    of every connection pipe in x.  Its lower bounds are at most the
    coordinates of the notes origin and its upper bounds at least
    those of the point 380 to the right of and 100 beyond the
    title-block origin.  The page is that box with a margin of 60 on
    every side. *)
Theorem pdf_page_reaches_every_view (layout : DrawingLayout) :
  let b := export_pdf_bounds layout in
  (forall v, In v (views layout) ->
     reaches_corners (min_x b) (min_y b) (max_x b) (max_y b) v
     /\ (0 <= rect_w (view_box v) -> 0 <= rect_h (view_box v) ->
         contains_view (min_x b) (min_y b) (max_x b) (max_y b) v))
  /\ min_x b <= fst (notes_offset layout)
  /\ min_y b <= snd (notes_offset layout)
  /\ fst (title_block_offset layout) + 380 <= max_x b
  /\ snd (title_block_offset layout) + 100 <= max_y b
  /\ total_w b == max_x b - min_x b + 120
  /\ total_h b == max_y b - min_y b + 120.
Proof.
  cbv zeta. unfold export_pdf_bounds.
  change (for_each (views layout) _ _)
    with (for_each (views layout) widen_by_view
            (1000000000, 1000000000, - (1000000000), - (1000000000))).
  destruct (widen_by_views (views layout) 1000000000 1000000000
              (- (1000000000)) (- (1000000000)))
    as (a & b & c & d & Hfold & _ & _ & _ & _ & Hcov).
  rewrite Hfold.
  destruct (notes_offset layout) as [nx ny].
  destruct (title_block_offset layout) as [tx ty].
  cbn [min_x min_y max_x max_y total_w total_h fst snd].
  destruct (py_min_is_min a nx) as (H1 & H2 & _).
  destruct (py_min_is_min b ny) as (H3 & H4 & _).
  destruct (py_max_is_max c (tx + 380)) as (H5 & H6 & _).
  destruct (py_max_is_max d (ty + 100)) as (H7 & H8 & _).
  split.
  - intros v Hin.
    assert (Hreach : reaches_corners (py_min a nx) (py_min b ny)
                       (py_max c (tx + 380)) (py_max d (ty + 100)) v)
      by (now apply (reaches_corners_widen a b c d); [| | | |apply Hcov]).
    split; [exact Hreach|]. now apply reached_view_is_contained.
  - repeat split; try assumption; ring.
Qed.

(** The box misses part of a view that is drawn with a negative
    width: for the record with return_depth = -2000 the return-end
    view is drawn from x = -90, and the box starts at x = 0. *)
Example pdf_page_misses_a_reversed_view :
  let p := set_return_depth (-2000) default_params in
  let layout := sheet p (front_view p) in
  generate_layout p = Return layout
  /\ min_x (export_pdf_bounds layout) == 0
  /\ exists ret, nth_error (views layout) 3 = Some ret
                 /\ rect_left (view_box ret) == -90.
Proof.
  cbv zeta. split.
  - apply generate_layout_returns; [simpl; discriminate|].
    unfold in_float_range. repeat split; vm_compute; reflexivity.
  - split; [vm_compute; reflexivity|].
    eexists. split; [reflexivity|]. vm_compute. reflexivity.
Qed.


(** ** The parameter panel *)

Lemma validate_message_violated (p : CoilParameters) (m : string) :
  In m (validate_parameters p) -> In (m, true) (invariants p).
Proof.
  rewrite validate_parameters_closed_form. intros H.
  apply in_map_iff in H. destruct H as [[k b] [Hk Hf]].
  apply filter_In in Hf. destruct Hf as [Hin Hb].
  simpl in Hk, Hb. now subst.
Qed.

Lemma tube_option_found (key : string) :
  In key (map fst ParameterPanel.TUBE_OD_OPTIONS) ->
  exists d, ParameterPanel.lookup key ParameterPanel.TUBE_OD_OPTIONS = Some d /\ 0 < d.
Proof.
  simpl. intros H.
  repeat (destruct H as [<-|H]; [eexists; split; [vm_compute; reflexivity|reflexivity]|]).
  contradiction.
Qed.

Lemma fin_count_of_positive_fpi (p : CoilParameters) :
  (0 < fpi p)%Z ->
  fin_height p / fin_spacing p == fin_height p * inject_Z (fpi p) * (10 # 254).
Proof.
  intros Hfpi. unfold fin_spacing. field.
  intros H0. unfold Qeq in H0. simpl in H0. lia.
Qed.

(** Records of the size the form can produce are well inside the float
    range. *)
Lemma form_sized_record_in_float_range (p : CoilParameters) :
  (1 <= fpi p <= 30)%Z -> (1 <= no_of_rows p <= 20)%Z ->
  (1 <= tubes_per_row p <= 200)%Z -> (1 <= no_of_circuits p <= 200)%Z ->
  100 <= fin_height p <= 10000 ->
  in_float_range p.
Proof.
  intros Hfpi Hnr Htpr Hnc Hfh.
  assert (Hsafe : (1000000 < FLOAT_SAFE)%Z) by (vm_compute; reflexivity).
  unfold in_float_range.
  split; [lia|]. split; [lia|]. split; [lia|]. split; [lia|].
  assert (Hf0 : 0 <= inject_Z (fpi p)) by (unfold Qle; simpl; lia).
  assert (Hf1 : inject_Z (fpi p) <= 30) by (unfold Qle; simpl; lia).
  assert (Hprod0 : 0 <= fin_height p * inject_Z (fpi p))
    by (apply Qmult_le_0_compat; Lqa.lra).
  assert (Hprod1 : fin_height p * inject_Z (fpi p) <= 10000 * inject_Z (fpi p))
    by (apply Qmult_le_compat_r; Lqa.lra).
  rewrite (fin_count_of_positive_fpi p) by lia.
  rewrite Qabs_pos by Lqa.lra.
  apply Qle_lt_trans with (inject_Z 1000000).
  - change (inject_Z 1000000) with 1000000. Lqa.lra.
  - rewrite <- Zlt_Qlt. exact Hsafe.
Qed.

(** X28.  Whatever values the input widgets hold within their ranges,
    [_collect_params] finds the tube diameter and builds a record.
    The only messages [validate_parameters] can report for it are
    those of the four casing margins and the plate sentence: a casing
    margin's message appears exactly when the margin is 0; the plate
    sentence appears when fin height <= top plate + bottom plate and
    does not appear when the plates leave at least 0.05 of the fin
    height (the spin boxes step by 0.1; when the sum equals the fin
    height in tenths, rounding decides).  [generate_layout] returns a
    sheet for the record. *)
Theorem panel_values_and_validation (w : ParameterPanel.widgets) :
  ParameterPanel.within_ranges w ->
  exists p,
    ParameterPanel._collect_params w = inr p
    /\ (forall m, In m (validate_parameters p) ->
          In m [ must_be_positive "casing_top"; must_be_positive "casing_bottom";
                 must_be_positive "casing_left"; must_be_positive "casing_right";
                 plate_message ])
    /\ (In (must_be_positive "casing_top") (validate_parameters p)
        <-> ParameterPanel.sp_ct w == 0)
    /\ (In (must_be_positive "casing_bottom") (validate_parameters p)
        <-> ParameterPanel.sp_cb w == 0)
    /\ (In (must_be_positive "casing_left") (validate_parameters p)
        <-> ParameterPanel.sp_cl w == 0)
    /\ (In (must_be_positive "casing_right") (validate_parameters p)
        <-> ParameterPanel.sp_cr w == 0)
    /\ (ParameterPanel.sp_fh w <= ParameterPanel.sp_tp w + ParameterPanel.sp_bp w ->
        In plate_message (validate_parameters p))
    /\ (ParameterPanel.sp_tp w + ParameterPanel.sp_bp w + (1 # 20)
        <= ParameterPanel.sp_fh w ->
        ~ In plate_message (validate_parameters p))
    /\ exists L, generate_layout p = Return L.
Proof.
  intros Hr. destruct w. unfold ParameterPanel.within_ranges in Hr.
  unfold ParameterPanel._collect_params.
  cbn [ParameterPanel.sp_fl ParameterPanel.sp_fh ParameterPanel.cb_tube_od
       ParameterPanel.sp_nr ParameterPanel.sp_tpr ParameterPanel.sp_fpi
       ParameterPanel.sp_nc ParameterPanel.sp_tp ParameterPanel.sp_bp
       ParameterPanel.sp_cl ParameterPanel.sp_cr ParameterPanel.sp_ct
       ParameterPanel.sp_cb ParameterPanel.sp_cthk ParameterPanel.sp_cd
       ParameterPanel.sp_hd ParameterPanel.sp_rd ParameterPanel.cb_conn
       ParameterPanel.sp_conn_ext ParameterPanel.sp_conn_gap
       ParameterPanel.sp_hdr_block ParameterPanel.sp_ret_ext
       ParameterPanel.sp_top_step ParameterPanel.sp_pipe_fit_outer
       ParameterPanel.sp_pipe_fit_inner ParameterPanel.sp_pipe_stub_center
       ParameterPanel.sp_pipe_stub_spacing ParameterPanel.sp_front_ref_extra] in *.
  destruct Hr as (Hfl & Hfh & Hod & Hnr & Htpr & Hfpi & Hnc & Htp & Hbp & Hcl & Hcr
                  & Hct & Hcb & Hcthk & Hcd & Hhd & Hrd & Hconn & Hce & Hcg & Hhb
                  & Hre & Hts & Hfo & Hfi & Hsc & Hss & Hfr).
  destruct (tube_option_found _ Hod) as [d [Hd Hdpos]]. rewrite Hd.
  eexists. split; [reflexivity|].
  match goal with |- (forall m, In m (validate_parameters ?r) -> _) /\ _ =>
    set (p := r)
  end.
  pose proof (positive_message_iff p "casing_top" casing_top) as Htop.
  pose proof (positive_message_iff p "casing_bottom" casing_bottom) as Hbottom.
  pose proof (positive_message_iff p "casing_left" casing_left) as Hleft.
  pose proof (positive_message_iff p "casing_right" casing_right) as Hright.
  pose proof (plate_message_iff p) as Hplate.
  cbn [p casing_top casing_bottom casing_left casing_right
       fin_height top_plate bottom_plate] in Htop, Hbottom, Hleft, Hright, Hplate.
  assert (Hin_top : In ("casing_top", casing_top) positive_fields)
    by (unfold positive_fields; simpl; tauto).
  assert (Hin_bottom : In ("casing_bottom", casing_bottom) positive_fields)
    by (unfold positive_fields; simpl; tauto).
  assert (Hin_left : In ("casing_left", casing_left) positive_fields)
    by (unfold positive_fields; simpl; tauto).
  assert (Hin_right : In ("casing_right", casing_right) positive_fields)
    by (unfold positive_fields; simpl; tauto).
  specialize (Htop Hin_top). specialize (Hbottom Hin_bottom).
  specialize (Hleft Hin_left). specialize (Hright Hin_right).
  split; [|split; [|split; [|split; [|split; [|split; [|split]]]]]].
  - intros m Hm. apply validate_message_violated in Hm.
    unfold invariants, positive_fields, count_fields in Hm.
    cbn [p map app In fin_length fin_height tube_diameter casing_top casing_bottom
         casing_left casing_right casing_thickness coil_depth header_depth
         connection_extension connection_vertical_gap top_header_block_length
         top_return_extension top_right_step top_pipe_fitting_outer_offset
         top_pipe_fitting_inner_offset top_pipe_stub_center_offset
         top_pipe_stub_spacing front_left_reference_extra no_of_rows
         tubes_per_row fpi top_plate bottom_plate] in Hm.
    repeat (destruct Hm as [Hm|Hm];
            [ injection Hm as Hname Hb; subst m;
              try (apply Qle_bool_iff in Hb);
              try (apply Z.ltb_lt in Hb);
              first [ exfalso; Lqa.lra | exfalso; lia
                    | now left
                    | now (right; left)
                    | now (do 2 right; left)
                    | now (do 3 right; left)
                    | now (do 4 right; left) ]
            | ]).
    contradiction.
  - rewrite Htop. split; intros H; Lqa.lra.
  - rewrite Hbottom. split; intros H; Lqa.lra.
  - rewrite Hleft. split; intros H; Lqa.lra.
  - rewrite Hright. split; intros H; Lqa.lra.
  - intros Hle. now apply Hplate.
  - intros Hroom Hm. apply Hplate in Hm. Lqa.lra.
  - assert (Hne : fpi p <> 0%Z) by (cbn [p fpi]; lia).
    assert (Hrange : in_float_range p)
      by (apply form_sized_record_in_float_range;
          cbn [p fpi no_of_rows tubes_per_row no_of_circuits fin_height];
          assumption).
    eexists. exact (generate_layout_returns p Hne Hrange).
Qed.

Lemma panel_values_and_validation_witness :
  exists p,
    ParameterPanel._collect_params ParameterPanel.initial_widgets = inr p
    /\ validate_parameters p = [].
Proof.
  assert (Hr : ParameterPanel.within_ranges ParameterPanel.initial_widgets).
  { unfold ParameterPanel.within_ranges, ParameterPanel.initial_widgets.
    cbn -[Qle Z.le]. repeat split; try Lqa.lra; try lia; tauto. }
  destruct (panel_values_and_validation ParameterPanel.initial_widgets Hr)
    as [p [Hp _]].
  exists p. split; [exact Hp|].
  vm_compute in Hp. injection Hp as <-. reflexivity.
Defined.
